(** * fake_job_guru: the risk-scoring pipeline of [scam_detector.py]

    A shallow embedding of [fake_job_guru/scam_detector.py] and the
    properties of its scoring pipeline, with the request validators and
    the handler of [fake_job_guru/api.py] and the derived columns of
    [fake_job_guru/data_enrichment.py].

    Conventions of the embedding.
    - A Python [float] is a binary64 number: Rocq's primitive [float], whose
      operations are specified by [SpecFloat] through [FloatAxioms].
    - A Python [int] is a [Z].
    - A Python [str] is a [string]; its characters are the code points
      0..255 (Latin-1), on which [lower], [strip] and [split] are defined
      exactly as Python defines them.
    - A call that may raise returns a [result]: [Ok v] or [Raise e].
    - The module globals [model] and [_MODEL_PATH] become the explicit
      [Artifact] argument of [predict_job]. *)

From Stdlib Require Import ZArith List String Ascii Bool Lia Floats.
Import ListNotations.

Set Warnings "-inexact-float".

Local Open Scope string_scope.
Local Open Scope Z_scope.

(* ================================================================== *)
(** * Part I: the embedding                                            *)
(* ================================================================== *)

(** ** Exceptions and fallible computations *)

Inductive exn : Set := TypeError | ValueError | OverflowError | IndexError.

Inductive result (A : Type) : Type :=
| Ok (a : A)
| Raise (e : exn).

Arguments Ok {A} a.
Arguments Raise {A} e.

Definition bind {A B : Type} (r : result A) (k : A -> result B) : result B :=
  match r with
  | Ok a => k a
  | Raise e => Raise e
  end.

Notation "x <- r ;; k" := (bind r (fun x => k))
  (at level 61, r at next level, right associativity).

Definition returns {A : Type} (r : result A) : bool :=
  match r with Ok _ => true | Raise _ => false end.

(** ** Python strings over the code points 0..255 *)

Module PyStr.

Definition ord (c : ascii) : N := N_of_ascii c.

(** [str.isspace] on one character: TAB..CR, FS..US, SPACE, NEL, NBSP. *)
Definition isspace (c : ascii) : bool :=
  let n := ord c in
  ((9 <=? n) && (n <=? 13) || (28 <=? n) && (n <=? 32)
   || (n =? 133) || (n =? 160))%N.

(** [str.lower] on one character: A-Z, and the Latin-1 capitals
    U+00C0..U+00DE except the multiplication sign U+00D7. *)
Definition lower_char (c : ascii) : ascii :=
  let n := ord c in
  if ((65 <=? n) && (n <=? 90) || (192 <=? n) && (n <=? 214)
      || (216 <=? n) && (n <=? 222))%N
  then ascii_of_N (n + 32) else c.

Fixpoint lower (s : string) : string :=
  match s with
  | EmptyString => EmptyString
  | String c r => String (lower_char c) (lower r)
  end.

(** [needle in hay] *)
Fixpoint contains (needle hay : string) : bool :=
  prefix needle hay ||
  match hay with
  | EmptyString => false
  | String _ r => contains needle r
  end.

Fixpoint lstrip (s : string) : string :=
  match s with
  | EmptyString => EmptyString
  | String c r => if isspace c then lstrip r else s
  end.

Fixpoint rstrip (s : string) : string :=
  match s with
  | EmptyString => EmptyString
  | String c r =>
      match rstrip r with
      | EmptyString => if isspace c then EmptyString else String c EmptyString
      | r' => String c r'
      end
  end.

(** [s.strip()] *)
Definition strip (s : string) : string := rstrip (lstrip s).

(** [s.split()]: the maximal runs of non-whitespace characters. *)
Fixpoint split (s : string) : list string :=
  match s with
  | EmptyString => []
  | String c r =>
      if isspace c then split r
      else match r with
           | EmptyString => [String c EmptyString]
           | String d _ =>
               if isspace d then String c EmptyString :: split r
               else match split r with
                    | w :: ws => String c w :: ws
                    | [] => [String c EmptyString]
                    end
           end
  end.

(** [sep.join(parts)] *)
Fixpoint join (sep : string) (parts : list string) : string :=
  match parts with
  | [] => EmptyString
  | [p] => p
  | p :: ps => p ++ sep ++ join sep ps
  end.

(** [len(s)] *)
Definition len (s : string) : Z := Z.of_nat (String.length s).

End PyStr.

(** ** Regular expressions: the syntax that occurs in [SCAM_KEYWORDS]

    [re.search(kw, lowered)] compiles the keyword as a pattern.  The ten
    keywords are made of ordinary characters and of the two
    metacharacters [.] (any character but a newline) and [$] (the end of
    the string, or the position before a newline that ends the string);
    [Re.plain] records that no other metacharacter occurs. *)

Module Re.

Inductive atom : Set :=
| Chr (c : ascii)
| AnyChar
| Eol.

Definition compile_char (c : ascii) : atom :=
  if Ascii.eqb c "." then AnyChar
  else if Ascii.eqb c "$" then Eol
  else Chr c.

Fixpoint compile (pat : string) : list atom :=
  match pat with
  | EmptyString => []
  | String c r => compile_char c :: compile r
  end.

Definition newline : ascii := "010".

Definition at_end (s : string) : bool :=
  match s with
  | EmptyString => true
  | String c EmptyString => Ascii.eqb c newline
  | _ => false
  end.

Fixpoint match_here (re : list atom) (s : string) : bool :=
  match re with
  | [] => true
  | Chr c :: re' =>
      match s with
      | String d r => Ascii.eqb c d && match_here re' r
      | EmptyString => false
      end
  | AnyChar :: re' =>
      match s with
      | String d r => negb (Ascii.eqb d newline) && match_here re' r
      | EmptyString => false
      end
  | Eol :: re' => at_end s && match_here re' s
  end.

Fixpoint search_from (re : list atom) (s : string) : bool :=
  match_here re s ||
  match s with
  | EmptyString => false
  | String _ r => search_from re r
  end.

(** [bool(re.search(pat, s))] *)
Definition search (pat s : string) : bool := search_from (compile pat) s.

(** The metacharacters of Python's [re] other than [.] and [$]. *)
Definition other_meta (c : ascii) : bool :=
  existsb (Ascii.eqb c)
    ["\"; "^"; "*"; "+"; "?"; "{"; "}"; "["; "]"; "("; ")"; "|"]%char.

Fixpoint plain (pat : string) : bool :=
  match pat with
  | EmptyString => true
  | String c r => negb (other_meta c) && plain r
  end.

End Re.

(** ** Python floats: binary64 with the builtins the module uses *)

Module PyFloat.

Local Open Scope float_scope.

(** [min(a, b)] and [max(a, b)] keep their first argument unless the
    second one compares strictly below (above) it. *)
Definition min (a b : float) : float := if b <? a then b else a.
Definition max (a b : float) : float := if a <? b then b else a.

(** [a >= b] and [a != b] *)
Definition ge (a b : float) : bool := b <=? a.
Definition ne (a b : float) : bool := negb (a =? b).

(** The conversion of an [int] operand in [float * int]: the nearest
    binary64 number, ties to even; [OverflowError] when there is none. *)
Definition of_int (z : Z) : result float :=
  match binary_normalize prec emax z 0 false with
  | S754_infinity _ => Raise OverflowError
  | sf => Ok (SF2Prim sf)
  end.

(** The integer nearest to [m * 2^e], ties to even, for [0 <= m]. *)
Definition rne_shift (m e : Z) : Z :=
  if (0 <=? e)%Z then (m * 2 ^ e)%Z
  else
    let d := (2 ^ (- e))%Z in
    let q := (m / d)%Z in
    match (2 * (m mod d) ?= d)%Z with
    | Lt => q
    | Gt => (q + 1)%Z
    | Eq => if Z.even q then q else (q + 1)%Z
    end.

Definition ten_thousand : spec_float := S754_finite false 10000 0.

(** [round(x, 4)]: the decimal with four fractional digits nearest to the
    exact value of [x] (ties to even), converted back to the nearest
    binary64 number; a NaN or an infinity is returned as it is. *)
Definition round4 (x : float) : float :=
  match Prim2SF x with
  | S754_finite s m e =>
      match rne_shift (Zpos m * 10000) e with
      | Zpos n => SF2Prim (SFdiv prec emax (S754_finite s n 0) ten_thousand)
      | _ => if s then neg_zero else zero
      end
  | _ => x
  end.

(** [int(x)] for a float: truncation towards zero. *)
Definition trunc (x : float) : result Z :=
  match Prim2SF x with
  | S754_nan => Raise ValueError
  | S754_infinity _ => Raise OverflowError
  | S754_zero _ => Ok 0%Z
  | S754_finite s m e =>
      let a := Z.shiftl (Zpos m) e in
      Ok (if s then (- a)%Z else a)
  end.

(** [0 <= x <= 1] *)
Definition in_unit (x : float) : bool := (0 <=? x) && (x <=? 1).

End PyFloat.

(** ** Python values passed for the numeric parameters *)

Module Py.

Inductive value : Set :=
| VNone
| VBool (b : bool)
| VInt (z : Z)
| VFloat (f : float)
| VStr (s : string).

Definition is_none (v : value) : bool :=
  match v with VNone => true | _ => false end.

Definition is_digit (c : ascii) : bool :=
  let n := PyStr.ord c in ((48 <=? n) && (n <=? 57))%N.

Definition digit_value (c : ascii) : Z := Z.of_N (PyStr.ord c) - 48.

(** Decimal digits with single underscores between them. *)
Fixpoint digits (s : string) (acc : Z) (after_underscore : bool) : option Z :=
  match s with
  | EmptyString => if after_underscore then None else Some acc
  | String c r =>
      if is_digit c then digits r (10 * acc + digit_value c) false
      else if Ascii.eqb c "_" && negb after_underscore then digits r acc true
      else None
  end.

Definition unsigned_literal (s : string) : option Z :=
  match s with
  | String c _ => if is_digit c then digits s 0 false else None
  | EmptyString => None
  end.

(** [int(s)] for a string: surrounding whitespace, an optional sign, a
    decimal literal.  The interpreter's optional limit on the length of
    such a literal is left out. *)
Definition int_of_str (s : string) : result Z :=
  let t := PyStr.strip s in
  let '(neg, body) :=
    match t with
    | String "-" r => (true, r)
    | String "+" r => (false, r)
    | _ => (false, t)
    end in
  match unsigned_literal body with
  | Some n => Ok (if neg then - n else n)
  | None => Raise ValueError
  end.

(** [int(v)] *)
Definition int (v : value) : result Z :=
  match v with
  | VNone => Raise TypeError
  | VBool b => Ok (if b then 1 else 0)
  | VInt z => Ok z
  | VFloat f => PyFloat.trunc f
  | VStr s => int_of_str s
  end.

(** [str(s or '')] for an optional string *)
Definition str_or_empty (s : option string) : string :=
  match s with Some t => t | None => EmptyString end.

(** [not s] for an optional string: [None] and the empty string are falsy. *)
Definition falsy (s : option string) : bool :=
  match s with
  | None | Some EmptyString => true
  | Some _ => false
  end.

End Py.

(** ** The loaded artifact

    [model] is opaque: what the module asks of it is [predict_proba] on
    one text and, when the attribute exists, [classes_].  A class label is
    an integer or a string. *)

Inductive label : Set :=
| LInt (z : Z)
| LStr (s : string).

Record Artifact : Type := {
  predict_proba : string -> list float;
  classes_ : option (list label);
  _MODEL_PATH : string
}.

(** [label == 1] *)
Definition is_one (l : label) : bool :=
  match l with
  | LInt 1 => true
  | _ => false
  end.

(** [classes.index(1)]: [None] stands for the [ValueError] of a list
    without the label. *)
Fixpoint index_of_one (classes : list label) : option nat :=
  match classes with
  | [] => None
  | l :: ls => if is_one l then Some O else option_map S (index_of_one ls)
  end.

(** ** The module [scam_detector] *)

Definition SCAM_KEYWORDS : list string :=
  [ "work from home"; "no experience"; "quick money";
    "earn $"; "gmail.com"; "telegram"; "whatsapp";
    "fast cash"; "limited slots"; "easy income" ].

Definition _safe_int (value : Py.value) (default : Z) : result Z :=
  match (if Py.is_none value then Ok default else Py.int value) with
  | Raise TypeError | Raise ValueError => Ok default
  | r => r
  end.

Definition _compute_company_strength (followers employees : Z) : string :=
  if (followers <? 500) || (employees <? 20) then "weak"
  else if (500 <=? followers) && (followers <=? 5000) then "medium"
  else "strong".

Module Heur.
Record t : Set := {
  missing_website_flag : Z;
  suspicious_email_flag : Z;
  short_profile_flag : Z;
  suspicion_score : Z
}.
End Heur.

Definition suspicious_terms : list string :=
  [ "gmail"; "yahoo"; "telegram"; "whatsapp" ].

Definition suspicious_contact (text : string) : Z :=
  let lowered := PyStr.lower text in
  if existsb (fun term => PyStr.contains term lowered) suspicious_terms
  then 1 else 0.

Definition _heuristic_flags (company_profile description requirements : option string)
  : Heur.t :=
  let text_profile := Py.str_or_empty company_profile in
  let text_desc := Py.str_or_empty description in
  let text_req := Py.str_or_empty requirements in
  let missing_website_flag :=
    if (PyStr.len text_profile =? 0)
       || negb (PyStr.contains "http" (PyStr.lower text_profile))
    then 1 else 0 in
  let suspicious_email_flag :=
    if negb (suspicious_contact text_desc =? 0)
       || negb (suspicious_contact text_req =? 0)
    then 1 else 0 in
  let short_profile_flag :=
    if (PyStr.len (PyStr.strip text_profile) =? 0)
       || (Z.of_nat (List.length (PyStr.split text_profile)) <? 30)
    then 1 else 0 in
  let suspicion_score :=
    missing_website_flag + suspicious_email_flag + short_profile_flag in
  {| Heur.missing_website_flag := missing_website_flag;
     Heur.suspicious_email_flag := suspicious_email_flag;
     Heur.short_profile_flag := short_profile_flag;
     Heur.suspicion_score := suspicion_score |}.

Module Breakdown.
Record t : Set := {
  model_probability : float;
  weak_company : float;
  suspicion_score : float;
  keyword_hits : float;
  clamped : bool
}.
End Breakdown.

Module Risk.
Record t : Set := {
  score : float;
  breakdown : Breakdown.t
}.
End Risk.

Definition _composite_risk (prob_scam : float) (weak_company : bool)
  (suspicion_score keyword_hits : Z) : result Risk.t :=
  let base := prob_scam in
  let contrib_weak_company := (if weak_company then 0.08 else 0.0)%float in
  s <- PyFloat.of_int (Z.max 0 suspicion_score) ;;
  let contrib_suspicion := PyFloat.min 0.12 (0.04 * s) in
  k <- PyFloat.of_int (Z.max 0 keyword_hits) ;;
  let contrib_keywords := PyFloat.min 0.10 (0.03 * k) in
  let raw_score :=
    (base + contrib_weak_company + contrib_suspicion + contrib_keywords)%float in
  let score := PyFloat.max 0.0 (PyFloat.min 1.0 raw_score) in
  Ok {| Risk.score := score;
        Risk.breakdown :=
          {| Breakdown.model_probability := base;
             Breakdown.weak_company := contrib_weak_company;
             Breakdown.suspicion_score := contrib_suspicion;
             Breakdown.keyword_hits := contrib_keywords;
             Breakdown.clamped := PyFloat.ne score raw_score |} |}.

(** The keyword arguments of [predict_job]; an omitted argument is [None]. *)
Module Args.
Record t : Set := {
  title : option string;
  description : option string;
  requirements : option string;
  company_profile : option string;
  followers : Py.value;
  employees : Py.value;
  engagement : Py.value;
  company_strength : option string;
  missing_website_flag : Py.value;
  suspicious_email_flag : Py.value;
  short_profile_flag : Py.value;
  suspicion_score : Py.value
}.
End Args.

Module Probabilities.
Record t : Set := { scam : float; legit : float }.
End Probabilities.

Module Signals.
Record t : Set := {
  keywords_triggered : list string;
  weak_company : bool;
  company_strength : string;
  followers : Z;
  employees : Z;
  engagement : Z;
  missing_website_flag : Z;
  suspicious_email_flag : Z;
  short_profile_flag : Z;
  suspicion_score : Z
}.
End Signals.

Module Prediction.
Record t : Set := {
  prediction : string;
  probabilities : Probabilities.t;
  risk_score : float;
  signals : Signals.t;
  risk_breakdown : Breakdown.t;
  model_artifact : string
}.
End Prediction.

(** The text handed to the model: the four fields joined by single spaces. *)
Definition combined_text (a : Args.t) : string :=
  PyStr.join " "
    [ Py.str_or_empty (Args.title a);
      Py.str_or_empty (Args.description a);
      Py.str_or_empty (Args.requirements a);
      Py.str_or_empty (Args.company_profile a) ].

(** The position of the scam probability in [proba]. *)
Definition idx_scam (model : Artifact) (proba : list float) : nat :=
  let classes :=
    match classes_ model with
    | Some cs => cs
    | None => [LInt 0; LInt 1]
    end in
  match index_of_one classes with
  | Some i => i
  | None => if (1 <? List.length proba)%nat then 1%nat else 0%nat
  end.

(** [float(proba[idx_scam])] *)
Definition prob_scam (model : Artifact) (text : string) : result float :=
  let proba := predict_proba model text in
  match nth_error proba (idx_scam model proba) with
  | Some p => Ok p
  | None => Raise IndexError
  end.

(** [[kw for kw in SCAM_KEYWORDS if re.search(kw, lowered)]] *)
Definition found_keywords (lowered : string) : list string :=
  filter (fun kw => Re.search kw lowered) SCAM_KEYWORDS.

(** [heur[field] if supplied is None else supplied] *)
Definition prefer (supplied : Py.value) (heur : Z) : Py.value :=
  if Py.is_none supplied then Py.VInt heur else supplied.

Definition predict_job (model : Artifact) (a : Args.t) : result Prediction.t :=
  let text := combined_text a in
  prob_scam <- prob_scam model text ;;
  let lowered := PyStr.lower text in
  let found_keywords := found_keywords lowered in
  followers_i <- _safe_int (Args.followers a) 0 ;;
  employees_i <- _safe_int (Args.employees a) 0 ;;
  engagement_i <- _safe_int (Args.engagement a) 0 ;;
  let company_strength :=
    if Py.falsy (Args.company_strength a)
    then _compute_company_strength followers_i employees_i
    else Py.str_or_empty (Args.company_strength a) in
  let weak_company :=
    (followers_i <? 500) || (employees_i <? 10) || (engagement_i <? 5) in
  let any_omitted :=
    Py.is_none (Args.missing_website_flag a)
    || Py.is_none (Args.suspicious_email_flag a)
    || Py.is_none (Args.short_profile_flag a)
    || Py.is_none (Args.suspicion_score a) in
  let heur :=
    _heuristic_flags (Args.company_profile a) (Args.description a)
      (Args.requirements a) in
  let missing_website_flag :=
    if any_omitted
    then prefer (Args.missing_website_flag a) (Heur.missing_website_flag heur)
    else Args.missing_website_flag a in
  let suspicious_email_flag :=
    if any_omitted
    then prefer (Args.suspicious_email_flag a) (Heur.suspicious_email_flag heur)
    else Args.suspicious_email_flag a in
  let short_profile_flag :=
    if any_omitted
    then prefer (Args.short_profile_flag a) (Heur.short_profile_flag heur)
    else Args.short_profile_flag a in
  let suspicion_score :=
    if any_omitted
    then prefer (Args.suspicion_score a) (Heur.suspicion_score heur)
    else Args.suspicion_score a in
  suspicion_i <- Py.int suspicion_score ;;
  risk <- _composite_risk prob_scam weak_company suspicion_i
            (Z.of_nat (List.length found_keywords)) ;;
  let risk_score := Risk.score risk in
  let prediction_label :=
    if PyFloat.ge prob_scam 0.5 then "scam" else "legit" in
  missing_website_i <- Py.int missing_website_flag ;;
  suspicious_email_i <- Py.int suspicious_email_flag ;;
  short_profile_i <- Py.int short_profile_flag ;;
  suspicion_out <- Py.int suspicion_score ;;
  Ok {| Prediction.prediction := prediction_label;
        Prediction.probabilities :=
          {| Probabilities.scam := PyFloat.round4 prob_scam;
             Probabilities.legit := PyFloat.round4 (1.0 - prob_scam) |};
        Prediction.risk_score := PyFloat.round4 risk_score;
        Prediction.signals :=
          {| Signals.keywords_triggered := found_keywords;
             Signals.weak_company := weak_company;
             Signals.company_strength := company_strength;
             Signals.followers := followers_i;
             Signals.employees := employees_i;
             Signals.engagement := engagement_i;
             Signals.missing_website_flag := missing_website_i;
             Signals.suspicious_email_flag := suspicious_email_i;
             Signals.short_profile_flag := short_profile_i;
             Signals.suspicion_score := suspicion_out |};
        Prediction.risk_breakdown := Risk.breakdown risk;
        Prediction.model_artifact := _MODEL_PATH model |}.

(** ** The claims' own words, to compare with the code

    [keywords_literal] is keyword matching by literal substring;
    [idx_scam_spec] is the extraction policy with the fallback taken both
    when the lookup fails and when the model has no [classes_];
    [clamp01] is the textbook clamp; [weak_company_contrib],
    [capped_contrib] and [raw_sum] are the three contributions and their
    sum with the model probability. *)

Definition keywords_literal (lowered : string) : list string :=
  filter (fun kw => PyStr.contains kw lowered) SCAM_KEYWORDS.

(** A pattern without [.] and [$]. *)
Fixpoint literal (pat : string) : bool :=
  match pat with
  | EmptyString => true
  | String c r => negb (Ascii.eqb c ".") && negb (Ascii.eqb c "$") && literal r
  end.

Definition fallback_index (proba : list float) : nat :=
  if (1 <? List.length proba)%nat then 1%nat else 0%nat.

Definition idx_scam_spec (model : Artifact) (proba : list float) : nat :=
  match classes_ model with
  | Some cs =>
      match index_of_one cs with
      | Some i => i
      | None => fallback_index proba
      end
  | None => fallback_index proba
  end.

Definition clamp01 (x : float) : float :=
  (if x <? 0 then 0 else if 1 <? x then 1 else x)%float.

Definition weak_company_contrib (weak_company : bool) : float :=
  (if weak_company then 0.08 else 0)%float.

(** [min(cap, weight * max(0, n))] *)
Definition capped_contrib (cap weight : float) (n : Z) : result float :=
  f <- PyFloat.of_int (Z.max 0 n) ;; Ok (PyFloat.min cap (weight * f)).

Definition raw_sum (bd : Breakdown.t) : float :=
  (Breakdown.model_probability bd + Breakdown.weak_company bd
   + Breakdown.suspicion_score bd + Breakdown.keyword_hits bd)%float.

(** Numeric arguments as the type hints have them. *)
Definition int_or_none (v : Py.value) : bool :=
  match v with
  | Py.VNone | Py.VInt _ => true
  | _ => false
  end.

Definition below_overflow (v : Py.value) : bool :=
  match v with
  | Py.VNone => true
  | Py.VInt z => z <? 2 ^ 1023
  | _ => false
  end.

(** ** Inputs and models of the examples *)

Definition no_args : Args.t :=
  {| Args.title := None; Args.description := None; Args.requirements := None;
     Args.company_profile := None;
     Args.followers := Py.VNone; Args.employees := Py.VNone;
     Args.engagement := Py.VNone; Args.company_strength := None;
     Args.missing_website_flag := Py.VNone; Args.suspicious_email_flag := Py.VNone;
     Args.short_profile_flag := Py.VNone; Args.suspicion_score := Py.VNone |}.

Definition with_title (t : string) : Args.t :=
  {| Args.title := Some t; Args.description := None; Args.requirements := None;
     Args.company_profile := None;
     Args.followers := Py.VNone; Args.employees := Py.VNone;
     Args.engagement := Py.VNone; Args.company_strength := None;
     Args.missing_website_flag := Py.VNone; Args.suspicious_email_flag := Py.VNone;
     Args.short_profile_flag := Py.VNone; Args.suspicion_score := Py.VNone |}.

Definition with_followers (v : Py.value) : Args.t :=
  {| Args.title := None; Args.description := None; Args.requirements := None;
     Args.company_profile := None;
     Args.followers := v; Args.employees := Py.VNone;
     Args.engagement := Py.VNone; Args.company_strength := None;
     Args.missing_website_flag := Py.VNone; Args.suspicious_email_flag := Py.VNone;
     Args.short_profile_flag := Py.VNone; Args.suspicion_score := Py.VNone |}.

Definition with_suspicion (v : Py.value) : Args.t :=
  {| Args.title := None; Args.description := None; Args.requirements := None;
     Args.company_profile := None;
     Args.followers := Py.VNone; Args.employees := Py.VNone;
     Args.engagement := Py.VNone; Args.company_strength := None;
     Args.missing_website_flag := Py.VNone; Args.suspicious_email_flag := Py.VNone;
     Args.short_profile_flag := Py.VNone; Args.suspicion_score := v |}.

(** The first call of the module's self-test. *)
Definition scam_test : Args.t :=
  {| Args.title := Some "Data Entry Clerk";
     Args.description :=
       Some "Earn $500/day working from home. No experience required. Apply via Gmail.";
     Args.requirements := Some "Basic typing skills";
     Args.company_profile := Some "Small startup";
     Args.followers := Py.VInt 120; Args.employees := Py.VInt 3;
     Args.engagement := Py.VInt 1; Args.company_strength := None;
     Args.missing_website_flag := Py.VNone; Args.suspicious_email_flag := Py.VNone;
     Args.short_profile_flag := Py.VNone; Args.suspicion_score := Py.VNone |}.

(** A posting whose text yields a suspicion score of 3, sent with the
    score 0. *)
Definition scenario_c : Args.t :=
  {| Args.title := Some "Assistant";
     Args.description := Some "Message us on WhatsApp to apply";
     Args.requirements := None;
     Args.company_profile := Some "Small startup";
     Args.followers := Py.VInt 120; Args.employees := Py.VInt 3;
     Args.engagement := Py.VInt 1; Args.company_strength := None;
     Args.missing_website_flag := Py.VNone; Args.suspicious_email_flag := Py.VNone;
     Args.short_profile_flag := Py.VNone; Args.suspicion_score := Py.VInt 0 |}.

(** No text, every enrichment argument supplied. *)
Definition enriched_args : Args.t :=
  {| Args.title := None; Args.description := None; Args.requirements := None;
     Args.company_profile := None;
     Args.followers := Py.VInt 450000; Args.employees := Py.VStr "1200";
     Args.engagement := Py.VInt 200; Args.company_strength := Some "strong";
     Args.missing_website_flag := Py.VInt 0; Args.suspicious_email_flag := Py.VInt 0;
     Args.short_profile_flag := Py.VInt 0; Args.suspicion_score := Py.VInt 3 |}.

(** A company profile of exactly thirty words, nothing else supplied. *)
Definition thirty_words : Args.t :=
  {| Args.title := None; Args.description := None; Args.requirements := None;
     Args.company_profile :=
       Some "we build and run software for small clinics and schools in three countries and we publish our audited accounts each spring for every client partner to read and check online";
     Args.followers := Py.VNone; Args.employees := Py.VNone;
     Args.engagement := Py.VNone; Args.company_strength := None;
     Args.missing_website_flag := Py.VNone; Args.suspicious_email_flag := Py.VNone;
     Args.short_profile_flag := Py.VNone; Args.suspicion_score := Py.VNone |}.

(** A two-class model that gives every text the scam probability [p]. *)
Definition demo_model (p : float) : Artifact :=
  {| predict_proba := fun _ => [(1 - p)%float; p];
     classes_ := Some [LInt 0; LInt 1];
     _MODEL_PATH := "models/scam_detector.pkl" |}.

(** A model without [classes_] that gives every text the vector [proba]. *)
Definition bare_model (proba : list float) : Artifact :=
  {| predict_proba := fun _ => proba;
     classes_ := None;
     _MODEL_PATH := "models/scam_detector.pkl" |}.

Definition keywords_of (r : result Prediction.t) : result (list string) :=
  x <- r ;; Ok (Signals.keywords_triggered (Prediction.signals x)).

Definition followers_of (r : result Prediction.t) : result Z :=
  x <- r ;; Ok (Signals.followers (Prediction.signals x)).

Definition raised {A : Type} (r : result A) : option exn :=
  match r with Ok _ => None | Raise e => Some e end.

(** ** Binary64 arithmetic: auxiliary definitions

    The definitions used to reason about the rounding performed by
    [SpecFloat]'s addition, multiplication and integer conversion:
    integer mantissas with binary exponents, and the order of
    [SFcompare] as a lexicographic order. *)

Module B64.

(** The integer nearest to [a / d], ties to even. *)
Definition rne_div (a d : Z) : Z :=
  let q := a / d in
  match 2 * (a mod d) ?= d with
  | Lt => q
  | Gt => q + 1
  | Eq => if Z.even q then q else q + 1
  end.

(** The number of binary digits of a mantissa. *)
Definition dg (m : positive) : Z := Zpos (digits2_pos m).

(** What [k] steps of [shr_1] have made of the mantissa [m0]: the
    quotient by [2^k], with the round and sticky bits locating the
    remainder below, at or above one half. *)
Definition shr_inv (m0 k : Z) (mrs : shr_record) : Prop :=
  shr_m mrs = m0 / 2 ^ k /\
  match shr_r mrs, shr_s mrs with
  | false, false => m0 mod 2 ^ k = 0
  | false, true => 0 < 2 * (m0 mod 2 ^ k) < 2 ^ k
  | true, false => 2 * (m0 mod 2 ^ k) = 2 ^ k
  | true, true => 2 ^ k < 2 * (m0 mod 2 ^ k)
  end.

(** The exponent binary64 gives the number [m * 2^e]. *)
Definition cexp (m : positive) (e : Z) : Z := Z.max (dg m + e - 53) (-1074).

(** The number of sign [s], mantissa [n <= 2^53] and exponent [E]:
    renormalised when [n = 2^53], infinite beyond the largest exponent. *)
Definition pack (s : bool) (n E : Z) : spec_float :=
  match n with
  | Z0 => S754_zero s
  | Zpos p =>
      if n =? 2 ^ 53 then
        if E + 1 <=? 971 then S754_finite s (2 ^ 52)%positive (E + 1)
        else S754_infinity s
      else if E <=? 971 then S754_finite s p E else S754_infinity s
  | Zneg _ => S754_nan
  end.

(** [m * 2^e] rounded to binary64, with the sign [s]. *)
Definition rnd (s : bool) (m : positive) (e : Z) : spec_float :=
  let E := cexp m e in
  pack s (PyFloat.rne_shift (Zpos m) (e - E)) E.

(** [M * 2^e] rounded to binary64, for a signed [M]. *)
Definition rndZ (M e : Z) : spec_float :=
  match M with
  | Z0 => S754_zero false
  | Zpos m => rnd false m e
  | Zneg m => rnd true m e
  end.

(** [M1 * 2^e1 <= M2 * 2^e2], stated over the integers. *)
Definition dle (M1 e1 M2 e2 : Z) : Prop :=
  M1 * 2 ^ (e1 - Z.min e1 e2) <= M2 * 2 ^ (e2 - Z.min e1 e2).

Definition fin_or_inf (s : bool) (E n : Z) : spec_float :=
  if E <=? 971 then S754_finite s (Z.to_pos n) E else S754_infinity s.

(** A zero, a finite number or an infinity of the sign [s]. *)
Definition signed_as (s : bool) (x : spec_float) : Prop :=
  match x with
  | S754_zero s' | S754_infinity s' | S754_finite s' _ _ => s' = s
  | S754_nan => False
  end.

(** [SFcompare] orders the numbers as their keys, lexicographically. *)
Definition key (x : spec_float) : Z * Z * Z :=
  match x with
  | S754_infinity true => (-2, 0, 0)
  | S754_finite true m e => (-1, - e, - Zpos m)
  | S754_zero _ => (0, 0, 0)
  | S754_nan => (0, 0, 0)
  | S754_finite false m e => (1, e, Zpos m)
  | S754_infinity false => (2, 0, 0)
  end.

Definition lexle (a b : Z * Z * Z) : Prop :=
  let '(a1, a2, a3) := a in
  let '(b1, b2, b3) := b in
  a1 < b1 \/ (a1 = b1 /\ (a2 < b2 \/ (a2 = b2 /\ a3 <= b3))).

Definition lexlt (a b : Z * Z * Z) : Prop :=
  let '(a1, a2, a3) := a in
  let '(b1, b2, b3) := b in
  a1 < b1 \/ (a1 = b1 /\ (a2 < b2 \/ (a2 = b2 /\ a3 < b3))).

Definition not_nan (x : spec_float) : bool :=
  match x with S754_nan => false | _ => true end.

Ltac cmp_cases :=
  repeat match goal with
    | |- context [Z.compare ?a ?b] => destruct (Z.compare_spec a b)
    | |- context [Pos.compare_cont Eq ?a ?b] =>
        change (Pos.compare_cont Eq a b) with (Pos.compare a b);
        destruct (Pos.compare_spec a b)
    end.

(** A zero or a finite number. *)
Definition fin (x : spec_float) : bool :=
  match x with
  | S754_zero _ | S754_finite _ _ _ => true
  | _ => false
  end.

(** The signed mantissa of a finite number. *)
Definition sval (x : spec_float) : Z :=
  match x with
  | S754_finite s m _ => if s then Zneg m else Zpos m
  | _ => 0
  end.

(** Its exponent, [d] for a zero. *)
Definition sexp (d : Z) (x : spec_float) : Z :=
  match x with
  | S754_finite _ _ e => e
  | _ => d
  end.

(** The mantissa of the exact sum, at the smaller exponent. *)
Definition sum_rep (M1 e1 M2 e2 : Z) : Z :=
  M1 * 2 ^ (e1 - Z.min e1 e2) + M2 * 2 ^ (e2 - Z.min e1 e2).

(** [+0.0] or a positive finite number. *)
Definition nonneg (x : spec_float) : bool :=
  match x with
  | S754_zero false | S754_finite false _ _ => true
  | _ => false
  end.

Definition sf (x : float) : spec_float := Prim2SF x.

(** The score as [_composite_risk] computes it from the raw sum. *)
Definition clamp (r : float) : float := PyFloat.max 0 (PyFloat.min 1 r).

(** The quotient [n / 10000] taken by [round4], and the check that it is
    a valid number of the unit interval. *)
Definition quotient4 (n : positive) : spec_float :=
  SFdiv prec emax (S754_finite false n 0) PyFloat.ten_thousand.

Definition quotient4_ok (n : positive) : bool :=
  valid_binary (quotient4 n)
  && SFleb (S754_zero false) (quotient4 n)
  && SFleb (quotient4 n) (S754_finite false 4503599627370496 (-52)).

End B64.

(** ** Notions used to state further properties of [scam_detector] *)

(** [s.endswith(suffix)] *)
Fixpoint endswith (s suffix : string) : bool :=
  String.eqb s suffix ||
  match s with
  | EmptyString => false
  | String _ r => endswith r suffix
  end.

(** The string of the single character [c]. *)
Definition char (c : ascii) : string := String c EmptyString.

(** The call [a] with [company_strength=cs] instead of its own. *)
Definition with_company_strength (cs : option string) (a : Args.t) : Args.t :=
  {| Args.title := Args.title a;
     Args.description := Args.description a;
     Args.requirements := Args.requirements a;
     Args.company_profile := Args.company_profile a;
     Args.followers := Args.followers a;
     Args.employees := Args.employees a;
     Args.engagement := Args.engagement a;
     Args.company_strength := cs;
     Args.missing_website_flag := Args.missing_website_flag a;
     Args.suspicious_email_flag := Args.suspicious_email_flag a;
     Args.short_profile_flag := Args.short_profile_flag a;
     Args.suspicion_score := Args.suspicion_score a |}.

(** The result [r] with another [signals.company_strength]. *)
Definition set_company_strength (cs : string) (r : Prediction.t) : Prediction.t :=
  let s := Prediction.signals r in
  {| Prediction.prediction := Prediction.prediction r;
     Prediction.probabilities := Prediction.probabilities r;
     Prediction.risk_score := Prediction.risk_score r;
     Prediction.signals :=
       {| Signals.keywords_triggered := Signals.keywords_triggered s;
          Signals.weak_company := Signals.weak_company s;
          Signals.company_strength := cs;
          Signals.followers := Signals.followers s;
          Signals.employees := Signals.employees s;
          Signals.engagement := Signals.engagement s;
          Signals.missing_website_flag := Signals.missing_website_flag s;
          Signals.suspicious_email_flag := Signals.suspicious_email_flag s;
          Signals.short_profile_flag := Signals.short_profile_flag s;
          Signals.suspicion_score := Signals.suspicion_score s |};
     Prediction.risk_breakdown := Prediction.risk_breakdown r;
     Prediction.model_artifact := Prediction.model_artifact r |}.

(** A call with the requirements only. *)
Definition with_requirements (t : string) : Args.t :=
  {| Args.title := None; Args.description := None; Args.requirements := Some t;
     Args.company_profile := None;
     Args.followers := Py.VNone; Args.employees := Py.VNone;
     Args.engagement := Py.VNone; Args.company_strength := None;
     Args.missing_website_flag := Py.VNone; Args.suspicious_email_flag := Py.VNone;
     Args.short_profile_flag := Py.VNone; Args.suspicion_score := Py.VNone |}.

(** The least count whose conversion to a float overflows:
    [2^1024 - 2^970], half a unit in the last place above the largest
    binary64 number. *)
Definition overflow_threshold : Z := 2 ^ 1024 - 2 ^ 970.

(** An infinite float, the one value that [_safe_int] does not take. *)
Definition is_infinite_float (v : Py.value) : bool :=
  match v with
  | Py.VFloat f =>
      match Prim2SF f with
      | S754_infinity _ => true
      | _ => false
      end
  | _ => false
  end.

(** The argument is omitted, or [int] takes it. *)
Definition int_accepts (v : Py.value) : bool :=
  Py.is_none v || returns (Py.int v).

(** The argument is omitted, or [int] makes of it a number below [bound]. *)
Definition int_below (bound : Z) (v : Py.value) : bool :=
  Py.is_none v ||
  match Py.int v with
  | Ok z => z <? bound
  | Raise _ => false
  end.

(** The rounded quotient [n / 10000] of [round4] as a float, and the
    check that the next quotient is not smaller. *)
Definition quotient4_float (n : positive) : float := SF2Prim (B64.quotient4 n).

Definition quotient4_step_ok (n : positive) : bool :=
  (quotient4_float n <=? quotient4_float (Pos.succ n))%float.

(** ** The module [api]: the request validators and the handler *)

Module Api.

Definition allowed : list string := ["weak"; "medium"; "strong"].

(** [AnalyzeJobRequest.validate_company_strength], run on the field once
    it is a string or [None]. *)
Definition validate_company_strength (v : option string) : result (option string) :=
  match v with
  | None => Ok None
  | Some s =>
      let lv := PyStr.lower s in
      if negb (existsb (String.eqb lv) allowed) then Raise ValueError
      else Ok (Some lv)
  end.

(** [AnalyzeJobRequest.validate_binary_flags], run on the raw value of the
    request ([mode="before"]): every exception of [int(v)] becomes a
    [ValueError]. *)
Definition validate_binary_flags (v : Py.value) : result Py.value :=
  if Py.is_none v then Ok v
  else
    match Py.int v with
    | Raise _ => Raise ValueError
    | Ok iv =>
        if negb ((iv =? 0) || (iv =? 1)) then Raise ValueError
        else Ok (Py.VInt iv)
    end.

(** A validated request: every [Optional[int]] field holds an integer or
    [None], every [Optional[str]] field a string or [None]. *)
Module AnalyzeJobRequest.
Record t : Set := {
  title : option string;
  description : option string;
  requirements : option string;
  company_profile : option string;
  company_followers : option Z;
  company_employees : option Z;
  engagement_score : option Z;
  company_strength : option string;
  missing_website_flag : option Z;
  suspicious_email_flag : option Z;
  short_profile_flag : option Z;
  suspicion_score : option Z
}.
End AnalyzeJobRequest.

Module AnalyzeJobResponse.
Record t : Set := {
  prediction : string;
  probabilities : Probabilities.t;
  risk_score : float;
  signals : Signals.t
}.
End AnalyzeJobResponse.

(** What the handler gives back: a response, or [HTTPException] with a
    status code. *)
Inductive reply : Set :=
| Response (r : AnalyzeJobResponse.t)
| HTTPException (status_code : Z).

Definition optional_int (o : option Z) : Py.value :=
  match o with
  | Some z => Py.VInt z
  | None => Py.VNone
  end.

(** The keyword arguments that [analyze_job] passes to [predict_job]. *)
Definition arguments (payload : AnalyzeJobRequest.t) : Args.t :=
  {| Args.title := AnalyzeJobRequest.title payload;
     Args.description := AnalyzeJobRequest.description payload;
     Args.requirements := AnalyzeJobRequest.requirements payload;
     Args.company_profile := AnalyzeJobRequest.company_profile payload;
     Args.followers := optional_int (AnalyzeJobRequest.company_followers payload);
     Args.employees := optional_int (AnalyzeJobRequest.company_employees payload);
     Args.engagement := optional_int (AnalyzeJobRequest.engagement_score payload);
     Args.company_strength := AnalyzeJobRequest.company_strength payload;
     Args.missing_website_flag :=
       optional_int (AnalyzeJobRequest.missing_website_flag payload);
     Args.suspicious_email_flag :=
       optional_int (AnalyzeJobRequest.suspicious_email_flag payload);
     Args.short_profile_flag :=
       optional_int (AnalyzeJobRequest.short_profile_flag payload);
     Args.suspicion_score := optional_int (AnalyzeJobRequest.suspicion_score payload) |}.

(** [analyze_job] without its logging: the result of [predict_job] is
    cut down to the four fields of the response model, which takes every
    result of [predict_job], and an exception of [predict_job] is
    answered with the status 500. *)
Definition analyze_job (model : Artifact) (payload : AnalyzeJobRequest.t) : reply :=
  match predict_job model (arguments payload) with
  | Ok result =>
      Response
        {| AnalyzeJobResponse.prediction := Prediction.prediction result;
           AnalyzeJobResponse.probabilities := Prediction.probabilities result;
           AnalyzeJobResponse.risk_score := Prediction.risk_score result;
           AnalyzeJobResponse.signals := Prediction.signals result |}
  | Raise _ => HTTPException 500
  end.

(** A validated request for a clerk's posting of a company with 120
    followers and 3 employees, with a company strength, a website flag
    and a suspicion score. *)
Definition clerk_request (strength : option string) (flag suspicion : option Z)
  : AnalyzeJobRequest.t :=
  {| AnalyzeJobRequest.title := Some "Clerk";
     AnalyzeJobRequest.description := None;
     AnalyzeJobRequest.requirements := None;
     AnalyzeJobRequest.company_profile := None;
     AnalyzeJobRequest.company_followers := Some 120;
     AnalyzeJobRequest.company_employees := Some 3;
     AnalyzeJobRequest.engagement_score := None;
     AnalyzeJobRequest.company_strength := strength;
     AnalyzeJobRequest.missing_website_flag := flag;
     AnalyzeJobRequest.suspicious_email_flag := None;
     AnalyzeJobRequest.short_profile_flag := None;
     AnalyzeJobRequest.suspicion_score := suspicion |}.

End Api.

(** ** The script [data_enrichment]: the columns derived for one row *)

Module Enrichment.

(** A text cell of the data frame: a string, or NaN where the file has
    no value. *)
Inductive cell : Set :=
| NaN
| Text (s : string).

(** [pd.isna(x)] *)
Definition isna (x : cell) : bool :=
  match x with
  | NaN => true
  | Text _ => false
  end.

(** [str(x)] *)
Definition str (x : cell) : string :=
  match x with
  | NaN => "nan"
  | Text s => s
  end.

Module Row.
Record t : Set := {
  description : cell;
  requirements : cell;
  company_profile : cell;
  company_followers : Z;
  company_employees : Z;
  engagement_score : Z
}.
End Row.

Definition get_company_strength (followers employees : Z) : string :=
  if (followers <? 500) || (employees <? 20) then "weak"
  else if (500 <=? followers) && (followers <=? 5000) then "medium"
  else "strong".

Definition company_strength (row : Row.t) : string :=
  get_company_strength (Row.company_followers row) (Row.company_employees row).

Definition missing_website_flag (x : cell) : Z :=
  if isna x || negb (PyStr.contains "http" (PyStr.lower (str x))) then 1 else 0.

Definition suspicious_contact (text : cell) : Z :=
  match text with
  | NaN => 0
  | Text s =>
      let text := PyStr.lower s in
      if existsb (fun term => PyStr.contains term text)
           [ "gmail"; "yahoo"; "telegram"; "whatsapp" ]
      then 1 else 0
  end.

(** [a or b] on integers *)
Definition or_int (a b : Z) : Z := if a =? 0 then b else a.

Definition suspicious_email_flag (row : Row.t) : Z :=
  or_int (suspicious_contact (Text (str (Row.description row))))
         (suspicious_contact (Text (str (Row.requirements row)))).

Definition short_profile_flag (x : cell) : Z :=
  if isna x || (Z.of_nat (List.length (PyStr.split (str x))) <? 30) then 1 else 0.

Definition suspicion_score (row : Row.t) : Z :=
  missing_website_flag (Row.company_profile row)
  + suspicious_email_flag row
  + short_profile_flag (Row.company_profile row).

(** A cell as an optional argument of [predict_job]: a missing value is
    an omitted argument. *)
Definition optional (x : cell) : option string :=
  match x with
  | NaN => None
  | Text s => Some s
  end.

(** The call of [predict_job] on the raw columns of a row, with a title
    and without any derived column. *)
Definition raw_call (title : option string) (row : Row.t) : Args.t :=
  {| Args.title := title;
     Args.description := optional (Row.description row);
     Args.requirements := optional (Row.requirements row);
     Args.company_profile := optional (Row.company_profile row);
     Args.followers := Py.VInt (Row.company_followers row);
     Args.employees := Py.VInt (Row.company_employees row);
     Args.engagement := Py.VInt (Row.engagement_score row);
     Args.company_strength := None;
     Args.missing_website_flag := Py.VNone;
     Args.suspicious_email_flag := Py.VNone;
     Args.short_profile_flag := Py.VNone;
     Args.suspicion_score := Py.VNone |}.

(** A row without texts: 800 followers, 15 employees, engagement 40. *)
Definition bare_row (description : cell) : Row.t :=
  {| Row.description := description;
     Row.requirements := NaN;
     Row.company_profile := NaN;
     Row.company_followers := 800;
     Row.company_employees := 15;
     Row.engagement_score := 40 |}.

End Enrichment.

(* ================================================================== *)
(** * Part II: properties of the arithmetic and of the program         *)
(* ================================================================== *)

(** ** Binary64 arithmetic: rounding is monotone *)

Module B64Facts.
Import B64.

Lemma rne_div_spec a d :
  0 < d ->
  let n := rne_div a d in
  (2 * n - 1) * d <= 2 * a <= (2 * n + 1) * d
  /\ (2 * a = (2 * n + 1) * d -> Z.even n = true)
  /\ (2 * a = (2 * n - 1) * d -> Z.even n = true).
Proof.
  intros Hd n. subst n. unfold rne_div.
  pose proof (Z.div_mod a d ltac:(lia)) as Hdm.
  pose proof (Z.mod_pos_bound a d Hd) as Hr.
  set (q := a / d) in *. set (r := a mod d) in *.
  destruct (Z.compare_spec (2 * r) d) as [He | Hl | Hg].
  - destruct (Z.even q) eqn:Hq.
    + repeat split; intros; try assumption; nia.
    + assert (Z.even (q + 1) = true).
      { rewrite Z.even_add, Hq. reflexivity. }
      repeat split; intros; try assumption; nia.
  - repeat split; intros; nia.
  - repeat split; intros; nia.
Qed.

Lemma rne_div_mono a1 d1 a2 d2 :
  0 < d1 -> 0 < d2 -> a1 * d2 <= a2 * d1 ->
  rne_div a1 d1 <= rne_div a2 d2.
Proof.
  intros H1 H2 Hle.
  destruct (rne_div_spec a1 d1 H1) as [[L1 U1] [T1 T1']].
  destruct (rne_div_spec a2 d2 H2) as [[L2 U2] [T2 T2']].
  set (n1 := rne_div a1 d1) in *. set (n2 := rne_div a2 d2) in *.
  destruct (Z_le_gt_dec n1 n2) as [|Hgt]; [assumption|exfalso].
  assert (Hd : 0 < d1 * d2) by nia.
  assert (C1 : (2 * n1 - 1) * (d1 * d2) <= 2 * a1 * d2) by nia.
  assert (C2 : 2 * a2 * d1 <= (2 * n2 + 1) * (d1 * d2)) by nia.
  assert (C3 : (2 * n1 - 1) * (d1 * d2) <= (2 * n2 + 1) * (d1 * d2)) by nia.
  assert (C4 : 2 * n1 - 1 <= 2 * n2 + 1) by nia.
  assert (E : n1 = n2 + 1) by lia.
  assert (E1 : 2 * a1 = (2 * n1 - 1) * d1) by nia.
  assert (E2 : 2 * a2 = (2 * n2 + 1) * d2) by nia.
  specialize (T1' E1). specialize (T2 E2).
  rewrite E, Z.even_add, T2 in T1'. discriminate.
Qed.

Lemma rne_div_exact a : rne_div a 1 = a.
Proof.
  unfold rne_div. rewrite Z.mod_1_r, Z.div_1_r. reflexivity.
Qed.

Lemma rne_div_ge_quot a d : 0 < d -> a / d <= rne_div a d <= a / d + 1.
Proof.
  intros. unfold rne_div.
  destruct (2 * (a mod d) ?= d); [destruct (Z.even (a / d))| |]; lia.
Qed.

Lemma rne_shift_div m e :
  PyFloat.rne_shift m e = rne_div (m * 2 ^ Z.max e 0) (2 ^ Z.max (- e) 0).
Proof.
  unfold PyFloat.rne_shift. destruct (Z.leb_spec 0 e).
  - rewrite Z.max_l, Z.max_r by lia. simpl. apply eq_sym, rne_div_exact.
  - rewrite Z.max_r, Z.max_l by lia. rewrite Z.mul_1_r. reflexivity.
Qed.

Lemma dg_pos m : 1 <= dg m.
Proof. unfold dg. lia. Qed.

Lemma pow2_split d : 1 <= d -> 2 ^ d = 2 * 2 ^ (d - 1).
Proof.
  intros. replace d with (Z.succ (d - 1)) at 1 by lia.
  apply Z.pow_succ_r. lia.
Qed.

Lemma dg_bounds m : 2 ^ (dg m - 1) <= Zpos m < 2 ^ dg m.
Proof.
  unfold dg. induction m as [p IH | p IH |]; cbn [digits2_pos].
  - rewrite Pos2Z.inj_succ, (Pos2Z.inj_xI p).
    set (d := Zpos (digits2_pos p)) in *.
    replace (Z.succ d - 1) with d by lia.
    rewrite (pow2_split (Z.succ d)) by lia.
    replace (Z.succ d - 1) with d by lia.
    rewrite (pow2_split d) in * by lia. lia.
  - rewrite Pos2Z.inj_succ, (Pos2Z.inj_xO p).
    set (d := Zpos (digits2_pos p)) in *.
    replace (Z.succ d - 1) with d by lia.
    rewrite (pow2_split (Z.succ d)) by lia.
    replace (Z.succ d - 1) with d by lia.
    rewrite (pow2_split d) in * by lia. lia.
  - simpl. lia.
Qed.

Lemma dg_unique m d : 2 ^ (d - 1) <= Zpos m < 2 ^ d -> dg m = d.
Proof.
  intros [L U]. pose proof (dg_bounds m) as [L' U']. pose proof (dg_pos m).
  assert (0 < d).
  { destruct (Z_lt_le_dec 0 d); [assumption|].
    assert (2 ^ d <= 2 ^ 0) by (apply Z.pow_le_mono_r; lia).
    simpl in *. lia. }
  assert (dg m - 1 < d).
  { apply (Z.pow_lt_mono_r_iff 2); lia. }
  assert (d - 1 < dg m).
  { apply (Z.pow_lt_mono_r_iff 2); lia. }
  lia.
Qed.

Lemma iter_pos_inv {A : Type} (f : A -> A) (P : Z -> A -> Prop) :
  (forall k x, 0 <= k -> P k x -> P (k + 1) (f x)) ->
  forall p k x, 0 <= k -> P k x -> P (k + Zpos p) (iter_pos f p x).
Proof.
  intros Hstep. induction p as [p IH | p IH |]; intros k x Hk HP; cbn [iter_pos].
  - replace (k + Zpos p~1) with (k + 1 + Zpos p + Zpos p) by lia.
    apply IH; [lia|]. apply IH; [lia|]. apply Hstep; assumption.
  - replace (k + Zpos p~0) with (k + Zpos p + Zpos p) by lia.
    apply IH; [lia|]. apply IH; assumption.
  - apply Hstep; assumption.
Qed.

Lemma shr_inv_step m0 k mrs :
  0 <= m0 -> 0 <= k -> shr_inv m0 k mrs -> shr_inv m0 (k + 1) (shr_1 mrs).
Proof.
  intros Hm Hk [Hq Hl]. destruct mrs as [q r s]. cbn [shr_m shr_r shr_s] in *.
  assert (Hp : 0 < 2 ^ k) by (apply Z.pow_pos_nonneg; lia).
  assert (Hpk : 2 ^ (k + 1) = 2 ^ k * 2) by (rewrite Z.pow_add_r by lia; reflexivity).
  assert (Hdiv : m0 / 2 ^ (k + 1) = q / 2).
  { rewrite Hpk, <- Z.div_div by lia. rewrite <- Hq. reflexivity. }
  assert (Hmod : m0 mod 2 ^ (k + 1) = m0 mod 2 ^ k + 2 ^ k * (q mod 2)).
  { rewrite Hpk, Z.rem_mul_r by lia. rewrite <- Hq. reflexivity. }
  pose proof (Z.mod_pos_bound m0 (2 ^ k) Hp) as HR.
  assert (Hq0 : 0 <= q) by (rewrite Hq; apply Z.div_pos; lia).
  pose proof (Z.div_mod q 2 ltac:(lia)) as Hq2.
  pose proof (Z.mod_pos_bound q 2 ltac:(lia)) as Hq2b.
  unfold shr_inv. rewrite Hdiv, Hmod, Hpk. clear Hdiv Hmod Hpk Hq.
  generalize dependent (q / 2). generalize dependent (q mod 2).
  generalize dependent (m0 mod 2 ^ k). generalize dependent (2 ^ k).
  intros K HK R Hl HR t Ht h Hh.
  assert (Et : t = 0 \/ t = 1) by lia.
  destruct q as [|[p|p|]|p]; cbn [shr_1 shr_m shr_r shr_s]; try lia;
    destruct Et; subst t; try lia; rewrite ?Z.mul_0_r, ?Z.mul_1_r;
    (split; [lia|]); destruct r, s; cbn [orb]; lia.
Qed.

Lemma shr_inv_iter m p :
  shr_inv (Zpos m) (Zpos p)
    (iter_pos shr_1 p {| shr_m := Zpos m; shr_r := false; shr_s := false |}).
Proof.
  change (Zpos p) with (0 + Zpos p).
  apply (iter_pos_inv shr_1 (shr_inv (Zpos m))).
  - intros k x Hk. apply shr_inv_step; lia.
  - lia.
  - unfold shr_inv. cbn. rewrite Z.div_1_r, Z.mod_1_r. auto.
Qed.

Lemma shr_inv_round m0 k mrs :
  0 <= k -> shr_inv m0 k mrs ->
  round_nearest_even (shr_m mrs) (loc_of_shr_record mrs) = rne_div m0 (2 ^ k).
Proof.
  intros Hk [Hq Hl]. destruct mrs as [q r s]. cbn [shr_m shr_r shr_s] in *.
  assert (Hp : 0 < 2 ^ k) by (apply Z.pow_pos_nonneg; lia).
  unfold rne_div. rewrite <- Hq.
  destruct r, s; cbn [loc_of_shr_record round_nearest_even].
  - replace (2 * (m0 mod 2 ^ k) ?= 2 ^ k) with Gt; [reflexivity|].
    symmetry. apply Z.compare_gt_iff. lia.
  - replace (2 * (m0 mod 2 ^ k) ?= 2 ^ k) with Eq; [reflexivity|].
    symmetry. apply Z.compare_eq_iff. lia.
  - replace (2 * (m0 mod 2 ^ k) ?= 2 ^ k) with Lt; [reflexivity|].
    symmetry. apply Z.compare_lt_iff. lia.
  - replace (2 * (m0 mod 2 ^ k) ?= 2 ^ k) with Lt; [reflexivity|].
    symmetry. apply Z.compare_lt_iff. lia.
Qed.


Lemma fexp_eq x : fexp prec emax x = Z.max (x - 53) (-1074).
Proof. reflexivity. Qed.

Lemma rne_shift_neg m c : 0 <= c -> PyFloat.rne_shift m (- c) = rne_div m (2 ^ c).
Proof.
  intros Hc. rewrite rne_shift_div.
  destruct (Z.eq_dec c 0) as [->|].
  - simpl. rewrite Z.mul_1_r. reflexivity.
  - rewrite Z.max_r by lia. rewrite Z.max_l by lia.
    rewrite Z.mul_1_r, Z.opp_involutive. reflexivity.
Qed.

(** the rounded mantissa never exceeds 2^53 *)
Lemma rne_shift_upper m e E :
  dg m + e - 53 <= E ->
  0 <= PyFloat.rne_shift (Zpos m) (e - E) <= 2 ^ 53.
Proof.
  intros HE. pose proof (dg_bounds m) as [L U]. pose proof (dg_pos m).
  unfold PyFloat.rne_shift. destruct (Z.leb_spec 0 (e - E)).
  - split; [apply Z.mul_nonneg_nonneg; [lia|apply Z.pow_nonneg; lia]|].
    assert (2 ^ dg m * 2 ^ (e - E) <= 2 ^ 53).
    { rewrite <- Z.pow_add_r by lia. apply Z.pow_le_mono_r; lia. }
    assert (0 < 2 ^ (e - E)) by (apply Z.pow_pos_nonneg; lia).
    nia.
  - fold (rne_div (Zpos m) (2 ^ (- (e - E)))).
    assert (Hd : 0 < 2 ^ (- (e - E))) by (apply Z.pow_pos_nonneg; lia).
    pose proof (rne_div_ge_quot (Zpos m) _ Hd) as [Hl Hu].
    assert (0 <= Zpos m / 2 ^ (- (e - E))) by (apply Z.div_pos; lia).
    assert (Zpos m / 2 ^ (- (e - E)) < 2 ^ 53).
    { apply Z.div_lt_upper_bound; [assumption|].
      rewrite <- Z.pow_add_r by lia.
      eapply Z.lt_le_trans; [exact U|]. apply Z.pow_le_mono_r; lia. }
    lia.
Qed.

Lemma Zdigits2_small p : Zpos p < 2 ^ 53 -> Zdigits2 (Zpos p) <= 53.
Proof.
  intros Hp. change (Zdigits2 (Zpos p)) with (dg p).
  pose proof (dg_bounds p) as [L U].
  assert (dg p - 1 < 53); [|lia].
  apply (Z.pow_lt_mono_r_iff 2); lia.
Qed.

Lemma second_shr s n E :
  -1074 <= E -> 0 <= n <= 2 ^ 53 ->
  (let '(mrs, e) := shr_fexp prec emax n E loc_Exact in
   match shr_m mrs with
   | Z0 => S754_zero s
   | Zpos m => if e <=? emax - prec then S754_finite s m e else S754_infinity s
   | Zneg _ => S754_nan
   end) = pack s n E.
Proof.
  intros HE Hn. unfold shr_fexp. rewrite fexp_eq. unfold pack.
  destruct n as [|p|p]; [| |lia].
  - cbn [Zdigits2]. unfold shr.
    destruct (Z.max (0 + E - 53) (-1074) - E) eqn:Hc; try lia; reflexivity.
  - destruct (Z.eqb_spec (Zpos p) (2 ^ 53)) as [Heq|Hne].
    + assert (Hp : p = 9007199254740992%positive) by (change (2 ^ 53) with 9007199254740992 in Heq; lia).
      subst p. change (Zdigits2 9007199254740992) with 54.
      replace (Z.max (54 + E - 53) (-1074) - E) with 1 by lia.
      reflexivity.
    + pose proof (Zdigits2_small p ltac:(lia)).
      unfold shr. cbn [shr_record_of_loc].
      destruct (Z.max (Zdigits2 (Zpos p) + E - 53) (-1074) - E) eqn:Hc; try lia;
        reflexivity.
Qed.

Lemma binary_round_aux_rnd s m e :
  e <= cexp m e ->
  binary_round_aux prec emax s (Zpos m) e loc_Exact = rnd s m e.
Proof.
  intros He. unfold binary_round_aux, rnd.
  assert (HE : -1074 <= cexp m e) by (unfold cexp; lia).
  assert (Hfirst : exists mrs,
    shr_fexp prec emax (Zpos m) e loc_Exact = (mrs, cexp m e) /\
    round_nearest_even (shr_m mrs) (loc_of_shr_record mrs)
    = PyFloat.rne_shift (Zpos m) (e - cexp m e)).
  { unfold shr_fexp. rewrite fexp_eq. change (Zdigits2 (Zpos m)) with (dg m).
    fold (cexp m e). unfold shr. cbn [shr_record_of_loc].
    destruct (cexp m e - e) as [|c|c] eqn:Hc; [| |lia].
    - eexists; split; [f_equal; lia|].
      replace (e - cexp m e) with 0 by lia. cbn. unfold PyFloat.rne_shift. cbn. lia.
    - eexists; split; [f_equal; lia|].
      rewrite (shr_inv_round (Zpos m) (Zpos c)); [|lia|apply shr_inv_iter].
      replace (e - cexp m e) with (- Zpos c) by lia.
      rewrite rne_shift_neg by lia. reflexivity. }
  destruct Hfirst as (mrs & -> & ->).
  apply second_shr; [assumption|].
  apply rne_shift_upper. unfold cexp. lia.
Qed.

Lemma iter_xO_val m d : Zpos (Pos.iter xO m d) = Zpos m * 2 ^ Zpos d.
Proof.
  change (Pos.iter xO m d) with (shift_pos d m).
  rewrite shift_pos_correct. change (Z.pow_pos 2 d) with (2 ^ Zpos d). lia.
Qed.

Lemma dg_shift m d : dg (Pos.iter xO m d) = dg m + Zpos d.
Proof.
  apply dg_unique. rewrite iter_xO_val.
  pose proof (dg_bounds m) as [L U]. pose proof (dg_pos m).
  assert (0 < 2 ^ Zpos d) by (apply Z.pow_pos_nonneg; lia).
  replace (dg m + Zpos d - 1) with (dg m - 1 + Zpos d) by lia.
  rewrite !Z.pow_add_r by lia. nia.
Qed.

Lemma binary_round_rnd s m e : binary_round prec emax s m e = rnd s m e.
Proof.
  unfold binary_round. rewrite fexp_eq. change (Zpos (digits2_pos m)) with (dg m).
  fold (cexp m e). unfold shl_align.
  destruct (cexp m e - e) as [|c|c] eqn:Hc.
  - apply binary_round_aux_rnd. lia.
  - apply binary_round_aux_rnd. lia.
  - assert (Hcx : cexp (Pos.iter xO m c) (cexp m e) = cexp m e).
    { unfold cexp at 1. rewrite dg_shift.
      replace (dg m + Zpos c + cexp m e - 53) with (dg m + e - 53) by lia.
      reflexivity. }
    rewrite binary_round_aux_rnd by lia.
    unfold rnd. rewrite Hcx. f_equal.
    replace (cexp m e - cexp m e) with 0 by lia.
    replace (e - cexp m e) with (Zpos c) by lia.
    unfold PyFloat.rne_shift. cbn [Z.leb Z.compare].
    rewrite iter_xO_val. change (2 ^ 0) with 1. lia.
Qed.

Lemma binary_normalize_rndZ M e : binary_normalize prec emax M e false = rndZ M e.
Proof.
  destruct M; cbn [binary_normalize rndZ]; auto using binary_round_rnd.
Qed.


Lemma pow_scale_le M1 M2 p q c :
  0 <= p -> 0 <= q -> 0 <= c ->
  (M1 * 2 ^ (p + c) <= M2 * 2 ^ (q + c) <-> M1 * 2 ^ p <= M2 * 2 ^ q).
Proof.
  intros Hp Hq Hc. rewrite !Z.pow_add_r by lia.
  assert (0 < 2 ^ c) by (apply Z.pow_pos_nonneg; lia).
  rewrite !Z.mul_assoc. split; intros; nia.
Qed.

Lemma dle_shift M1 e1 M2 e2 p q :
  0 <= p -> 0 <= q -> p - q = e1 - e2 ->
  (dle M1 e1 M2 e2 <-> M1 * 2 ^ p <= M2 * 2 ^ q).
Proof.
  intros Hp Hq Hpq. unfold dle.
  set (p0 := e1 - Z.min e1 e2). set (q0 := e2 - Z.min e1 e2).
  assert (0 <= p0 /\ 0 <= q0 /\ p0 - q0 = e1 - e2) as (Hp0 & Hq0 & H0) by (unfold p0, q0; lia).
  destruct (Z_le_gt_dec p0 p).
  - replace p with (p0 + (p - p0)) by lia. replace q with (q0 + (p - p0)) by lia.
    symmetry. apply pow_scale_le; lia.
  - replace p0 with (p + (p0 - p)) by lia. replace q0 with (q + (p0 - p)) by lia.
    apply pow_scale_le; lia.
Qed.

Lemma dle_magnitude m1 e1 m2 e2 :
  dle (Zpos m1) e1 (Zpos m2) e2 -> dg m1 + e1 <= dg m2 + e2.
Proof.
  intros H. unfold dle in H.
  set (p := e1 - Z.min e1 e2) in *. set (q := e2 - Z.min e1 e2) in *.
  assert (0 <= p /\ 0 <= q /\ p - q = e1 - e2) as (Hp & Hq & Hpq) by (unfold p, q; lia).
  pose proof (dg_bounds m1) as [L1 U1]. pose proof (dg_bounds m2) as [L2 U2].
  pose proof (dg_pos m1). pose proof (dg_pos m2).
  assert (A : 2 ^ (dg m1 - 1 + p) <= Zpos m1 * 2 ^ p).
  { rewrite Z.pow_add_r by lia. apply Z.mul_le_mono_nonneg_r; [apply Z.pow_nonneg|]; lia. }
  assert (B : Zpos m2 * 2 ^ q < 2 ^ (dg m2 + q)).
  { rewrite Z.pow_add_r by lia. apply Z.mul_lt_mono_pos_r; [apply Z.pow_pos_nonneg|]; lia. }
  assert (dg m1 - 1 + p < dg m2 + q); [|lia].
  apply (Z.pow_lt_mono_r_iff 2); lia.
Qed.

Lemma pack_pos s n E :
  0 < n ->
  pack s n E = if n =? 2 ^ 53 then fin_or_inf s (E + 1) (2 ^ 52) else fin_or_inf s E n.
Proof.
  intros Hn. unfold pack, fin_or_inf. destruct n; try lia. reflexivity.
Qed.

Lemma fin_or_inf_le E1 n1 E2 n2 :
  0 < n1 -> 0 < n2 ->
  E1 < E2 \/ (E1 = E2 /\ n1 <= n2) ->
  SFleb (fin_or_inf false E1 n1) (fin_or_inf false E2 n2) = true /\
  SFleb (fin_or_inf true E2 n2) (fin_or_inf true E1 n1) = true.
Proof.
  intros H1 H2 Hlex. unfold fin_or_inf.
  destruct (Z.leb_spec E1 971), (Z.leb_spec E2 971); unfold SFleb, SFcompare; try lia;
    try (split; reflexivity).
  destruct Hlex as [Hlt | [-> Hle]].
  - rewrite (proj2 (Z.compare_lt_iff E1 E2) Hlt).
    rewrite (proj2 (Z.compare_gt_iff E2 E1) Hlt). split; reflexivity.
  - rewrite Z.compare_refl.
    change (Pos.compare_cont Eq) with Pos.compare.
    rewrite <- !Z2Pos.inj_compare by lia.
    destruct (Z.compare_spec n1 n2); try lia.
    + subst. rewrite Z.compare_refl. split; reflexivity.
    + rewrite (proj2 (Z.compare_gt_iff n2 n1)) by lia. split; reflexivity.
Qed.

Lemma pack_le n1 E1 n2 E2 :
  0 <= n1 <= 2 ^ 53 -> 0 <= n2 <= 2 ^ 53 ->
  (E1 = E2 /\ n1 <= n2) \/ (E1 < E2 /\ 2 ^ 52 <= n2) ->
  SFleb (pack false n1 E1) (pack false n2 E2) = true /\
  SFleb (pack true n2 E2) (pack true n1 E1) = true.
Proof.
  intros H1 H2 Hc.
  change (2 ^ 53) with 9007199254740992 in *. change (2 ^ 52) with 4503599627370496 in *.
  destruct (Z.eq_dec n1 0) as [->|Hn1].
  - destruct (Z.eq_dec n2 0) as [->|Hn2]; [split; reflexivity|].
    rewrite (pack_pos false n2), (pack_pos true n2) by lia. cbn [pack]. unfold fin_or_inf.
    destruct (n2 =? 2 ^ 53), (E2 + 1 <=? 971), (E2 <=? 971); split; reflexivity.
  - assert (0 < n2) by lia.
    rewrite !pack_pos by lia.
    change (2 ^ 53) with 9007199254740992 in *. change (2 ^ 52) with 4503599627370496 in *.
    destruct (Z.eqb_spec n1 9007199254740992), (Z.eqb_spec n2 9007199254740992);
      apply fin_or_inf_le; lia.
Qed.

Lemma rne_shift_lower m : 2 ^ 52 <= PyFloat.rne_shift (Zpos m) (53 - dg m).
Proof.
  pose proof (dg_bounds m) as [L U]. pose proof (dg_pos m).
  unfold PyFloat.rne_shift. destruct (Z.leb_spec 0 (53 - dg m)).
  - replace 52 with (dg m - 1 + (53 - dg m)) at 1 by lia.
    rewrite Z.pow_add_r by lia.
    apply Z.mul_le_mono_nonneg_r; [apply Z.pow_nonneg|]; lia.
  - fold (rne_div (Zpos m) (2 ^ (- (53 - dg m)))).
    assert (Hd : 0 < 2 ^ (- (53 - dg m))) by (apply Z.pow_pos_nonneg; lia).
    pose proof (rne_div_ge_quot (Zpos m) _ Hd) as [Hl _].
    eapply Z.le_trans; [|exact Hl].
    apply Z.div_le_lower_bound; [assumption|].
    rewrite <- Z.pow_add_r by lia.
    replace (- (53 - dg m) + 52) with (dg m - 1) by lia. assumption.
Qed.

Lemma rne_shift_mono m1 a1 m2 a2 :
  0 <= m1 -> 0 <= m2 -> dle m1 a1 m2 a2 ->
  PyFloat.rne_shift m1 a1 <= PyFloat.rne_shift m2 a2.
Proof.
  intros H1 H2 H. rewrite !rne_shift_div.
  apply rne_div_mono; try (apply Z.pow_pos_nonneg; lia).
  rewrite <- !Z.mul_assoc, <- !Z.pow_add_r by lia.
  apply (dle_shift m1 a1 m2 a2); [lia|lia|lia|assumption].
Qed.

Lemma dle_same_shift M1 e1 M2 e2 c :
  dle M1 e1 M2 e2 <-> dle M1 (e1 - c) M2 (e2 - c).
Proof.
  unfold dle. replace (Z.min (e1 - c) (e2 - c)) with (Z.min e1 e2 - c) by lia.
  replace (e1 - c - (Z.min e1 e2 - c)) with (e1 - Z.min e1 e2) by lia.
  replace (e2 - c - (Z.min e1 e2 - c)) with (e2 - Z.min e1 e2) by lia.
  reflexivity.
Qed.

Lemma rnd_mono m1 e1 m2 e2 :
  dle (Zpos m1) e1 (Zpos m2) e2 ->
  SFleb (rnd false m1 e1) (rnd false m2 e2) = true /\
  SFleb (rnd true m2 e2) (rnd true m1 e1) = true.
Proof.
  intros H. pose proof (dle_magnitude _ _ _ _ H) as HD. unfold rnd.
  assert (HE : cexp m1 e1 <= cexp m2 e2) by (unfold cexp; lia).
  apply pack_le.
  - apply rne_shift_upper. unfold cexp. lia.
  - apply rne_shift_upper. unfold cexp. lia.
  - destruct (Z.eq_dec (cexp m1 e1) (cexp m2 e2)) as [Heq|Hne].
    + left. split; [assumption|]. rewrite Heq.
      apply rne_shift_mono; [lia|lia|]. apply -> dle_same_shift. assumption.
    + right. split; [lia|].
      assert (cexp m2 e2 = dg m2 + e2 - 53) as -> by (unfold cexp in *; lia).
      replace (e2 - (dg m2 + e2 - 53)) with (53 - dg m2) by lia.
      apply rne_shift_lower.
Qed.

Lemma rnd_signed s m e : signed_as s (rnd s m e).
Proof.
  unfold rnd. set (E := cexp m e).
  pose proof (rne_shift_upper m e E ltac:(unfold E, cexp; lia)) as [Hl Hu].
  destruct (PyFloat.rne_shift (Zpos m) (e - E)) as [|n|n]; [reflexivity| |lia].
  unfold pack. destruct (Zpos n =? 2 ^ 53), (E + 1 <=? 971), (E <=? 971); reflexivity.
Qed.

Lemma signed_le x y : signed_as true x -> signed_as false y -> SFleb x y = true.
Proof.
  destruct x as [[]|[]| |[] ? ?], y as [[]|[]| |[] ? ?]; cbn; intros; try reflexivity;
    try discriminate; try contradiction.
Qed.

Lemma signed_le_zero_r s x : signed_as true x -> SFleb x (S754_zero s) = true.
Proof. destruct x as [[]|[]| |[] ? ?]; cbn; intros; try reflexivity; try discriminate; contradiction. Qed.

Lemma signed_le_zero_l s y : signed_as false y -> SFleb (S754_zero s) y = true.
Proof. destruct y as [[]|[]| |[] ? ?]; cbn; intros; try reflexivity; try discriminate; contradiction. Qed.

Lemma rndZ_mono M1 e1 M2 e2 :
  dle M1 e1 M2 e2 -> SFleb (rndZ M1 e1) (rndZ M2 e2) = true.
Proof.
  intros H. unfold dle in H.
  assert (P1 : 0 < 2 ^ (e1 - Z.min e1 e2)) by (apply Z.pow_pos_nonneg; lia).
  assert (P2 : 0 < 2 ^ (e2 - Z.min e1 e2)) by (apply Z.pow_pos_nonneg; lia).
  destruct M1 as [|m1|m1], M2 as [|m2|m2]; cbn [rndZ]; try reflexivity; try nia.
  - apply signed_le_zero_l, rnd_signed.
  - apply rnd_mono. exact H.
  - apply signed_le_zero_r, rnd_signed.
  - apply signed_le; apply rnd_signed.
  - apply rnd_mono. unfold dle. rewrite (Z.min_comm e2 e1).
    change (Zneg m1) with (- Zpos m1) in H. change (Zneg m2) with (- Zpos m2) in H. nia.
Qed.


(** ** The order of [SFcompare] as a lexicographic order on keys *)

Lemma SFleb_key x y :
  not_nan x = true -> not_nan y = true ->
  (SFleb x y = true <-> lexle (key x) (key y)).
Proof.
  unfold SFleb, SFcompare, lexle.
  destruct x as [[]|[]| |[] mx ex], y as [[]|[]| |[] my ey]; cbn [key not_nan];
    intros; try discriminate; cmp_cases; cbn [CompOpp];
    (split; [intros; try discriminate; lia | intros; try reflexivity; lia]).
Qed.

Lemma SFltb_key x y :
  not_nan x = true -> not_nan y = true ->
  (SFltb x y = true <-> lexlt (key x) (key y)).
Proof.
  unfold SFltb, SFcompare, lexlt.
  destruct x as [[]|[]| |[] mx ex], y as [[]|[]| |[] my ey]; cbn [key not_nan];
    intros; try discriminate; cmp_cases; cbn [CompOpp];
    (split; [intros; try discriminate; lia | intros; try reflexivity; lia]).
Qed.

Lemma SFleb_not_nan x y : SFleb x y = true -> not_nan x = true /\ not_nan y = true.
Proof.
  destruct x as [[]|[]| |[] mx ex], y as [[]|[]| |[] my ey]; cbn; intros;
    try discriminate; auto.
Qed.

Lemma SFltb_not_nan x y : SFltb x y = true -> not_nan x = true /\ not_nan y = true.
Proof.
  destruct x as [[]|[]| |[] mx ex], y as [[]|[]| |[] my ey]; cbn; intros;
    try discriminate; auto.
Qed.

Lemma SFltb_nan_l y : SFltb S754_nan y = false.
Proof. reflexivity. Qed.

Lemma SFltb_nan_r x : SFltb x S754_nan = false.
Proof. destruct x as [[]|[]| |[] ? ?]; reflexivity. Qed.

Lemma SFltb_false_key x y :
  not_nan x = true -> not_nan y = true ->
  (SFltb x y = false <-> lexle (key y) (key x)).
Proof.
  intros Hx Hy. pose proof (SFltb_key x y Hx Hy) as H.
  destruct (SFltb x y).
  - split; [discriminate|]. intros Hle. exfalso.
    assert (Hlt : lexlt (key x) (key y)) by (apply H; reflexivity).
    destruct (key x) as [[? ?] ?], (key y) as [[? ?] ?]. cbn in *. lia.
  - split; [|reflexivity]. intros _.
    assert (Hn : ~ lexlt (key x) (key y)) by (intros C; apply H in C; discriminate).
    destruct (key x) as [[? ?] ?], (key y) as [[? ?] ?]. cbn in *. lia.
Qed.


Lemma bounded_iff m e :
  bounded prec emax m e = true <-> cexp m e = e /\ e <= 971.
Proof.
  unfold bounded, canonical_mantissa. rewrite fexp_eq.
  change (Zpos (digits2_pos m)) with (dg m). fold (cexp m e).
  change (emax - prec) with 971.
  rewrite andb_true_iff, Z.eqb_eq, Z.leb_le. reflexivity.
Qed.

Lemma canonical_lt m e : cexp m e = e -> Zpos m < 2 ^ 53.
Proof.
  intros H. pose proof (dg_bounds m) as [_ U]. pose proof (dg_pos m).
  eapply Z.lt_le_trans; [exact U|]. apply Z.pow_le_mono_r; unfold cexp in H; lia.
Qed.

Lemma canonical_normal m e : cexp m e = e -> -1074 < e -> 2 ^ 52 <= Zpos m.
Proof.
  intros H He. pose proof (dg_bounds m) as [L _].
  assert (dg m = 53) as E by (unfold cexp in H; lia).
  rewrite E in L. exact L.
Qed.

Lemma rnd_canonical s m e :
  bounded prec emax m e = true -> rnd s m e = S754_finite s m e.
Proof.
  intros H. apply bounded_iff in H as [Hc He]. unfold rnd. rewrite Hc.
  replace (e - e) with 0 by lia.
  unfold PyFloat.rne_shift. cbn [Z.leb Z.compare]. change (2 ^ 0) with 1.
  rewrite Z.mul_1_r. unfold pack.
  pose proof (canonical_lt m e Hc).
  destruct (Z.eqb_spec (Zpos m) (2 ^ 53)); [lia|].
  destruct (Z.leb_spec e 971); [reflexivity|lia].
Qed.

Lemma pack_valid s n E :
  -1074 <= E -> 0 <= n <= 2 ^ 53 -> (-1074 < E -> 2 ^ 52 <= n) ->
  valid_binary (pack s n E) = true.
Proof.
  intros HE Hn Hnorm. unfold pack. destruct n as [|p|p]; [reflexivity| |lia].
  destruct (Z.eqb_spec (Zpos p) (2 ^ 53)).
  - destruct (Z.leb_spec (E + 1) 971); [|reflexivity].
    cbn [valid_binary]. apply bounded_iff. split; [|lia].
    unfold cexp. change (dg (2 ^ 52)) with 53. lia.
  - destruct (Z.leb_spec E 971); [|reflexivity].
    cbn [valid_binary]. apply bounded_iff. split; [|lia].
    unfold cexp. pose proof (dg_bounds p) as [L U]. pose proof (dg_pos p).
    assert (dg p <= 53).
    { assert (dg p - 1 < 53); [|lia]. apply (Z.pow_lt_mono_r_iff 2); lia. }
    destruct (Z.eq_dec E (-1074)); [lia|].
    assert (52 < dg p); [|lia].
    apply (Z.pow_lt_mono_r_iff 2); [lia|lia|]. specialize (Hnorm ltac:(lia)). lia.
Qed.

Lemma rnd_valid s m e : valid_binary (rnd s m e) = true.
Proof.
  unfold rnd. apply pack_valid.
  - unfold cexp. lia.
  - apply rne_shift_upper. unfold cexp. lia.
  - intros H. assert (cexp m e = dg m + e - 53) as -> by (unfold cexp in *; lia).
    replace (e - (dg m + e - 53)) with (53 - dg m) by lia. apply rne_shift_lower.
Qed.

Lemma rndZ_valid M e : valid_binary (rndZ M e) = true.
Proof. destruct M; cbn [rndZ]; auto using rnd_valid. Qed.

Lemma rndZ_not_nan M e : not_nan (rndZ M e) = true.
Proof.
  destruct M as [|m|m]; cbn [rndZ]; [reflexivity| |].
  - pose proof (rnd_signed false m e). destruct (rnd false m e); cbn in *; auto.
  - pose proof (rnd_signed true m e). destruct (rnd true m e); cbn in *; auto.
Qed.

(** ** Finite numbers and their values *)

Lemma dle_zero_l e1 M2 e2 : 0 <= M2 -> dle 0 e1 M2 e2.
Proof.
  intros. unfold dle. rewrite Z.mul_0_l.
  apply Z.mul_nonneg_nonneg; [lia|apply Z.pow_nonneg; lia].
Qed.

Lemma dle_zero_r M1 e1 e2 : M1 <= 0 -> dle M1 e1 0 e2.
Proof.
  intros. unfold dle. rewrite Z.mul_0_l.
  assert (0 <= 2 ^ (e1 - Z.min e1 e2)) by (apply Z.pow_nonneg; lia). nia.
Qed.

Lemma dle_neg_pos M1 e1 M2 e2 : M1 <= 0 -> 0 <= M2 -> dle M1 e1 M2 e2.
Proof.
  intros. unfold dle.
  assert (0 <= 2 ^ (e1 - Z.min e1 e2)) by (apply Z.pow_nonneg; lia).
  assert (0 <= 2 ^ (e2 - Z.min e1 e2)) by (apply Z.pow_nonneg; lia). nia.
Qed.

Lemma dle_canonical m1 e1 m2 e2 :
  cexp m1 e1 = e1 -> cexp m2 e2 = e2 ->
  e1 < e2 \/ (e1 = e2 /\ Zpos m1 <= Zpos m2) ->
  dle (Zpos m1) e1 (Zpos m2) e2.
Proof.
  intros C1 C2 [Hlt | [-> Hle]]; unfold dle.
  - rewrite Z.min_l by lia. replace (e1 - e1) with 0 by lia. change (2 ^ 0) with 1.
    pose proof (canonical_lt _ _ C1).
    pose proof (canonical_normal _ _ C2 ltac:(unfold cexp in C1; lia)).
    assert (2 ^ 1 <= 2 ^ (e2 - e1)) by (apply Z.pow_le_mono_r; lia).
    change (2 ^ 1) with 2 in *. change (2 ^ 53) with (2 * 2 ^ 52) in *. nia.
  - rewrite Z.min_id. replace (e2 - e2) with 0 by lia. change (2 ^ 0) with 1. lia.
Qed.

Lemma dle_opp M1 e1 M2 e2 : dle M1 e1 M2 e2 -> dle (- M2) e2 (- M1) e1.
Proof.
  unfold dle. rewrite (Z.min_comm e2 e1).
  generalize (2 ^ (e1 - Z.min e1 e2)) (2 ^ (e2 - Z.min e1 e2)).
  intros p q H. rewrite !Z.mul_opp_l. lia.
Qed.

Lemma SFleb_dle x y d d' :
  fin x = true -> fin y = true ->
  valid_binary x = true -> valid_binary y = true ->
  SFleb x y = true ->
  dle (sval x) (sexp d x) (sval y) (sexp d' y).
Proof.
  intros Fx Fy Vx Vy H.
  apply SFleb_key in H; [|destruct x; auto; discriminate|destruct y; auto; discriminate].
  destruct x as [sx|sx| |sx mx ex], y as [sy|sy| |sy my ey]; try discriminate;
    cbn [sval sexp key valid_binary] in *;
    try (apply dle_zero_l; lia).
  - destruct sy; cbn in H; [lia|]. apply dle_zero_l. lia.
  - destruct sx; cbn in H; [|lia]. apply dle_zero_r. lia.
  - apply bounded_iff in Vx as [Cx _]. apply bounded_iff in Vy as [Cy _].
    destruct sx, sy; cbn in H.
    + change (Zneg mx) with (- Zpos mx). change (Zneg my) with (- Zpos my).
      apply dle_opp. apply dle_canonical; auto. lia.
    + apply dle_neg_pos; lia.
    + lia.
    + apply dle_canonical; auto. lia.
Qed.


(** ** Addition *)

Lemma shl_align_val m e ez :
  ez <= e -> Zpos (fst (shl_align m e ez)) = Zpos m * 2 ^ (e - ez).
Proof.
  intros H. unfold shl_align. destruct (ez - e) as [|c|c] eqn:Hc; cbn [fst]; try lia.
  - replace (e - ez) with 0 by lia. change (2 ^ 0) with 1. lia.
  - rewrite iter_xO_val. f_equal. f_equal. lia.
Qed.

Lemma cond_Zopp_mul s m k :
  cond_Zopp s (Zpos m * k) = (if s then Zneg m else Zpos m) * k.
Proof. destruct s; cbn [cond_Zopp]; [|reflexivity]. change (Zneg m) with (- Zpos m). lia. Qed.

Lemma SFadd_finite sx mx ex sy my ey :
  SFadd prec emax (S754_finite sx mx ex) (S754_finite sy my ey)
  = rndZ (sum_rep (sval (S754_finite sx mx ex)) ex (sval (S754_finite sy my ey)) ey)
      (Z.min ex ey).
Proof.
  cbn [SFadd sval]. rewrite binary_normalize_rndZ.
  rewrite !shl_align_val by lia. rewrite !cond_Zopp_mul. reflexivity.
Qed.

Lemma SFadd_fin y sx mx ex :
  fin y = true -> bounded prec emax mx ex = true ->
  SFadd prec emax y (S754_finite sx mx ex)
  = rndZ (sum_rep (sval y) (sexp ex y) (sval (S754_finite sx mx ex)) ex)
      (Z.min (sexp ex y) ex).
Proof.
  intros Fy Vx. destruct y as [sy|sy| |sy my ey]; try discriminate.
  - cbn [SFadd sval sexp]. unfold sum_rep. rewrite Z.min_id.
    replace (ex - ex) with 0 by lia. change (2 ^ 0) with 1.
    rewrite Z.mul_0_l, Z.mul_1_r, Z.add_0_l.
    destruct sx; cbn [rndZ]; symmetry; apply rnd_canonical; assumption.
  - apply SFadd_finite.
Qed.

Lemma sum_rep_scale M1 e1 M2 e2 n :
  n <= e1 -> n <= e2 ->
  sum_rep M1 e1 M2 e2 * 2 ^ (Z.min e1 e2 - n) = M1 * 2 ^ (e1 - n) + M2 * 2 ^ (e2 - n).
Proof.
  intros H1 H2. unfold sum_rep.
  rewrite Z.mul_add_distr_r, <- !Z.mul_assoc, <- !Z.pow_add_r by lia.
  f_equal; f_equal; f_equal; lia.
Qed.

Lemma dle_add M1 e1 M2 e2 Mx ex :
  dle M1 e1 M2 e2 ->
  dle (sum_rep M1 e1 Mx ex) (Z.min e1 ex) (sum_rep M2 e2 Mx ex) (Z.min e2 ex).
Proof.
  intros H. set (n := Z.min e1 (Z.min e2 ex)).
  apply (dle_shift _ _ _ _ (Z.min e1 ex - n) (Z.min e2 ex - n)); [lia|lia|lia|].
  rewrite !sum_rep_scale by lia.
  apply (dle_shift _ _ _ _ (e1 - n) (e2 - n)) in H; lia.
Qed.

Lemma SFadd_comm x y : SFadd prec emax x y = SFadd prec emax y x.
Proof.
  destruct x as [[]|[]| |sx mx ex], y as [[]|[]| |sy my ey]; try reflexivity.
  cbn [SFadd]. rewrite (Z.min_comm ey ex), Z.add_comm. reflexivity.
Qed.

Lemma SFleb_inf_l z : not_nan z = true -> SFleb (S754_infinity true) z = true.
Proof. destruct z as [[]|[]| |[] ? ?]; cbn; auto. Qed.

Lemma SFleb_inf_r z : not_nan z = true -> SFleb z (S754_infinity false) = true.
Proof. destruct z as [[]|[]| |[] ? ?]; cbn; auto. Qed.

Lemma SFadd_not_nan y x :
  fin x = true -> not_nan y = true -> not_nan (SFadd prec emax y x) = true.
Proof.
  intros Fx Ny.
  destruct x as [sx|sx| |sx mx ex]; try discriminate;
    destruct y as [sy|sy| |sy my ey]; try discriminate; try reflexivity.
  - destruct sy, sx; reflexivity.
  - rewrite SFadd_finite. apply rndZ_not_nan.
Qed.

(** adding a finite number preserves the order *)
Lemma SFadd_mono_l x y1 y2 :
  fin x = true -> valid_binary x = true ->
  valid_binary y1 = true -> valid_binary y2 = true ->
  SFleb y1 y2 = true ->
  SFleb (SFadd prec emax y1 x) (SFadd prec emax y2 x) = true.
Proof.
  intros Fx Vx V1 V2 H.
  destruct (SFleb_not_nan _ _ H) as [N1 N2].
  destruct (fin y1) eqn:F1; [destruct (fin y2) eqn:F2|].
  - (* both finite *)
    destruct x as [sx|sx| |sx mx ex]; try discriminate.
    + (* x is a zero *)
      apply SFleb_key; [apply SFadd_not_nan; auto..|].
      apply SFleb_key in H; auto.
      destruct y1 as [[]|[]| |s1 m1 e1], y2 as [[]|[]| |s2 m2 e2]; try discriminate;
        destruct sx; exact H.
    + rewrite !SFadd_fin by assumption. apply rndZ_mono, dle_add.
      apply SFleb_dle; assumption.
  - (* y2 infinite *)
    destruct y2 as [s2|[]| |s2 m2 e2]; try discriminate.
    + destruct y1 as [[]|[]| |[] ? ?]; discriminate.
    + replace (SFadd prec emax (S754_infinity false) x) with (S754_infinity false)
        by (destruct x; try discriminate; reflexivity).
      apply SFleb_inf_r, SFadd_not_nan; assumption.
  - (* y1 infinite *)
    destruct y1 as [s1|[]| |s1 m1 e1]; try discriminate.
    + replace (SFadd prec emax (S754_infinity true) x) with (S754_infinity true)
        by (destruct x; try discriminate; reflexivity).
      apply SFleb_inf_l, SFadd_not_nan; assumption.
    + destruct y2 as [[]|[]| |[] ? ?]; try discriminate.
      destruct x; try discriminate; reflexivity.
Qed.

Lemma SFadd_mono_r x y1 y2 :
  fin x = true -> valid_binary x = true ->
  valid_binary y1 = true -> valid_binary y2 = true ->
  SFleb y1 y2 = true ->
  SFleb (SFadd prec emax x y1) (SFadd prec emax x y2) = true.
Proof.
  intros. rewrite (SFadd_comm x y1), (SFadd_comm x y2). apply SFadd_mono_l; assumption.
Qed.

(** ** Multiplication by a positive constant *)

Lemma dg_mul m1 m2 : dg m1 + dg m2 - 1 <= dg (m1 * m2).
Proof.
  pose proof (dg_bounds m1) as [L1 U1]. pose proof (dg_bounds m2) as [L2 U2].
  pose proof (dg_bounds (m1 * m2)) as [L U]. pose proof (dg_pos m1). pose proof (dg_pos m2).
  assert (2 ^ (dg m1 - 1 + (dg m2 - 1)) <= Zpos (m1 * m2)).
  { rewrite Z.pow_add_r, Pos2Z.inj_mul by lia.
    apply Z.mul_le_mono_nonneg; try assumption; apply Z.pow_nonneg; lia. }
  assert (dg m1 - 1 + (dg m2 - 1) < dg (m1 * m2)); [|lia].
  apply (Z.pow_lt_mono_r_iff 2); [lia|pose proof (dg_pos (m1 * m2)); lia|lia].
Qed.

Lemma SFmul_finite sx mx ex sy my ey :
  bounded prec emax mx ex = true -> bounded prec emax my ey = true ->
  SFmul prec emax (S754_finite sx mx ex) (S754_finite sy my ey)
  = rnd (xorb sx sy) (mx * my) (ex + ey).
Proof.
  intros Vx Vy. cbn [SFmul]. apply binary_round_aux_rnd.
  apply bounded_iff in Vx as [Cx _]. apply bounded_iff in Vy as [Cy _].
  pose proof (dg_mul mx my). pose proof (dg_pos mx). pose proof (dg_pos my).
  unfold cexp in *. lia.
Qed.

Lemma SFmul_nonneg mc ec y :
  bounded prec emax mc ec = true -> nonneg y = true -> valid_binary y = true ->
  SFmul prec emax (S754_finite false mc ec) y = rndZ (Zpos mc * sval y) (ec + sexp 0 y).
Proof.
  intros Vc Ny Vy. destruct y as [[]|[]| |[] my ey]; try discriminate.
  - reflexivity.
  - rewrite SFmul_finite by assumption. reflexivity.
Qed.

Lemma dle_mul c M1 e1 M2 e2 ec :
  0 <= c -> dle M1 e1 M2 e2 -> dle (c * M1) (ec + e1) (c * M2) (ec + e2).
Proof.
  unfold dle. intros Hc H.
  replace (ec + e1 - Z.min (ec + e1) (ec + e2)) with (e1 - Z.min e1 e2) by lia.
  replace (ec + e2 - Z.min (ec + e1) (ec + e2)) with (e2 - Z.min e1 e2) by lia.
  rewrite <- !Z.mul_assoc. apply Z.mul_le_mono_nonneg_l; assumption.
Qed.

Lemma SFmul_mono mc ec y1 y2 :
  bounded prec emax mc ec = true ->
  nonneg y1 = true -> nonneg y2 = true ->
  valid_binary y1 = true -> valid_binary y2 = true ->
  SFleb y1 y2 = true ->
  SFleb (SFmul prec emax (S754_finite false mc ec) y1)
        (SFmul prec emax (S754_finite false mc ec) y2) = true.
Proof.
  intros Vc N1 N2 V1 V2 H. rewrite !SFmul_nonneg by assumption.
  apply rndZ_mono, dle_mul; [lia|].
  apply SFleb_dle; try assumption.
  - destruct y1 as [[]|[]| |[] ? ?]; try discriminate; reflexivity.
  - destruct y2 as [[]|[]| |[] ? ?]; try discriminate; reflexivity.
Qed.


(** ** Primitive floats *)

Lemma add_sf a b : sf (a + b) = SFadd prec emax (sf a) (sf b).
Proof. apply add_spec. Qed.

Lemma mul_sf a b : sf (a * b) = SFmul prec emax (sf a) (sf b).
Proof. apply mul_spec. Qed.

Lemma leb_sf a b : (a <=? b)%float = SFleb (sf a) (sf b).
Proof. apply leb_spec. Qed.

Lemma ltb_sf a b : (a <? b)%float = SFltb (sf a) (sf b).
Proof. apply ltb_spec. Qed.

Lemma sf_valid a : valid_binary (sf a) = true.
Proof. apply Prim2SF_valid. Qed.

Lemma leb_refl a : not_nan (sf a) = true -> (a <=? a)%float = true.
Proof.
  intros H. rewrite leb_sf. apply SFleb_key; auto.
  destruct (key (sf a)) as [[? ?] ?]. cbn. lia.
Qed.

Lemma ltb_leb a b : (a <? b)%float = true -> (a <=? b)%float = true.
Proof.
  rewrite ltb_sf, leb_sf. intros H. destruct (SFltb_not_nan _ _ H).
  apply SFltb_key in H; auto. apply SFleb_key; auto.
  destruct (key (sf a)) as [[? ?] ?], (key (sf b)) as [[? ?] ?]. cbn in *. lia.
Qed.

Lemma leb_trans a b c :
  (a <=? b)%float = true -> (b <=? c)%float = true -> (a <=? c)%float = true.
Proof.
  rewrite !leb_sf. intros H1 H2.
  destruct (SFleb_not_nan _ _ H1), (SFleb_not_nan _ _ H2).
  apply SFleb_key in H1, H2; auto. apply SFleb_key; auto.
  destruct (key (sf a)) as [[? ?] ?], (key (sf b)) as [[? ?] ?], (key (sf c)) as [[? ?] ?].
  cbn in *. lia.
Qed.

Lemma ltb_false_leb a b :
  not_nan (sf a) = true -> not_nan (sf b) = true ->
  (a <? b)%float = false -> (b <=? a)%float = true.
Proof.
  intros Na Nb. rewrite ltb_sf, leb_sf. intros H.
  apply SFltb_false_key in H; auto. apply SFleb_key; auto.
Qed.

Lemma leb_ltb_trans a b c :
  (a <=? b)%float = true -> (b <? c)%float = true -> (a <? c)%float = true.
Proof.
  rewrite !ltb_sf, leb_sf. intros H1 H2.
  destruct (SFleb_not_nan _ _ H1), (SFltb_not_nan _ _ H2).
  apply SFleb_key in H1; auto. apply SFltb_key in H2; auto. apply SFltb_key; auto.
  destruct (key (sf a)) as [[? ?] ?], (key (sf b)) as [[? ?] ?], (key (sf c)) as [[? ?] ?].
  cbn in *. lia.
Qed.

Lemma ltb_leb_trans a b c :
  (a <? b)%float = true -> (b <=? c)%float = true -> (a <? c)%float = true.
Proof.
  rewrite !ltb_sf, leb_sf. intros H1 H2.
  destruct (SFltb_not_nan _ _ H1), (SFleb_not_nan _ _ H2).
  apply SFltb_key in H1; auto. apply SFleb_key in H2; auto. apply SFltb_key; auto.
  destruct (key (sf a)) as [[? ?] ?], (key (sf b)) as [[? ?] ?], (key (sf c)) as [[? ?] ?].
  cbn in *. lia.
Qed.

Lemma ltb_nan_l a b : not_nan (sf a) = false -> (a <? b)%float = false.
Proof.
  rewrite ltb_sf. intros H. destruct (sf a); try discriminate. reflexivity.
Qed.

Lemma ltb_nan_r a b : not_nan (sf b) = false -> (a <? b)%float = false.
Proof.
  rewrite ltb_sf. intros H. destruct (sf b); try discriminate. apply SFltb_nan_r.
Qed.

Lemma leb_not_nan a b :
  (a <=? b)%float = true -> not_nan (sf a) = true /\ not_nan (sf b) = true.
Proof. rewrite leb_sf. apply SFleb_not_nan. Qed.

(** ** The clamp [max(0.0, min(1.0, r))] *)

Lemma clamp_nan r : not_nan (sf r) = false -> clamp r = 1%float.
Proof.
  intros H. unfold clamp, PyFloat.min, PyFloat.max.
  rewrite (ltb_nan_l r 1 H). reflexivity.
Qed.

Lemma clamp_cases r :
  (clamp r = r /\ (0 <? r)%float = true /\ (r <? 1)%float = true)
  \/ (clamp r = 0%float /\ (0 <? r)%float = false /\ (r <? 1)%float = true)
  \/ (clamp r = 1%float /\ (r <? 1)%float = false).
Proof.
  unfold clamp, PyFloat.min, PyFloat.max.
  destruct (r <? 1)%float eqn:H1.
  - destruct (0 <? r)%float eqn:H0; auto.
  - right. right. auto.
Qed.

Lemma clamp_in_unit r : PyFloat.in_unit (clamp r) = true.
Proof.
  unfold PyFloat.in_unit.
  destruct (clamp_cases r) as [(-> & H0 & H1) | [(-> & _) | (-> & _)]];
    try reflexivity.
  rewrite (ltb_leb _ _ H0), (ltb_leb _ _ H1). reflexivity.
Qed.

Lemma clamp_mono r1 r2 :
  (r1 <=? r2)%float = true -> (clamp r1 <=? clamp r2)%float = true.
Proof.
  intros H. destruct (leb_not_nan _ _ H) as [N1 N2].
  assert (N0 : not_nan (sf 0) = true) by reflexivity.
  assert (N01 : not_nan (sf 1) = true) by reflexivity.
  destruct (clamp_cases r1) as [(-> & A0 & A1) | [(-> & A0 & A1) | (-> & A1)]];
    destruct (clamp_cases r2) as [(-> & B0 & B1) | [(-> & B0 & B1) | (-> & B1)]];
    try reflexivity; try assumption.
  - (* r1 inside, r2 clamped to 0 *)
    pose proof (ltb_leb_trans _ _ _ A0 H). congruence.
  - apply ltb_leb; assumption.
  - apply ltb_leb; assumption.
  - apply ltb_false_leb in A1; auto.
    pose proof (leb_ltb_trans _ _ _ (leb_trans _ _ _ A1 H) B1) as C.
    assert (F : (1 <? 1)%float = false) by reflexivity. congruence.
  - apply ltb_false_leb in A1; auto.
    pose proof (leb_ltb_trans _ _ _ (leb_trans _ _ _ A1 H) B1) as C.
    assert (F : (1 <? 1)%float = false) by reflexivity. congruence.
Qed.


Lemma fin_not_nan x : fin x = true -> not_nan x = true.
Proof. destruct x; auto. Qed.

Lemma of_int_sf z f :
  PyFloat.of_int z = Ok f -> sf f = rndZ z 0 /\ fin (rndZ z 0) = true.
Proof.
  unfold PyFloat.of_int. rewrite binary_normalize_rndZ.
  pose proof (rndZ_valid z 0) as V. pose proof (rndZ_not_nan z 0) as N.
  intros H.
  assert (Hf : f = SF2Prim (rndZ z 0) /\ fin (rndZ z 0) = true).
  { destruct (rndZ z 0); try discriminate; split; try reflexivity; congruence. }
  destruct Hf as [-> F]. split; [apply Prim2SF_SF2Prim, V|exact F].
Qed.

Lemma rndZ_nonneg z e : 0 <= z -> fin (rndZ z e) = true -> nonneg (rndZ z e) = true.
Proof.
  intros Hz F. destruct z as [|m|m]; [reflexivity| |lia]. cbn [rndZ] in *.
  pose proof (rnd_signed false m e) as S.
  destruct (rnd false m e) as [[]|[]| |[] ? ?]; cbn in *; try discriminate; auto.
Qed.

Lemma of_int_ok z : 0 <= z < 2 ^ 1023 -> returns (PyFloat.of_int z) = true.
Proof.
  intros [Hz Hu]. unfold PyFloat.of_int. rewrite binary_normalize_rndZ.
  destruct z as [|m|m]; [reflexivity| |lia]. cbn [rndZ]. unfold rnd.
  pose proof (dg_bounds m) as [L U]. pose proof (dg_pos m).
  assert (dg m <= 1023).
  { assert (dg m - 1 < 1023); [|lia]. apply (Z.pow_lt_mono_r_iff 2); lia. }
  assert (HE : cexp m 0 <= 970) by (unfold cexp; lia).
  pose proof (rne_shift_upper m 0 (cexp m 0) ltac:(unfold cexp; lia)) as [Hl Hh].
  destruct (PyFloat.rne_shift (Zpos m) (0 - cexp m 0)) as [|n|n]; [reflexivity| |lia].
  unfold pack.
  destruct (Z.eqb_spec (Zpos n) (2 ^ 53)).
  - destruct (Z.leb_spec (cexp m 0 + 1) 971); [reflexivity|lia].
  - destruct (Z.leb_spec (cexp m 0) 971); [reflexivity|lia].
Qed.

Lemma of_int_mono z1 z2 f1 f2 :
  z1 <= z2 -> PyFloat.of_int z1 = Ok f1 -> PyFloat.of_int z2 = Ok f2 ->
  (f1 <=? f2)%float = true.
Proof.
  intros Hz H1 H2. apply of_int_sf in H1 as [E1 _], H2 as [E2 _].
  rewrite leb_sf, E1, E2. apply rndZ_mono.
  unfold dle. rewrite Z.min_id. replace (0 - 0) with 0 by lia. change (2 ^ 0) with 1. lia.
Qed.

(** ** Additions of primitive floats *)

Lemma add_mono_l c y1 y2 :
  fin (sf c) = true -> (y1 <=? y2)%float = true -> (y1 + c <=? y2 + c)%float = true.
Proof.
  intros Fc H. rewrite leb_sf in *. rewrite !add_sf.
  apply SFadd_mono_l; auto using sf_valid.
Qed.

Lemma add_mono_r t a b :
  fin (sf a) = true -> fin (sf b) = true -> not_nan (sf t) = true ->
  (a <=? b)%float = true -> (t + a <=? t + b)%float = true.
Proof.
  intros Fa Fb Nt H. rewrite leb_sf in *. rewrite !add_sf.
  destruct (fin (sf t)) eqn:Ft.
  - apply SFadd_mono_r; auto using sf_valid.
  - destruct (sf t) as [?|[]| |? ? ?]; try discriminate;
      destruct (sf a) as [?|?| |? ? ?]; try discriminate;
      destruct (sf b) as [?|?| |? ? ?]; try discriminate; reflexivity.
Qed.

Lemma add_nan t a : not_nan (sf t) = false -> not_nan (sf (t + a)) = false.
Proof.
  intros H. rewrite add_sf. destruct (sf t); try discriminate. reflexivity.
Qed.

Lemma add_not_nan t a :
  fin (sf a) = true -> not_nan (sf t) = true -> not_nan (sf (t + a)) = true.
Proof. intros. rewrite add_sf. apply SFadd_not_nan; assumption. Qed.

(** ** The capped contributions [min(cap, w * n)] *)

Lemma min_mono cap x1 x2 :
  not_nan (sf cap) = true ->
  (x1 <=? x2)%float = true ->
  (PyFloat.min cap x1 <=? PyFloat.min cap x2)%float = true.
Proof.
  intros Nc H. destruct (leb_not_nan _ _ H) as [N1 N2]. unfold PyFloat.min.
  destruct (x1 <? cap)%float eqn:A, (x2 <? cap)%float eqn:B.
  - assumption.
  - apply ltb_leb; assumption.
  - apply ltb_false_leb in A; auto.
    pose proof (leb_ltb_trans _ _ _ (leb_trans _ _ _ A H) B) as C.
    rewrite ltb_sf in C. apply SFltb_key in C; auto.
    destruct (key (sf cap)) as [[? ?] ?]. cbn in C. lia.
  - apply leb_refl; assumption.
Qed.

Lemma min_le_cap cap x :
  not_nan (sf cap) = true -> (PyFloat.min cap x <=? cap)%float = true.
Proof.
  intros Nc. unfold PyFloat.min. destruct (x <? cap)%float eqn:A.
  - apply ltb_leb; assumption.
  - apply leb_refl; assumption.
Qed.

Lemma min_fin cap x :
  fin (sf cap) = true -> nonneg (sf x) = true \/ sf x = S754_infinity false ->
  fin (sf (PyFloat.min cap x)) = true.
Proof.
  intros Fc Hx. unfold PyFloat.min. destruct (x <? cap)%float eqn:A; [|assumption].
  destruct Hx as [Hx | Hx].
  - destruct (sf x) as [[]|[]| |[] ? ?]; try discriminate; reflexivity.
  - rewrite ltb_sf, Hx in A. destruct (sf cap) as [?|?| |[] ? ?]; discriminate.
Qed.

Section Contribution.

Variables (cap w : float) (mw : positive) (ew : Z).
Hypothesis Hw : sf w = S754_finite false mw ew.
Hypothesis Hcap : fin (sf cap) = true.

Lemma weight_bounded : bounded prec emax mw ew = true.
Proof. pose proof (sf_valid w) as V. rewrite Hw in V. exact V. Qed.

Lemma weighted_sf z f :
  0 <= z -> PyFloat.of_int z = Ok f ->
  sf (w * f) = rndZ (Zpos mw * sval (rndZ z 0)) (ew + sexp 0 (rndZ z 0))
  /\ nonneg (rndZ z 0) = true.
Proof.
  intros Hz H. apply of_int_sf in H as [E F].
  pose proof (rndZ_nonneg z 0 Hz F) as N.
  split; [|assumption].
  rewrite mul_sf, Hw, E. apply SFmul_nonneg; auto using weight_bounded, rndZ_valid.
Qed.

Lemma weighted_shape z f :
  0 <= z -> PyFloat.of_int z = Ok f ->
  nonneg (sf (w * f)) = true \/ sf (w * f) = S754_infinity false.
Proof.
  intros Hz H. destruct (weighted_sf z f Hz H) as [E N]. rewrite E.
  assert (Hs : 0 <= Zpos mw * sval (rndZ z 0)).
  { destruct (rndZ z 0) as [[]|[]| |[] ? ?]; cbn in *; try discriminate; lia. }
  destruct (Zpos mw * sval (rndZ z 0)) as [|m|m]; [left; reflexivity| |lia].
  cbn [rndZ]. pose proof (rnd_signed false m (ew + sexp 0 (rndZ z 0))) as S.
  destruct (rnd false m _) as [[]|[]| |[] ? ?]; cbn in *; try discriminate; auto;
    contradiction.
Qed.

Lemma weighted_mono z1 z2 f1 f2 :
  0 <= z1 <= z2 -> PyFloat.of_int z1 = Ok f1 -> PyFloat.of_int z2 = Ok f2 ->
  (w * f1 <=? w * f2)%float = true.
Proof.
  intros Hz H1 H2.
  pose proof (of_int_mono z1 z2 f1 f2 ltac:(lia) H1 H2) as Hle.
  destruct (of_int_sf _ _ H1) as [E1 F1], (of_int_sf _ _ H2) as [E2 F2].
  rewrite leb_sf in *. rewrite !mul_sf, Hw.
  apply SFmul_mono; auto using weight_bounded, sf_valid.
  - rewrite E1. apply rndZ_nonneg; [lia|assumption].
  - rewrite E2. apply rndZ_nonneg; [lia|assumption].
Qed.

Lemma contribution_mono z1 z2 f1 f2 :
  z1 <= z2 ->
  PyFloat.of_int (Z.max 0 z1) = Ok f1 -> PyFloat.of_int (Z.max 0 z2) = Ok f2 ->
  (PyFloat.min cap (w * f1) <=? PyFloat.min cap (w * f2))%float = true.
Proof.
  intros Hz H1 H2. apply min_mono; [apply fin_not_nan, Hcap|].
  apply (weighted_mono (Z.max 0 z1) (Z.max 0 z2)); [lia|assumption..].
Qed.

Lemma contribution_fin z f :
  PyFloat.of_int (Z.max 0 z) = Ok f -> fin (sf (PyFloat.min cap (w * f))) = true.
Proof.
  intros H. apply min_fin; [exact Hcap|].
  apply (weighted_shape (Z.max 0 z)); [lia|assumption].
Qed.

End Contribution.


(** ** Equality, the constants 0 and 1, and the two clamps *)

Lemma SFeqb_key x y :
  not_nan x = true -> not_nan y = true ->
  (SFeqb x y = true <-> lexle (key x) (key y) /\ lexle (key y) (key x)).
Proof.
  unfold SFeqb, SFcompare, lexle.
  destruct x as [[]|[]| |[] mx ex], y as [[]|[]| |[] my ey]; cbn [key not_nan];
    intros; try discriminate; cmp_cases; cbn [CompOpp];
    (split; [intros; try discriminate; lia | intros; try reflexivity; lia]).
Qed.

Lemma eqb_sf a b : (a =? b)%float = SFeqb (sf a) (sf b).
Proof. apply eqb_spec. Qed.

Lemma sf_zero : sf 0 = S754_zero false.
Proof. reflexivity. Qed.

Lemma sf_one : sf 1 = S754_finite false 4503599627370496 (-52).
Proof. reflexivity. Qed.

Lemma key_zero : key (sf 0) = (0, 0, 0).
Proof. reflexivity. Qed.

Lemma key_one : key (sf 1) = (1, -52, 4503599627370496).
Proof. reflexivity. Qed.

Lemma is_nan_sf x : is_nan x = negb (not_nan (sf x)).
Proof.
  unfold is_nan. rewrite eqb_sf. destruct (not_nan (sf x)) eqn:N.
  - cbn. apply negb_false_iff. apply SFeqb_key; auto.
    destruct (key (sf x)) as [[? ?] ?]. cbn. lia.
  - destruct (sf x); try discriminate. reflexivity.
Qed.

Lemma clamp_is_clamp01 r :
  not_nan (sf r) = true -> (clamp r =? clamp01 r)%float = true.
Proof.
  intros N.
  assert (N0 : not_nan (sf 0) = true) by reflexivity.
  assert (N1 : not_nan (sf 1) = true) by reflexivity.
  pose proof (SFltb_key (sf r) (sf 1) N N1) as A1.
  pose proof (SFltb_false_key (sf r) (sf 1) N N1) as A1'.
  pose proof (SFltb_key (sf 0) (sf r) N0 N) as A2.
  pose proof (SFltb_false_key (sf 0) (sf r) N0 N) as A2'.
  pose proof (SFltb_key (sf r) (sf 0) N N0) as A3.
  pose proof (SFltb_false_key (sf r) (sf 0) N N0) as A3'.
  pose proof (SFltb_key (sf 1) (sf r) N1 N) as A4.
  pose proof (SFltb_false_key (sf 1) (sf r) N1 N) as A4'.
  pose proof (SFeqb_key (sf 0) (sf r) N0 N) as E0.
  pose proof (SFeqb_key (sf 1) (sf r) N1 N) as E1.
  pose proof (SFeqb_key (sf r) (sf r) N N) as Er.
  rewrite <- !ltb_sf in *. rewrite <- !eqb_sf in *.
  rewrite key_zero, key_one in *.
  unfold clamp, clamp01, PyFloat.max, PyFloat.min.
  destruct (key (sf r)) as [[k1 k2] k3]. cbn [lexle lexlt] in *.
  destruct (r <? 1)%float; destruct (r <? 0)%float; destruct (1 <? r)%float;
    try (change (0 <? 1)%float with true; cbv iota);
    try destruct (0 <? r)%float;
    try reflexivity;
    repeat match goal with
      | H : true = true <-> _ |- _ => apply proj1 in H; specialize (H eq_refl)
      | H : false = false <-> _ |- _ => apply proj1 in H; specialize (H eq_refl)
      | H : true = false <-> _ |- _ => clear H
      | H : false = true <-> _ |- _ => clear H
      end;
    try lia;
    try (apply E0; lia); try (apply E1; lia); try (apply Er; lia).
Qed.

(** ** [round(x, 4)] keeps the unit interval *)

Lemma quotient4_table :
  forallb quotient4_ok (map Pos.of_nat (seq 1 (Z.to_nat 10000))) = true.
Proof. vm_compute. reflexivity. Qed.

Lemma quotient4_in_unit n :
  Zpos n <= 10000 -> quotient4_ok n = true.
Proof.
  intros H. pose proof quotient4_table as T. rewrite forallb_forall in T.
  apply T. rewrite <- (Pos2Nat.id n). apply in_map. apply in_seq. lia.
Qed.

Lemma rne_shift_nonneg m e : 0 <= m -> 0 <= PyFloat.rne_shift m e.
Proof.
  intros H. change 0 with (PyFloat.rne_shift 0 0) at 1.
  apply rne_shift_mono; [lia|assumption|]. apply dle_zero_l. assumption.
Qed.

Lemma round4_in_unit x :
  PyFloat.in_unit x = true -> PyFloat.in_unit (PyFloat.round4 x) = true.
Proof.
  intros H. pose proof H as Hx. unfold PyFloat.in_unit in Hx.
  apply andb_true_iff in Hx as [H0 H1]. rewrite leb_sf in H0, H1.
  rewrite sf_zero in H0. rewrite sf_one in H1.
  pose proof (sf_valid x) as V.
  unfold PyFloat.round4. unfold sf in *.
  destruct (Prim2SF x) as [s|[]| |[] m e] eqn:E; try discriminate; try assumption.
  assert (D : dle (Zpos m * 10000) e (4503599627370496 * 10000) (-52)).
  { pose proof (SFleb_dle (S754_finite false m e)
                  (S754_finite false 4503599627370496 (-52)) 0 0
                  eq_refl eq_refl V eq_refl H1) as D.
    cbn [sval sexp] in D.
    pose proof (dle_mul 10000 _ _ _ _ 0 ltac:(lia) D) as D'.
    cbn [Z.add] in D'. rewrite (Z.mul_comm (Zpos m)), (Z.mul_comm 4503599627370496).
    exact D'. }
  apply rne_shift_mono in D; [|lia|lia].
  change (PyFloat.rne_shift (4503599627370496 * 10000) (-52)) with 10000 in D.
  pose proof (rne_shift_nonneg (Zpos m * 10000) e ltac:(lia)) as N.
  destruct (PyFloat.rne_shift (Zpos m * 10000) e) as [|n|n]; [reflexivity| |lia].
  pose proof (quotient4_in_unit n D) as Q. unfold quotient4_ok in Q.
  apply andb_true_iff in Q as [Q Q1]. apply andb_true_iff in Q as [Qv Q0].
  fold (quotient4 n). unfold PyFloat.in_unit. rewrite !leb_sf. unfold sf.
  rewrite Prim2SF_SF2Prim by assumption.
  fold (sf 0). fold (sf 1). rewrite sf_zero, sf_one, Q0, Q1. reflexivity.
Qed.

End B64Facts.

Import B64 B64Facts.

(** ** Strings and patterns *)

Lemma lstrip_head s :
  PyStr.lstrip s = EmptyString
  \/ exists c r, PyStr.lstrip s = String c r /\ PyStr.isspace c = false.
Proof.
  induction s as [|c r IH]; cbn [PyStr.lstrip]; [left; reflexivity|].
  destruct (PyStr.isspace c) eqn:E; [exact IH|].
  right. exists c, r. split; [reflexivity|assumption].
Qed.

Lemma rstrip_nonspace c r :
  PyStr.isspace c = false -> PyStr.rstrip (String c r) <> EmptyString.
Proof.
  intros E. cbn [PyStr.rstrip]. rewrite E. destruct (PyStr.rstrip r); discriminate.
Qed.

Lemma lstrip_empty_split s : PyStr.lstrip s = EmptyString -> PyStr.split s = [].
Proof.
  induction s as [|c r IH]; cbn [PyStr.lstrip PyStr.split]; [reflexivity|].
  destruct (PyStr.isspace c); [exact IH|discriminate].
Qed.

(** A string that strips to nothing has no words. *)
Lemma strip_empty_split s : PyStr.strip s = EmptyString -> PyStr.split s = [].
Proof.
  unfold PyStr.strip. intros H. apply lstrip_empty_split.
  destruct (lstrip_head s) as [E | (c & r & E & Hc)]; [assumption|].
  rewrite E in H. exfalso. exact (rstrip_nonspace c r Hc H).
Qed.

Lemma match_here_literal pat s :
  literal pat = true -> Re.match_here (Re.compile pat) s = prefix pat s.
Proof.
  revert s. induction pat as [|c r IH]; intros s H; [destruct s; reflexivity|].
  cbn [literal] in H. apply andb_true_iff in H as [H Hr].
  apply andb_true_iff in H as [H1 H2].
  cbn [Re.compile]. unfold Re.compile_char.
  apply negb_true_iff in H1, H2. rewrite H1, H2.
  destruct s as [|d s']; cbn [Re.match_here prefix]; [reflexivity|].
  rewrite IH by assumption.
  destruct (ascii_dec c d) as [->|N].
  - rewrite Ascii.eqb_refl. reflexivity.
  - apply Ascii.eqb_neq in N. rewrite N. reflexivity.
Qed.

(** A pattern without metacharacters is searched for as a substring. *)
Lemma search_literal pat s :
  literal pat = true -> Re.search pat s = PyStr.contains pat s.
Proof.
  intros H. unfold Re.search. induction s as [|d s' IH].
  - cbn [Re.search_from PyStr.contains]. rewrite match_here_literal by assumption.
    reflexivity.
  - cbn [Re.search_from PyStr.contains]. rewrite match_here_literal, IH by assumption.
    reflexivity.
Qed.

(** Eight of the ten keywords are such patterns; no keyword uses a
    metacharacter other than [.] and [$]. *)
Lemma literal_keywords :
  filter literal SCAM_KEYWORDS
  = [ "work from home"; "no experience"; "quick money"; "telegram"; "whatsapp";
      "fast cash"; "limited slots"; "easy income" ]
  /\ forallb Re.plain SCAM_KEYWORDS = true.
Proof. split; reflexivity. Qed.

(** ** The structure of [_composite_risk] and [predict_job] *)

Lemma guard_prefer (c : bool) v h :
  (Py.is_none v = true -> c = true) ->
  (if c then prefer v h else v) = prefer v h.
Proof.
  intros H. destruct c; [reflexivity|]. unfold prefer.
  destruct (Py.is_none v); [specialize (H eq_refl); discriminate|reflexivity].
Qed.

Lemma composite_risk_inv p w s k r :
  _composite_risk p w s k = Ok r ->
  exists sc kc,
    capped_contrib 0.12 0.04 s = Ok sc /\ capped_contrib 0.10 0.03 k = Ok kc /\
    r = {| Risk.score := clamp (p + weak_company_contrib w + sc + kc);
           Risk.breakdown :=
             {| Breakdown.model_probability := p;
                Breakdown.weak_company := weak_company_contrib w;
                Breakdown.suspicion_score := sc;
                Breakdown.keyword_hits := kc;
                Breakdown.clamped :=
                  PyFloat.ne (clamp (p + weak_company_contrib w + sc + kc))
                    (p + weak_company_contrib w + sc + kc) |} |}.
Proof.
  unfold _composite_risk, capped_contrib, bind. intros H.
  destruct (PyFloat.of_int (Z.max 0 s)) as [fs|]; [|discriminate].
  destruct (PyFloat.of_int (Z.max 0 k)) as [fk|]; [|discriminate].
  injection H as <-. eexists _, _. repeat split.
Qed.

Lemma predict_job_inv model a r :
  predict_job model a = Ok r ->
  exists p fi ei gi si risk mw se sp,
    prob_scam model (combined_text a) = Ok p /\
    _safe_int (Args.followers a) 0 = Ok fi /\
    _safe_int (Args.employees a) 0 = Ok ei /\
    _safe_int (Args.engagement a) 0 = Ok gi /\
    let h := _heuristic_flags (Args.company_profile a) (Args.description a)
               (Args.requirements a) in
    let kws := found_keywords (PyStr.lower (combined_text a)) in
    let weak := (fi <? 500) || (ei <? 10) || (gi <? 5) in
    Py.int (prefer (Args.suspicion_score a) (Heur.suspicion_score h)) = Ok si /\
    _composite_risk p weak si (Z.of_nat (List.length kws)) = Ok risk /\
    Py.int (prefer (Args.missing_website_flag a) (Heur.missing_website_flag h)) = Ok mw /\
    Py.int (prefer (Args.suspicious_email_flag a) (Heur.suspicious_email_flag h)) = Ok se /\
    Py.int (prefer (Args.short_profile_flag a) (Heur.short_profile_flag h)) = Ok sp /\
    r = {| Prediction.prediction := if PyFloat.ge p 0.5 then "scam" else "legit";
           Prediction.probabilities :=
             {| Probabilities.scam := PyFloat.round4 p;
                Probabilities.legit := PyFloat.round4 (1 - p) |};
           Prediction.risk_score := PyFloat.round4 (Risk.score risk);
           Prediction.signals :=
             {| Signals.keywords_triggered := kws;
                Signals.weak_company := weak;
                Signals.company_strength :=
                  if Py.falsy (Args.company_strength a)
                  then _compute_company_strength fi ei
                  else Py.str_or_empty (Args.company_strength a);
                Signals.followers := fi;
                Signals.employees := ei;
                Signals.engagement := gi;
                Signals.missing_website_flag := mw;
                Signals.suspicious_email_flag := se;
                Signals.short_profile_flag := sp;
                Signals.suspicion_score := si |};
           Prediction.risk_breakdown := Risk.breakdown risk;
           Prediction.model_artifact := _MODEL_PATH model |}.
Proof.
  unfold predict_job. cbv zeta.
  set (c := Py.is_none _ || _ || _ || _).
  rewrite !(guard_prefer c)
    by (subst c; intros ->; rewrite ?orb_true_r, ?orb_true_l; reflexivity).
  unfold bind. intros H.
  destruct (prob_scam model (combined_text a)) as [p|]; [|discriminate].
  destruct (_safe_int (Args.followers a) 0) as [fi|]; [|discriminate].
  destruct (_safe_int (Args.employees a) 0) as [ei|]; [|discriminate].
  destruct (_safe_int (Args.engagement a) 0) as [gi|]; [|discriminate].
  destruct (Py.int (prefer (Args.suspicion_score a) _)) as [si|] eqn:Hsi; [|discriminate].
  destruct (_composite_risk _ _ _ _) as [risk|] eqn:Hrisk; [|discriminate].
  destruct (Py.int (prefer (Args.missing_website_flag a) _)) as [mw|] eqn:Hmw; [|discriminate].
  destruct (Py.int (prefer (Args.suspicious_email_flag a) _)) as [se|] eqn:Hse; [|discriminate].
  destruct (Py.int (prefer (Args.short_profile_flag a) _)) as [sp|] eqn:Hsp; [|discriminate].
  injection H as <-.
  exists p, fi, ei, gi, si, risk, mw, se, sp. repeat split; assumption.
Qed.

Lemma heuristic_flags_shape cp d rq :
  let h := _heuristic_flags cp d rq in
  (Heur.missing_website_flag h = 0 \/ Heur.missing_website_flag h = 1)
  /\ (Heur.suspicious_email_flag h = 0 \/ Heur.suspicious_email_flag h = 1)
  /\ (Heur.short_profile_flag h = 0 \/ Heur.short_profile_flag h = 1)
  /\ Heur.suspicion_score h
     = Heur.missing_website_flag h + Heur.suspicious_email_flag h
       + Heur.short_profile_flag h.
Proof.
  unfold _heuristic_flags. cbn [Heur.missing_website_flag Heur.suspicious_email_flag
    Heur.short_profile_flag Heur.suspicion_score].
  repeat split;
    match goal with
    | |- (if ?b then _ else _) = _ \/ _ => destruct b; auto
    end.
Qed.

Lemma thirty_words_not_short cp d rq :
  List.length (PyStr.split (Py.str_or_empty cp)) = 30%nat ->
  Heur.short_profile_flag (_heuristic_flags cp d rq) = 0.
Proof.
  intros H. unfold _heuristic_flags. cbn [Heur.short_profile_flag].
  rewrite H. change (Z.of_nat 30 <? 30) with false. rewrite orb_false_r.
  destruct (PyStr.strip (Py.str_or_empty cp)) eqn:E.
  - apply strip_empty_split in E. rewrite E in H. discriminate.
  - unfold PyStr.len. cbn [String.length]. rewrite Nat2Z.inj_succ.
    destruct (Z.eqb_spec (Z.succ (Z.of_nat (String.length s))) 0); [lia|reflexivity].
Qed.

Lemma int_prefer_supplied z h : Py.int (prefer (Py.VInt z) h) = Ok z.
Proof. reflexivity. Qed.

Lemma int_prefer_omitted h : Py.int (prefer Py.VNone h) = Ok h.
Proof. reflexivity. Qed.

(** ** The contributions of [_composite_risk] *)

Lemma sf_weight_suspicion : sf 0.04 = S754_finite false 5764607523034235 (-57).
Proof. reflexivity. Qed.

Lemma sf_weight_keywords : sf 0.03 = S754_finite false 8646911284551352 (-58).
Proof. reflexivity. Qed.

Lemma weak_company_contrib_fin w : fin (sf (weak_company_contrib w)) = true.
Proof. destruct w; reflexivity. Qed.

Lemma capped_contrib_inv cap w n c :
  capped_contrib cap w n = Ok c ->
  exists f, PyFloat.of_int (Z.max 0 n) = Ok f /\ c = PyFloat.min cap (w * f).
Proof.
  unfold capped_contrib, bind.
  destruct (PyFloat.of_int (Z.max 0 n)) as [f|]; [|discriminate].
  intros H. exists f. split; [reflexivity|congruence].
Qed.

Lemma capped_contrib_props cap w mw ew n1 n2 c1 c2 :
  sf w = S754_finite false mw ew -> fin (sf cap) = true ->
  n1 <= n2 ->
  capped_contrib cap w n1 = Ok c1 -> capped_contrib cap w n2 = Ok c2 ->
  (c1 <=? c2)%float = true /\ (c2 <=? cap)%float = true
  /\ fin (sf c1) = true /\ fin (sf c2) = true.
Proof.
  intros Hw Hcap Hn H1 H2.
  apply capped_contrib_inv in H1 as (f1 & F1 & ->), H2 as (f2 & F2 & ->).
  split; [|split; [|split]].
  - exact (contribution_mono cap w mw ew Hw Hcap n1 n2 f1 f2 Hn F1 F2).
  - apply min_le_cap, fin_not_nan, Hcap.
  - exact (contribution_fin cap w mw ew Hw Hcap n1 f1 F1).
  - exact (contribution_fin cap w mw ew Hw Hcap n2 f2 F2).
Qed.

Lemma capped_contrib_returns cap w n :
  n < 2 ^ 1023 -> returns (capped_contrib cap w n) = true.
Proof.
  intros H. unfold capped_contrib, bind.
  pose proof (of_int_ok (Z.max 0 n)) as R.
  assert (0 < 2 ^ 1023) by (apply Z.pow_pos_nonneg; lia).
  destruct (PyFloat.of_int (Z.max 0 n)); [reflexivity|].
  apply R. lia.
Qed.

(** [_composite_risk] returns unless a count is too large for a float. *)
Lemma composite_risk_returns p w s k :
  s < 2 ^ 1023 -> k < 2 ^ 1023 -> returns (_composite_risk p w s k) = true.
Proof.
  intros Hs Hk. unfold _composite_risk.
  pose proof (capped_contrib_returns 0.12 0.04 s Hs) as Rs.
  pose proof (capped_contrib_returns 0.10 0.03 k Hk) as Rk.
  unfold capped_contrib, bind in *.
  destruct (PyFloat.of_int (Z.max 0 s)); [|discriminate].
  destruct (PyFloat.of_int (Z.max 0 k)); [|discriminate]. reflexivity.
Qed.

(** The clamped sum is monotone in its last and in its last but one summand. *)
Lemma clamped_sum_mono_last t a b :
  fin (sf a) = true -> fin (sf b) = true -> (a <=? b)%float = true ->
  (clamp (t + a) <=? clamp (t + b))%float = true.
Proof.
  intros Fa Fb H. destruct (not_nan (sf t)) eqn:Nt.
  - apply clamp_mono, add_mono_r; assumption.
  - rewrite !clamp_nan by (apply add_nan; assumption). reflexivity.
Qed.

Lemma clamped_sum_mono_middle t a b c :
  fin (sf a) = true -> fin (sf b) = true -> fin (sf c) = true ->
  (a <=? b)%float = true ->
  (clamp (t + a + c) <=? clamp (t + b + c))%float = true.
Proof.
  intros Fa Fb Fc H. destruct (not_nan (sf t)) eqn:Nt.
  - apply clamp_mono, add_mono_l; [assumption|]. apply add_mono_r; assumption.
  - rewrite !clamp_nan by (apply add_nan, add_nan; assumption). reflexivity.
Qed.

(** ** When [predict_job] returns *)

Lemma safe_int_returns v d : int_or_none v = true -> returns (_safe_int v d) = true.
Proof. destruct v; try discriminate; reflexivity. Qed.

Lemma int_prefer_returns v h :
  int_or_none v = true -> returns (Py.int (prefer v h)) = true.
Proof. destruct v; try discriminate; reflexivity. Qed.

Lemma bind_returns {A B : Type} (r : result A) (k : A -> result B) :
  returns r = true -> (forall x, r = Ok x -> returns (k x) = true) ->
  returns (bind r k) = true.
Proof.
  destruct r as [x|e]; [|discriminate]. intros _ H. apply H. reflexivity.
Qed.

(** With a probability at the extracted index, numeric arguments that are
    integers or omitted and a suspicion score below [2^1023], the call
    returns a result. *)
Lemma predict_job_returns model a :
  returns (prob_scam model (combined_text a)) = true ->
  int_or_none (Args.followers a) = true ->
  int_or_none (Args.employees a) = true ->
  int_or_none (Args.engagement a) = true ->
  int_or_none (Args.missing_website_flag a) = true ->
  int_or_none (Args.suspicious_email_flag a) = true ->
  int_or_none (Args.short_profile_flag a) = true ->
  below_overflow (Args.suspicion_score a) = true ->
  returns (predict_job model a) = true.
Proof.
  intros Hp Hf He Hg Hm Hs Hsp Hss.
  unfold predict_job. cbv zeta.
  set (c := Py.is_none _ || _ || _ || _).
  rewrite !(guard_prefer c)
    by (subst c; intros ->; rewrite ?orb_true_r, ?orb_true_l; reflexivity).
  assert (Hss' : int_or_none (Args.suspicion_score a) = true)
    by (destruct (Args.suspicion_score a); try discriminate; reflexivity).
  apply bind_returns; [assumption|intros p _].
  apply bind_returns; [apply safe_int_returns; assumption|intros fi _].
  apply bind_returns; [apply safe_int_returns; assumption|intros ei _].
  apply bind_returns; [apply safe_int_returns; assumption|intros gi _].
  apply bind_returns; [apply int_prefer_returns; assumption|intros si Hsi].
  apply bind_returns.
  { apply composite_risk_returns.
    - pose proof (heuristic_flags_shape (Args.company_profile a) (Args.description a)
                    (Args.requirements a)) as S.
      cbv zeta in S. destruct S as (A & B & C & D).
      assert (0 < 2 ^ 1023) by (apply Z.pow_pos_nonneg; lia).
      assert (4 <= 2 ^ 1023) by (change 4 with (2 ^ 2); apply Z.pow_le_mono_r; lia).
      destruct (Args.suspicion_score a) as [| | z | |]; try discriminate;
        unfold prefer in Hsi; cbn [Py.is_none Py.int] in Hsi.
      + assert (si = Heur.suspicion_score
                       (_heuristic_flags (Args.company_profile a) (Args.description a)
                          (Args.requirements a))) as -> by congruence.
        lia.
      + assert (si = z) as -> by congruence. cbn in Hss. apply Z.ltb_lt in Hss. exact Hss.
    - assert (H10 : (List.length (found_keywords (PyStr.lower (combined_text a))) <= 10)%nat).
      { unfold found_keywords.
        eapply Nat.le_trans; [apply filter_length_le|]. cbn. lia. }
      assert (16 <= 2 ^ 1023) by (change 16 with (2 ^ 4); apply Z.pow_le_mono_r; lia).
      lia. }
  intros risk _.
  apply bind_returns; [apply int_prefer_returns; assumption|intros mw _].
  apply bind_returns; [apply int_prefer_returns; assumption|intros se _].
  apply bind_returns; [apply int_prefer_returns; assumption|intros sp _].
  apply bind_returns; [apply int_prefer_returns; assumption|intros so _].
  reflexivity.
Qed.

(* ================================================================== *)
(** * Part III: the claims                                             *)
(* ================================================================== *)

(** ** C1: keyword matching *)

(** C1. The keywords are searched for as regular expressions, not as
    literal text.  A title with the literal text [earn $] followed by
    more text triggers no keyword, although the literal keyword occurs
    in the lower-cased text; and [gmailXcom] triggers [gmail.com],
    although the literal keyword does not occur. *)
Theorem keyword_search_is_not_literal :
  keywords_of (predict_job (demo_model 0.5) (with_title "Earn $500 a day"))
    = Ok []
  /\ keywords_literal (PyStr.lower (combined_text (with_title "Earn $500 a day")))
    = ["earn $"]
  /\ keywords_of (predict_job (demo_model 0.5) (with_title "gmailXcom"))
    = Ok ["gmail.com"]
  /\ keywords_literal (PyStr.lower (combined_text (with_title "gmailXcom")))
    = [].
Proof. repeat split; vm_compute; reflexivity. Qed.

(** The first call of the module's self-test: of the phrases of its
    description only one is found. *)
Example self_test_keywords :
  keywords_of (predict_job (demo_model 0.9) scam_test) = Ok ["no experience"].
Proof. vm_compute. reflexivity. Qed.

(** ** C2: exceptions *)

(** A supplied suspicion score that [int] rejects makes the call raise,
    whatever the model and the other arguments are. *)
Lemma bad_suspicion_score_raises model a e :
  Py.is_none (Args.suspicion_score a) = false ->
  Py.int (Args.suspicion_score a) = Raise e ->
  returns (predict_job model a) = false.
Proof.
  intros Hn He. destruct (predict_job model a) as [r|] eqn:E; [|reflexivity].
  apply predict_job_inv in E.
  destruct E as (p & fi & ei & gi & si & risk & mw & se & sp & _ & _ & _ & _ & H).
  cbv zeta in H. destruct H as (Hsi & _).
  unfold prefer in Hsi. rewrite Hn in Hsi. congruence.
Qed.

(** C2. A text that is no integer is replaced by 0 when it is passed for
    [followers], but raises [ValueError] when it is passed for
    [suspicion_score]; and the integer [2^1024] passed for
    [suspicion_score] raises [OverflowError]. *)
Theorem flag_coercion_raises :
  followers_of (predict_job (demo_model 0.5) (with_followers (Py.VStr "abc"))) = Ok 0
  /\ raised (predict_job (demo_model 0.5) (with_suspicion (Py.VStr "abc")))
     = Some ValueError
  /\ raised (predict_job (demo_model 0.5) (with_suspicion (Py.VInt (2 ^ 1024))))
     = Some OverflowError.
Proof. repeat split; vm_compute; reflexivity. Qed.

(** ** C3: the position of the scam probability *)

(** C3, as stated, fails: for a model without [classes_] whose probability
    vector has one entry the code takes index 1, the stated policy index 0,
    and the extraction raises [IndexError]. *)
Lemma index_policy_counterexample :
  idx_scam (bare_model [0.7%float]) [0.7%float] = 1%nat
  /\ idx_scam_spec (bare_model [0.7%float]) [0.7%float] = 0%nat
  /\ prob_scam (bare_model [0.7%float]) EmptyString = Raise IndexError.
Proof. repeat split; vm_compute; reflexivity. Qed.

(** C3, amended.  With a class-label sequence the index is the position
    of the first label 1 in it, and the fallback (1 for two or more
    probabilities, else 0) when label 1 is absent; without a sequence the
    index is 1.  The extraction reads the probability at that index, and
    succeeds exactly when the index is within the vector. *)
Theorem scam_index_policy model proba :
  idx_scam model proba =
    match classes_ model with
    | Some cs =>
        match index_of_one cs with
        | Some i => i
        | None => fallback_index proba
        end
    | None => 1%nat
    end
  /\ (forall text,
        prob_scam model text
        = match nth_error (predict_proba model text)
                  (idx_scam model (predict_proba model text)) with
          | Some p => Ok p
          | None => Raise IndexError
          end)
  /\ (forall text,
        returns (prob_scam model text) = true <->
        (idx_scam model (predict_proba model text)
         < List.length (predict_proba model text))%nat).
Proof.
  split; [|split].
  - unfold idx_scam, fallback_index. destruct (classes_ model); reflexivity.
  - reflexivity.
  - intros text. unfold prob_scam.
    destruct (nth_error _ _) eqn:E.
    + split; [intros _|reflexivity]. apply nth_error_Some. congruence.
    + split; [discriminate|]. intros H. apply nth_error_Some in H. congruence.
Qed.

(** ** C4: the risk score *)

(** C4, as stated, fails: the returned [risk_score] is rounded to four
    decimals.  For the model probability 0.12345 and no other argument the
    clamped sum is 0.28345 and the returned [risk_score] is 0.2835. *)
Lemma risk_score_rounding_counterexample :
  exists r,
    predict_job (demo_model 0.12345) no_args = Ok r
    /\ (Prediction.risk_score r
        =? clamp01 (raw_sum (Prediction.risk_breakdown r)))%float = false.
Proof. eexists. split; vm_compute; reflexivity. Qed.

(** C4, amended.  When [predict_job] returns, the breakdown holds the
    model probability, [0.08] or [0.0] for the weak company,
    [min(0.12, 0.04 * max(0, suspicion_score))] and
    [min(0.10, 0.03 * max(0, keyword hits))]; the composite score is
    [max(0.0, min(1.0, raw))] for the sum [raw] of the four, lies in
    [0, 1], equals the clamp of [raw] when [raw] is a number and is 1.0
    when it is not; the returned [risk_score] is that score rounded to
    four decimals and lies in [0, 1]; and [clamped] tells whether the
    score differs from [raw]. *)
Theorem risk_score_is_rounded_clamp model a r :
  predict_job model a = Ok r ->
  let bd := Prediction.risk_breakdown r in
  let sg := Prediction.signals r in
  let raw := raw_sum bd in
  let score := PyFloat.max 0 (PyFloat.min 1 raw) in
  prob_scam model (combined_text a) = Ok (Breakdown.model_probability bd)
  /\ Breakdown.weak_company bd = weak_company_contrib (Signals.weak_company sg)
  /\ capped_contrib 0.12 0.04 (Signals.suspicion_score sg)
     = Ok (Breakdown.suspicion_score bd)
  /\ capped_contrib 0.10 0.03 (Z.of_nat (List.length (Signals.keywords_triggered sg)))
     = Ok (Breakdown.keyword_hits bd)
  /\ Prediction.risk_score r = PyFloat.round4 score
  /\ PyFloat.in_unit score = true
  /\ PyFloat.in_unit (Prediction.risk_score r) = true
  /\ (is_nan raw = false -> (score =? clamp01 raw)%float = true)
  /\ (is_nan raw = true -> score = 1%float)
  /\ Breakdown.clamped bd = negb (score =? raw)%float.
Proof.
  intros H. apply predict_job_inv in H.
  destruct H as (p & fi & ei & gi & si & risk & mw & se & sp & Hp & _ & _ & _ & H).
  cbv zeta in H. destruct H as (_ & Hrisk & _ & _ & _ & ->).
  apply composite_risk_inv in Hrisk as (sc & kc & Hsc & Hkc & ->).
  cbv zeta. unfold raw_sum.
  cbn [Prediction.risk_breakdown Prediction.signals Prediction.risk_score
       Risk.breakdown Risk.score
       Breakdown.model_probability Breakdown.weak_company Breakdown.suspicion_score
       Breakdown.keyword_hits Breakdown.clamped
       Signals.weak_company Signals.suspicion_score Signals.keywords_triggered].
  set (w := (fi <? 500) || (ei <? 10) || (gi <? 5)).
  set (raw := (p + weak_company_contrib w + sc + kc)%float).
  change (PyFloat.max 0 (PyFloat.min 1 raw)) with (clamp raw).
  repeat match goal with |- _ /\ _ => split end; try assumption; try reflexivity.
  - apply clamp_in_unit.
  - apply round4_in_unit, clamp_in_unit.
  - intros N. apply clamp_is_clamp01. rewrite is_nan_sf in N.
    destruct (not_nan (sf raw)); [reflexivity|discriminate].
  - intros N. apply clamp_nan. rewrite is_nan_sf in N.
    destruct (not_nan (sf raw)); [discriminate|reflexivity].
Qed.

Lemma risk_score_is_rounded_clamp_witness :
  exists r,
    predict_job (demo_model 0.12345) no_args = Ok r
    /\ Prediction.risk_score r
       = PyFloat.round4
           (PyFloat.max 0 (PyFloat.min 1 (raw_sum (Prediction.risk_breakdown r))))
    /\ PyFloat.in_unit (Prediction.risk_score r) = true
    /\ Prediction.risk_score r = 0.2835%float.
Proof.
  destruct (predict_job (demo_model 0.12345) no_args) as [r|e] eqn:E;
    [|vm_compute in E; discriminate].
  exists r. split; [reflexivity|].
  pose proof (risk_score_is_rounded_clamp (demo_model 0.12345) no_args r E) as H.
  cbv zeta in H. destruct H as (_ & _ & _ & _ & Hr & _ & Hu & _).
  split; [exact Hr|]. split; [exact Hu|].
  vm_compute in E. injection E as <-. reflexivity.
Defined.

(** ** C5: the label *)

(** C5. The returned label is ["scam"] exactly when the probability
    extracted from the model is at least 0.5, and ["legit"] otherwise. *)
Theorem label_follows_model_probability model a r :
  predict_job model a = Ok r ->
  exists p,
    prob_scam model (combined_text a) = Ok p
    /\ (Prediction.prediction r = "scam" <-> (0.5 <=? p)%float = true)
    /\ (Prediction.prediction r = "legit" <-> (0.5 <=? p)%float = false).
Proof.
  intros H. apply predict_job_inv in H.
  destruct H as (p & fi & ei & gi & si & risk & mw & se & sp & Hp & _ & _ & _ & H).
  cbv zeta in H. destruct H as (_ & _ & _ & _ & _ & ->).
  exists p. split; [assumption|]. cbn [Prediction.prediction]. unfold PyFloat.ge.
  destruct (0.5 <=? p)%float; split; split; intros; try reflexivity; discriminate.
Qed.

(** A probability of 0.45 with a risk score of 0.61: the label is
    ["legit"]. *)
Lemma label_follows_model_probability_witness :
  exists r,
    predict_job (demo_model 0.45) no_args = Ok r
    /\ Prediction.risk_score r = 0.61%float
    /\ exists p,
         prob_scam (demo_model 0.45) (combined_text no_args) = Ok p
         /\ (Prediction.prediction r = "scam" <-> (0.5 <=? p)%float = true)
         /\ (Prediction.prediction r = "legit" <-> (0.5 <=? p)%float = false).
Proof.
  destruct (predict_job (demo_model 0.45) no_args) as [r|e] eqn:E;
    [|vm_compute in E; discriminate].
  exists r. split; [reflexivity|]. split.
  - vm_compute in E. injection E as <-. reflexivity.
  - exact (label_follows_model_probability (demo_model 0.45) no_args r E).
Defined.

(** ** C6: supplied and derived flags *)

(** C6. Each of the three flags and the suspicion score is returned as
    the integer the caller supplied, and as the heuristic value when the
    caller omitted it. *)
Theorem per_field_override model a r :
  predict_job model a = Ok r ->
  let h := _heuristic_flags (Args.company_profile a) (Args.description a)
             (Args.requirements a) in
  let s := Prediction.signals r in
  ((forall z, Args.missing_website_flag a = Py.VInt z -> Signals.missing_website_flag s = z)
   /\ (Args.missing_website_flag a = Py.VNone ->
       Signals.missing_website_flag s = Heur.missing_website_flag h))
  /\ ((forall z, Args.suspicious_email_flag a = Py.VInt z ->
       Signals.suspicious_email_flag s = z)
      /\ (Args.suspicious_email_flag a = Py.VNone ->
          Signals.suspicious_email_flag s = Heur.suspicious_email_flag h))
  /\ ((forall z, Args.short_profile_flag a = Py.VInt z -> Signals.short_profile_flag s = z)
      /\ (Args.short_profile_flag a = Py.VNone ->
          Signals.short_profile_flag s = Heur.short_profile_flag h))
  /\ ((forall z, Args.suspicion_score a = Py.VInt z -> Signals.suspicion_score s = z)
      /\ (Args.suspicion_score a = Py.VNone ->
          Signals.suspicion_score s = Heur.suspicion_score h)).
Proof.
  intros H. apply predict_job_inv in H.
  destruct H as (p & fi & ei & gi & si & risk & mw & se & sp & _ & _ & _ & _ & H).
  cbv zeta in H. destruct H as (Hsi & _ & Hmw & Hse & Hsp & ->).
  cbv zeta.
  cbn [Prediction.signals Signals.missing_website_flag Signals.suspicious_email_flag
       Signals.short_profile_flag Signals.suspicion_score].
  repeat split; intros;
    match goal with
    | E : Args.missing_website_flag a = _ |- _ => rewrite E in Hmw
    | E : Args.suspicious_email_flag a = _ |- _ => rewrite E in Hse
    | E : Args.short_profile_flag a = _ |- _ => rewrite E in Hsp
    | E : Args.suspicion_score a = _ |- _ => rewrite E in Hsi
    end;
    rewrite ?int_prefer_supplied, ?int_prefer_omitted in *; congruence.
Qed.

(** The supplied score 0 is returned although the text yields 3; the
    omitted website flag is derived. *)
Lemma per_field_override_witness :
  exists r,
    predict_job (demo_model 0.5) scenario_c = Ok r
    /\ Heur.suspicion_score
         (_heuristic_flags (Args.company_profile scenario_c)
            (Args.description scenario_c) (Args.requirements scenario_c)) = 3
    /\ Signals.suspicion_score (Prediction.signals r) = 0
    /\ Signals.missing_website_flag (Prediction.signals r) = 1.
Proof.
  destruct (predict_job (demo_model 0.5) scenario_c) as [r|e] eqn:E;
    [|vm_compute in E; discriminate].
  exists r. split; [reflexivity|]. split; [vm_compute; reflexivity|].
  pose proof (per_field_override (demo_model 0.5) scenario_c r E) as H.
  cbv zeta in H. destruct H as ((_ & Hm) & _ & _ & (Hs & _)).
  split; [apply Hs; reflexivity|]. rewrite Hm by reflexivity. vm_compute. reflexivity.
Defined.

(** ** C7: derived flags *)

(** C7. When the caller supplies none of the four fields, each returned
    flag is 0 or 1, the returned suspicion score is their sum and lies in
    0..3, and a company profile of exactly 30 words gives the short
    profile flag 0. *)
Theorem derived_flags_sum model a r :
  Args.missing_website_flag a = Py.VNone ->
  Args.suspicious_email_flag a = Py.VNone ->
  Args.short_profile_flag a = Py.VNone ->
  Args.suspicion_score a = Py.VNone ->
  predict_job model a = Ok r ->
  let s := Prediction.signals r in
  (Signals.missing_website_flag s = 0 \/ Signals.missing_website_flag s = 1)
  /\ (Signals.suspicious_email_flag s = 0 \/ Signals.suspicious_email_flag s = 1)
  /\ (Signals.short_profile_flag s = 0 \/ Signals.short_profile_flag s = 1)
  /\ Signals.suspicion_score s
     = Signals.missing_website_flag s + Signals.suspicious_email_flag s
       + Signals.short_profile_flag s
  /\ 0 <= Signals.suspicion_score s <= 3
  /\ (List.length (PyStr.split (Py.str_or_empty (Args.company_profile a))) = 30%nat ->
      Signals.short_profile_flag s = 0).
Proof.
  intros E1 E2 E3 E4 H. apply predict_job_inv in H.
  destruct H as (p & fi & ei & gi & si & risk & mw & se & sp & _ & _ & _ & _ & H).
  cbv zeta in H. destruct H as (Hsi & _ & Hmw & Hse & Hsp & ->).
  rewrite E1 in Hmw. rewrite E2 in Hse. rewrite E3 in Hsp. rewrite E4 in Hsi.
  unfold prefer in Hsi, Hmw, Hse, Hsp. cbn [Py.is_none Py.int] in Hsi, Hmw, Hse, Hsp.
  set (h := _heuristic_flags (Args.company_profile a) (Args.description a)
              (Args.requirements a)) in *.
  assert (si = Heur.suspicion_score h) as -> by congruence.
  assert (mw = Heur.missing_website_flag h) as -> by congruence.
  assert (se = Heur.suspicious_email_flag h) as -> by congruence.
  assert (sp = Heur.short_profile_flag h) as -> by congruence.
  cbn [Prediction.signals Signals.missing_website_flag Signals.suspicious_email_flag
       Signals.short_profile_flag Signals.suspicion_score].
  pose proof (heuristic_flags_shape (Args.company_profile a) (Args.description a)
                (Args.requirements a)) as S.
  cbv zeta in S. fold h in S. destruct S as (A & B & C & D).
  split; [|split; [|split; [|split; [|split]]]]; try assumption; try lia.
  apply thirty_words_not_short.
Qed.

(** A profile of exactly thirty words, without a link. *)
Lemma derived_flags_sum_witness :
  exists r,
    predict_job (demo_model 0.5) thirty_words = Ok r
    /\ List.length (PyStr.split (Py.str_or_empty (Args.company_profile thirty_words)))
       = 30%nat
    /\ Signals.short_profile_flag (Prediction.signals r) = 0
    /\ Signals.suspicion_score (Prediction.signals r)
       = Signals.missing_website_flag (Prediction.signals r)
         + Signals.suspicious_email_flag (Prediction.signals r)
         + Signals.short_profile_flag (Prediction.signals r).
Proof.
  destruct (predict_job (demo_model 0.5) thirty_words) as [r|e] eqn:E;
    [|vm_compute in E; discriminate].
  exists r. split; [reflexivity|]. split; [vm_compute; reflexivity|].
  pose proof (derived_flags_sum (demo_model 0.5) thirty_words r
                eq_refl eq_refl eq_refl eq_refl E) as H.
  cbv zeta in H. destruct H as (_ & _ & _ & Hsum & _ & Hshort).
  split; [apply Hshort; vm_compute; reflexivity|exact Hsum].
Defined.

(** ** C8: monotonicity of the composer *)

(** C8. For a fixed model probability and weak-company value, and for
    two calls of [_composite_risk] that return: with the same suspicion
    score, more keyword hits give a keyword contribution and a score that
    are not smaller, the contribution at most 0.10; with the same keyword
    hits, a larger suspicion score gives a suspicion contribution and a
    score that are not smaller, the contribution at most 0.12. *)
Theorem composite_risk_monotone (prob_scam : float) (weak_company : bool) :
  (forall suspicion_score k1 k2 r1 r2,
      k1 <= k2 ->
      _composite_risk prob_scam weak_company suspicion_score k1 = Ok r1 ->
      _composite_risk prob_scam weak_company suspicion_score k2 = Ok r2 ->
      (Risk.score r1 <=? Risk.score r2)%float = true
      /\ (Breakdown.keyword_hits (Risk.breakdown r1)
          <=? Breakdown.keyword_hits (Risk.breakdown r2))%float = true
      /\ (Breakdown.keyword_hits (Risk.breakdown r2) <=? 0.10)%float = true)
  /\ (forall s1 s2 keyword_hits r1 r2,
        s1 <= s2 ->
        _composite_risk prob_scam weak_company s1 keyword_hits = Ok r1 ->
        _composite_risk prob_scam weak_company s2 keyword_hits = Ok r2 ->
        (Risk.score r1 <=? Risk.score r2)%float = true
        /\ (Breakdown.suspicion_score (Risk.breakdown r1)
            <=? Breakdown.suspicion_score (Risk.breakdown r2))%float = true
        /\ (Breakdown.suspicion_score (Risk.breakdown r2) <=? 0.12)%float = true).
Proof.
  split.
  - intros s k1 k2 r1 r2 Hk H1 H2.
    apply composite_risk_inv in H1 as (sc1 & kc1 & S1 & K1 & ->).
    apply composite_risk_inv in H2 as (sc2 & kc2 & S2 & K2 & ->).
    assert (sc1 = sc2) as -> by congruence.
    destruct (capped_contrib_props 0.10 0.03 _ _ k1 k2 kc1 kc2 sf_weight_keywords
                eq_refl Hk K1 K2) as (L & C & F1 & F2).
    cbn [Risk.score Risk.breakdown Breakdown.keyword_hits].
    split; [|split; assumption].
    apply clamped_sum_mono_last; assumption.
  - intros s1 s2 k r1 r2 Hs H1 H2.
    apply composite_risk_inv in H1 as (sc1 & kc1 & S1 & K1 & ->).
    apply composite_risk_inv in H2 as (sc2 & kc2 & S2 & K2 & ->).
    assert (kc1 = kc2) as -> by congruence.
    destruct (capped_contrib_props 0.12 0.04 _ _ s1 s2 sc1 sc2 sf_weight_suspicion
                eq_refl Hs S1 S2) as (L & C & F1 & F2).
    destruct (capped_contrib_props 0.10 0.03 _ _ k k kc2 kc2 sf_weight_keywords
                eq_refl (Z.le_refl k) K2 K2) as (_ & _ & Fk & _).
    cbn [Risk.score Risk.breakdown Breakdown.suspicion_score].
    split; [|split; assumption].
    apply clamped_sum_mono_middle; assumption.
Qed.

Lemma composite_risk_monotone_witness :
  exists r1 r2 r3,
    _composite_risk 0.45 true 1 1 = Ok r1
    /\ _composite_risk 0.45 true 1 5 = Ok r2
    /\ _composite_risk 0.45 true 7 5 = Ok r3
    /\ (Risk.score r1 <=? Risk.score r2)%float = true
    /\ (Risk.score r2 <=? Risk.score r3)%float = true.
Proof.
  destruct (_composite_risk 0.45 true 1 1) as [r1|e] eqn:E1;
    [|vm_compute in E1; discriminate].
  destruct (_composite_risk 0.45 true 1 5) as [r2|e] eqn:E2;
    [|vm_compute in E2; discriminate].
  destruct (_composite_risk 0.45 true 7 5) as [r3|e] eqn:E3;
    [|vm_compute in E3; discriminate].
  exists r1, r2, r3. repeat split.
  - apply (proj1 (composite_risk_monotone 0.45 true) 1 1 5 r1 r2); [lia|assumption..].
  - apply (proj2 (composite_risk_monotone 0.45 true) 1 7 5 r2 r3); [lia|assumption..].
Defined.

(** ** C9: company strength *)

(** C9. The classification is "weak" when followers < 500 or employees <
    20, otherwise "medium" when followers <= 5000, otherwise "strong"; in
    particular more than 5000 followers with fewer than 20 employees is
    "weak".  [predict_job] returns this classification of the coerced
    counts when the caller supplies no company strength. *)
Theorem company_strength_first_match :
  (forall followers employees,
      (followers < 500 \/ employees < 20 ->
       _compute_company_strength followers employees = "weak")
      /\ (500 <= followers <= 5000 /\ 20 <= employees ->
          _compute_company_strength followers employees = "medium")
      /\ (5000 < followers /\ 20 <= employees ->
          _compute_company_strength followers employees = "strong")
      /\ (5000 < followers /\ employees < 20 ->
          _compute_company_strength followers employees = "weak"))
  /\ (forall model a r,
        predict_job model a = Ok r ->
        Args.company_strength a = None ->
        Signals.company_strength (Prediction.signals r)
        = _compute_company_strength (Signals.followers (Prediction.signals r))
            (Signals.employees (Prediction.signals r))).
Proof.
  split.
  - intros f e. unfold _compute_company_strength.
    repeat split; intros H;
      destruct (Z.ltb_spec f 500), (Z.ltb_spec e 20), (Z.leb_spec 500 f),
        (Z.leb_spec f 5000);
      cbn [orb andb]; try reflexivity; lia.
  - intros model a r H E. apply predict_job_inv in H.
    destruct H as (p & fi & ei & gi & si & risk & mw & se & sp & _ & _ & _ & _ & H).
    cbv zeta in H. destruct H as (_ & _ & _ & _ & _ & ->).
    cbn [Prediction.signals Signals.company_strength Signals.followers Signals.employees].
    rewrite E. reflexivity.
Qed.

Lemma company_strength_first_match_witness :
  _compute_company_strength 6000 10 = "weak"
  /\ _compute_company_strength 6000 20 = "strong"
  /\ _compute_company_strength 5000 20 = "medium".
Proof.
  destruct company_strength_first_match as [H _].
  split; [|split].
  - apply (proj2 (proj2 (proj2 (H 6000 10)))). lia.
  - apply (proj1 (proj2 (proj2 (H 6000 20)))). lia.
  - apply (proj1 (proj2 (H 5000 20))). lia.
Defined.

(** ** C10: the model output does not depend on the enrichment *)

(** C10. Two calls with the same four text fields that both return give
    the same label and the same probabilities, whatever the other
    arguments are. *)
Theorem model_output_noninterference model a1 a2 r1 r2 :
  Args.title a1 = Args.title a2 ->
  Args.description a1 = Args.description a2 ->
  Args.requirements a1 = Args.requirements a2 ->
  Args.company_profile a1 = Args.company_profile a2 ->
  predict_job model a1 = Ok r1 ->
  predict_job model a2 = Ok r2 ->
  Prediction.prediction r1 = Prediction.prediction r2
  /\ Prediction.probabilities r1 = Prediction.probabilities r2.
Proof.
  intros Et Ed Er Ec H1 H2.
  assert (Etext : combined_text a1 = combined_text a2).
  { unfold combined_text. rewrite Et, Ed, Er, Ec. reflexivity. }
  apply predict_job_inv in H1, H2.
  destruct H1 as (p1 & ? & ? & ? & ? & ? & ? & ? & ? & Hp1 & _ & _ & _ & H1).
  destruct H2 as (p2 & ? & ? & ? & ? & ? & ? & ? & ? & Hp2 & _ & _ & _ & H2).
  cbv zeta in H1, H2.
  destruct H1 as (_ & _ & _ & _ & _ & ->). destruct H2 as (_ & _ & _ & _ & _ & ->).
  rewrite Etext in Hp1. assert (p1 = p2) as -> by congruence.
  split; reflexivity.
Qed.

(** No enrichment against full enrichment: the risk scores differ, the
    label and the probabilities do not. *)
Lemma model_output_noninterference_witness :
  exists r1 r2,
    predict_job (demo_model 0.45) no_args = Ok r1
    /\ predict_job (demo_model 0.45) enriched_args = Ok r2
    /\ Prediction.risk_score r1 <> Prediction.risk_score r2
    /\ Prediction.prediction r1 = Prediction.prediction r2
    /\ Prediction.probabilities r1 = Prediction.probabilities r2.
Proof.
  destruct (predict_job (demo_model 0.45) no_args) as [r1|e] eqn:E1;
    [|vm_compute in E1; discriminate].
  destruct (predict_job (demo_model 0.45) enriched_args) as [r2|e] eqn:E2;
    [|vm_compute in E2; discriminate].
  exists r1, r2. split; [reflexivity|]. split; [reflexivity|]. split.
  - vm_compute in E1, E2. injection E1 as <-. injection E2 as <-. cbn.
    intros C. apply (f_equal (fun x => (x =? 0.61)%float)) in C.
    vm_compute in C. discriminate.
  - apply (model_output_noninterference (demo_model 0.45) no_args enriched_args);
      try reflexivity; assumption.
Defined.

(* ================================================================== *)
(** * Part IV: further properties of the modules                       *)
(* ================================================================== *)


(** ** Patterns with an anchor or a wildcard *)

Lemma string_eqb_cons c s d t :
  String.eqb (String c s) (String d t) = Ascii.eqb c d && String.eqb s t.
Proof.
  cbn [String.eqb]. destruct (Ascii.eqb c d); reflexivity.
Qed.

(** A literal pattern followed by [$] matches at a position exactly when
    the rest of the text is the pattern, or the pattern and one final
    newline. *)
Lemma match_here_anchored pat s :
  literal pat = true ->
  Re.match_here (Re.compile pat ++ [Re.Eol]) s
  = String.eqb s pat || String.eqb s (pat ++ char Re.newline).
Proof.
  revert s. induction pat as [|c r IH]; intros s H.
  - cbn [Re.compile app Re.match_here]. rewrite andb_true_r.
    unfold char. destruct s as [|d [|d' s']]; cbn [Re.at_end append]; try reflexivity.
    + rewrite string_eqb_cons. cbn [String.eqb orb]. rewrite andb_true_r. reflexivity.
    + rewrite string_eqb_cons. cbn [String.eqb orb]. rewrite andb_false_r. reflexivity.
  - cbn [literal] in H. apply andb_true_iff in H as [H Hr].
    apply andb_true_iff in H as [H1 H2]. apply negb_true_iff in H1, H2.
    cbn [Re.compile app]. unfold Re.compile_char. rewrite H1, H2.
    destruct s as [|d s']; [reflexivity|].
    cbn [Re.match_here append]. rewrite IH by assumption.
    rewrite !string_eqb_cons, (Ascii.eqb_sym d c).
    destruct (Ascii.eqb c d); reflexivity.
Qed.

Lemma search_anchored pat s :
  literal pat = true ->
  Re.search_from (Re.compile pat ++ [Re.Eol]) s
  = endswith s pat || endswith s (pat ++ char Re.newline).
Proof.
  intros H. induction s as [|d s' IH].
  - cbn [Re.search_from endswith]. rewrite match_here_anchored by assumption.
    rewrite !orb_false_r. reflexivity.
  - cbn [Re.search_from endswith]. rewrite match_here_anchored, IH by assumption.
    destruct (String.eqb (String d s') pat),
      (String.eqb (String d s') (pat ++ char Re.newline)),
      (endswith s' pat), (endswith s' (pat ++ char Re.newline)); reflexivity.
Qed.

Lemma prefix_cons c p d s :
  prefix (String c p) (String d s) = Ascii.eqb c d && prefix p s.
Proof.
  cbn [prefix]. destruct (ascii_dec c d) as [->|N].
  - rewrite Ascii.eqb_refl. reflexivity.
  - apply Ascii.eqb_neq in N. rewrite N. reflexivity.
Qed.

(** A literal pattern, [.], and a second literal pattern match at a
    position exactly when the text goes on with the first pattern, one
    character that is no newline, and the second pattern. *)
Lemma match_here_wildcard p1 p2 s :
  literal p1 = true -> literal p2 = true ->
  Re.match_here (Re.compile p1 ++ Re.AnyChar :: Re.compile p2) s = true
  <-> exists c, Ascii.eqb c Re.newline = false
                /\ prefix (p1 ++ String c p2) s = true.
Proof.
  intros H1 H2. revert s. induction p1 as [|a r IH]; intros s.
  - cbn [Re.compile app append Re.match_here]. destruct s as [|d s'].
    + split; [discriminate|]. intros (c & _ & P). discriminate.
    + rewrite match_here_literal by assumption. split.
      * intros H. apply andb_true_iff in H as [N P]. apply negb_true_iff in N.
        exists d. split; [assumption|]. rewrite prefix_cons, Ascii.eqb_refl. exact P.
      * intros (c & N & P). rewrite prefix_cons in P.
        apply andb_true_iff in P as [E P]. apply Ascii.eqb_eq in E. subst d.
        rewrite N, P. reflexivity.
  - cbn [literal] in H1. apply andb_true_iff in H1 as [H Hr].
    apply andb_true_iff in H as [Ha Hb]. apply negb_true_iff in Ha, Hb.
    cbn [Re.compile app append]. unfold Re.compile_char. rewrite Ha, Hb.
    destruct s as [|d s']; cbn [Re.match_here].
    + split; [discriminate|]. intros (c & _ & P). discriminate.
    + split.
      * intros H. apply andb_true_iff in H as [E M].
        apply (IH Hr) in M as (c & N & P). exists c. split; [assumption|].
        rewrite prefix_cons, E, P. reflexivity.
      * intros (c & N & P). rewrite prefix_cons in P.
        apply andb_true_iff in P as [E P]. rewrite E. cbn [andb].
        apply (IH Hr). exists c. split; assumption.
Qed.

Lemma contains_cons needle d s :
  PyStr.contains needle (String d s)
  = prefix needle (String d s) || PyStr.contains needle s.
Proof. reflexivity. Qed.

Lemma search_wildcard p1 p2 s :
  literal p1 = true -> literal p2 = true ->
  Re.search_from (Re.compile p1 ++ Re.AnyChar :: Re.compile p2) s = true
  <-> exists c, Ascii.eqb c Re.newline = false
                /\ PyStr.contains (p1 ++ String c p2) s = true.
Proof.
  intros H1 H2. induction s as [|d s' IH].
  - cbn [Re.search_from PyStr.contains]. rewrite orb_false_r.
    rewrite match_here_wildcard by assumption.
    split; intros (c & N & P); exists c; (split; [assumption|]).
    + rewrite P. reflexivity.
    + rewrite orb_false_r in P. exact P.
  - cbn [Re.search_from]. rewrite orb_true_iff, IH, (match_here_wildcard p1 p2) by assumption.
    split.
    + intros [(c & N & P) | (c & N & P)]; exists c; (split; [assumption|]);
        rewrite contains_cons, P; [reflexivity|apply orb_true_r].
    + intros (c & N & P). rewrite contains_cons in P.
      apply orb_true_iff in P as [P|P]; [left|right]; exists c; split; assumption.
Qed.

(** Membership in the list of the keywords found. *)
Lemma found_keywords_In kw lowered :
  In kw (found_keywords lowered) <-> In kw SCAM_KEYWORDS /\ Re.search kw lowered = true.
Proof.
  exact (filter_In (fun kw => Re.search kw lowered) kw SCAM_KEYWORDS).
Qed.

Lemma keywords_triggered_eq model a r :
  predict_job model a = Ok r ->
  Signals.keywords_triggered (Prediction.signals r)
  = found_keywords (PyStr.lower (combined_text a)).
Proof.
  intros H. apply predict_job_inv in H.
  destruct H as (p & fi & ei & gi & si & risk & mw & se & sp & _ & _ & _ & _ & H).
  cbv zeta in H. destruct H as (_ & _ & _ & _ & _ & ->). reflexivity.
Qed.

(** ** Keywords *)

(** X1. Each of the eight keywords without [.] and [$] is reported
    exactly when it occurs in the lower-cased text. *)
Theorem plain_keyword_triggered_iff_substring model a r kw :
  predict_job model a = Ok r ->
  In kw [ "work from home"; "no experience"; "quick money"; "telegram"; "whatsapp";
          "fast cash"; "limited slots"; "easy income" ] ->
  (In kw (Signals.keywords_triggered (Prediction.signals r))
   <-> PyStr.contains kw (PyStr.lower (combined_text a)) = true).
Proof.
  intros H K. rewrite (keywords_triggered_eq _ _ _ H), found_keywords_In.
  assert (L : literal kw = true /\ In kw SCAM_KEYWORDS).
  { cbn [In] in K.
    repeat (destruct K as [<-|K]; [split; [reflexivity|cbn; tauto]|]).
    contradiction. }
  destruct L as [L I]. rewrite search_literal by assumption. tauto.
Qed.

Lemma plain_keyword_triggered_iff_substring_witness :
  exists r,
    predict_job (demo_model 0.9) scam_test = Ok r
    /\ In "no experience" (Signals.keywords_triggered (Prediction.signals r))
    /\ ~ In "telegram" (Signals.keywords_triggered (Prediction.signals r)).
Proof.
  destruct (predict_job (demo_model 0.9) scam_test) as [r|e] eqn:E;
    [|vm_compute in E; discriminate].
  exists r. split; [reflexivity|]. split.
  - apply (plain_keyword_triggered_iff_substring (demo_model 0.9) scam_test r
             "no experience" E); [cbn; tauto|vm_compute; reflexivity].
  - intros I.
    apply (plain_keyword_triggered_iff_substring (demo_model 0.9) scam_test r
             "telegram" E) in I; [vm_compute in I; discriminate|cbn; tauto].
Defined.

(** X2. The keyword [earn $] is reported exactly when the lower-cased
    text ends with the word [earn] and one space, or with these and one
    final newline: the [$] is the end of the text, never a dollar sign. *)
Theorem earn_keyword_triggered_iff_text_ends model a r :
  predict_job model a = Ok r ->
  (In "earn $" (Signals.keywords_triggered (Prediction.signals r))
   <-> endswith (PyStr.lower (combined_text a)) "earn " = true
       \/ endswith (PyStr.lower (combined_text a)) ("earn " ++ char Re.newline) = true).
Proof.
  intros H. rewrite (keywords_triggered_eq _ _ _ H), found_keywords_In.
  unfold Re.search.
  change (Re.compile "earn $") with (Re.compile "earn " ++ [Re.Eol])%list.
  rewrite search_anchored by reflexivity. rewrite orb_true_iff.
  split; [tauto|]. intros E. split; [cbn; tauto|assumption].
Qed.

Lemma earn_keyword_triggered_iff_text_ends_witness :
  exists r,
    predict_job (demo_model 0.5) (with_requirements "You must earn") = Ok r
    /\ In "earn $" (Signals.keywords_triggered (Prediction.signals r)).
Proof.
  destruct (predict_job (demo_model 0.5) (with_requirements "You must earn")) as [r|e] eqn:E;
    [|vm_compute in E; discriminate].
  exists r. split; [reflexivity|].
  apply (earn_keyword_triggered_iff_text_ends _ _ _ E).
  left. vm_compute. reflexivity.
Defined.

(** X3. The keyword [gmail.com] is reported exactly when the lower-cased
    text contains [gmail], one character that is no newline, and [com]:
    every literal occurrence is found, and so is every other character
    in the place of the dot. *)
Theorem gmail_keyword_triggered_iff_any_separator model a r :
  predict_job model a = Ok r ->
  (In "gmail.com" (Signals.keywords_triggered (Prediction.signals r))
   <-> exists c, Ascii.eqb c Re.newline = false
                 /\ PyStr.contains ("gmail" ++ String c "com")
                      (PyStr.lower (combined_text a)) = true).
Proof.
  intros H. rewrite (keywords_triggered_eq _ _ _ H), found_keywords_In.
  unfold Re.search.
  change (Re.compile "gmail.com")
    with (Re.compile "gmail" ++ Re.AnyChar :: Re.compile "com")%list.
  rewrite search_wildcard by reflexivity.
  split; [tauto|]. intros E. split; [cbn; tauto|assumption].
Qed.

Lemma gmail_keyword_triggered_iff_any_separator_witness :
  exists r,
    predict_job (demo_model 0.5) (with_title "write to hr@gmail.com") = Ok r
    /\ In "gmail.com" (Signals.keywords_triggered (Prediction.signals r)).
Proof.
  destruct (predict_job (demo_model 0.5) (with_title "write to hr@gmail.com"))
    as [r|e] eqn:E; [|vm_compute in E; discriminate].
  exists r. split; [reflexivity|].
  apply (gmail_keyword_triggered_iff_any_separator _ _ _ E).
  exists "."%char. split; vm_compute; reflexivity.
Defined.

(** ** Coercions *)


Lemma int_of_str_raise s e : Py.int_of_str s = Raise e -> e = ValueError.
Proof.
  unfold Py.int_of_str.
  destruct (match PyStr.strip s with
            | String "-" r => (true, r)
            | String "+" r => (false, r)
            | _ => (false, PyStr.strip s)
            end) as [neg body].
  destruct (Py.unsigned_literal body); intros H; [discriminate|congruence].
Qed.

Lemma falsy_str_or_empty cs :
  Py.falsy cs = String.eqb (Py.str_or_empty cs) EmptyString.
Proof. destruct cs as [[|c s]|]; reflexivity. Qed.


(** ** [_safe_int] *)



(** ** The text fields and the company strength *)

(** X5. An empty string for a text field or for [company_strength] is
    the same as omitting the argument: two calls whose optional strings
    agree up to that, and whose other arguments are equal, give the same
    result or raise the same exception. *)
Theorem empty_string_is_omitted model a1 a2 :
  Py.str_or_empty (Args.title a1) = Py.str_or_empty (Args.title a2) ->
  Py.str_or_empty (Args.description a1) = Py.str_or_empty (Args.description a2) ->
  Py.str_or_empty (Args.requirements a1) = Py.str_or_empty (Args.requirements a2) ->
  Py.str_or_empty (Args.company_profile a1) = Py.str_or_empty (Args.company_profile a2) ->
  Py.str_or_empty (Args.company_strength a1) = Py.str_or_empty (Args.company_strength a2) ->
  Args.followers a1 = Args.followers a2 ->
  Args.employees a1 = Args.employees a2 ->
  Args.engagement a1 = Args.engagement a2 ->
  Args.missing_website_flag a1 = Args.missing_website_flag a2 ->
  Args.suspicious_email_flag a1 = Args.suspicious_email_flag a2 ->
  Args.short_profile_flag a1 = Args.short_profile_flag a2 ->
  Args.suspicion_score a1 = Args.suspicion_score a2 ->
  predict_job model a1 = predict_job model a2.
Proof.
  intros Et Ed Er Ec Es Ef Ee Eg Em Ese Esp Ess.
  unfold predict_job, combined_text, _heuristic_flags.
  rewrite !falsy_str_or_empty.
  rewrite Et, Ed, Er, Ec, Es, Ef, Ee, Eg, Em, Ese, Esp, Ess. reflexivity.
Qed.

Lemma empty_string_is_omitted_witness :
  predict_job (demo_model 0.5) (with_title EmptyString)
  = predict_job (demo_model 0.5) no_args.
Proof.
  apply (empty_string_is_omitted (demo_model 0.5) (with_title EmptyString) no_args);
    reflexivity.
Defined.

(** X6. A supplied, non-empty [company_strength] is returned as it is,
    whatever the counts are, and changes nothing else: the call returns
    exactly when the call without it returns, with the same result but
    for [signals.company_strength]. *)
Theorem supplied_company_strength_only_echoed model a cs :
  cs <> EmptyString ->
  predict_job model (with_company_strength (Some cs) a)
  = (r <- predict_job model (with_company_strength None a) ;;
     Ok (set_company_strength cs r)).
Proof.
  intros N. unfold predict_job, combined_text, with_company_strength.
  cbn [Args.title Args.description Args.requirements Args.company_profile
       Args.followers Args.employees Args.engagement Args.company_strength
       Args.missing_website_flag Args.suspicious_email_flag Args.short_profile_flag
       Args.suspicion_score].
  assert (F : Py.falsy (Some cs) = false) by (destruct cs; [contradiction|reflexivity]).
  rewrite F. cbn [Py.falsy Py.str_or_empty].
  unfold bind.
  repeat match goal with
         | |- match ?x with Ok _ => _ | Raise _ => _ end = _ =>
             destruct x; [|reflexivity]
         end.
  reflexivity.
Qed.

Lemma supplied_company_strength_only_echoed_witness :
  exists r,
    predict_job (demo_model 0.5) (with_company_strength (Some "strong") scam_test) = Ok r
    /\ Signals.company_strength (Prediction.signals r) = "strong"
    /\ Signals.followers (Prediction.signals r) = 120
    /\ Signals.weak_company (Prediction.signals r) = true.
Proof.
  rewrite (supplied_company_strength_only_echoed (demo_model 0.5) scam_test "strong")
    by discriminate.
  destruct (predict_job (demo_model 0.5) (with_company_strength None scam_test))
    as [r|e] eqn:E; [|vm_compute in E; discriminate].
  exists (set_company_strength "strong" r). split; [reflexivity|].
  vm_compute in E. injection E as <-. repeat split.
Defined.

(** ** Weak companies *)

(** X7. A call that returns without [followers], without [employees] or
    without [engagement] reports a weak company and adds 0.08 for it,
    since an omitted count is 0; without [followers] or without
    [employees] a derived company strength is ["weak"]. *)
Theorem omitted_counts_make_company_weak model a r :
  predict_job model a = Ok r ->
  (Args.followers a = Py.VNone \/ Args.employees a = Py.VNone
   \/ Args.engagement a = Py.VNone ->
   Signals.weak_company (Prediction.signals r) = true
   /\ Breakdown.weak_company (Prediction.risk_breakdown r) = 0.08%float)
  /\ (Args.followers a = Py.VNone \/ Args.employees a = Py.VNone ->
      Py.falsy (Args.company_strength a) = true ->
      Signals.company_strength (Prediction.signals r) = "weak").
Proof.
  intros H. apply predict_job_inv in H.
  destruct H as (p & fi & ei & gi & si & risk & mw & se & sp & Hp & Hf & He & Hg & H).
  cbv zeta in H. destruct H as (_ & Hrisk & _ & _ & _ & ->).
  apply composite_risk_inv in Hrisk as (sc & kc & _ & _ & ->).
  cbn [Prediction.signals Prediction.risk_breakdown Signals.weak_company
       Signals.company_strength Risk.breakdown Breakdown.weak_company].
  split.
  - intros O.
    assert (W : (fi <? 500) || (ei <? 10) || (gi <? 5) = true).
    { destruct O as [O|[O|O]]; rewrite O in *; cbn in Hf, He, Hg.
      - assert (fi = 0) as -> by congruence. reflexivity.
      - assert (ei = 0) as -> by congruence. apply orb_true_iff. left.
        apply orb_true_r.
      - assert (gi = 0) as -> by congruence. apply orb_true_r. }
    rewrite W. split; reflexivity.
  - intros O F. rewrite F. unfold _compute_company_strength.
    destruct O as [O|O]; rewrite O in *; cbn in Hf, He.
    + assert (fi = 0) as -> by congruence. reflexivity.
    + assert (ei = 0) as -> by congruence. rewrite orb_true_r. reflexivity.
Qed.

Lemma omitted_counts_make_company_weak_witness :
  exists r,
    predict_job (demo_model 0.5) (with_followers (Py.VInt 450000)) = Ok r
    /\ Signals.weak_company (Prediction.signals r) = true
    /\ Signals.company_strength (Prediction.signals r) = "weak".
Proof.
  destruct (predict_job (demo_model 0.5) (with_followers (Py.VInt 450000)))
    as [r|e] eqn:E; [|vm_compute in E; discriminate].
  exists r. split; [reflexivity|].
  destruct (omitted_counts_make_company_weak _ _ _ E) as [W S]. split.
  - apply W. right. left. reflexivity.
  - apply S; [right; reflexivity|reflexivity].
Defined.

(** X8. The two notions of a weak company differ.  When the company
    strength is derived, the result says ["weak"] without the weak-company
    signal exactly when there are at least 500 followers, 10 to 19
    employees and an engagement of at least 5; and it has the signal with
    a strength other than ["weak"] exactly when there are at least 500
    followers, at least 20 employees and an engagement below 5. *)
Theorem weak_signal_and_strength_disagree model a r :
  predict_job model a = Ok r ->
  Py.falsy (Args.company_strength a) = true ->
  let s := Prediction.signals r in
  (Signals.company_strength s = "weak" /\ Signals.weak_company s = false
   <-> 500 <= Signals.followers s /\ 10 <= Signals.employees s < 20
       /\ 5 <= Signals.engagement s)
  /\ (Signals.company_strength s <> "weak" /\ Signals.weak_company s = true
      <-> 500 <= Signals.followers s /\ 20 <= Signals.employees s
          /\ Signals.engagement s < 5).
Proof.
  intros H F. apply predict_job_inv in H.
  destruct H as (p & fi & ei & gi & si & risk & mw & se & sp & _ & _ & _ & _ & H).
  cbv zeta in H. destruct H as (_ & _ & _ & _ & _ & ->).
  cbv zeta.
  cbn [Prediction.signals Signals.weak_company Signals.company_strength
       Signals.followers Signals.employees Signals.engagement].
  rewrite F. unfold _compute_company_strength.
  destruct (Z.ltb_spec fi 500), (Z.ltb_spec ei 20), (Z.ltb_spec ei 10),
    (Z.ltb_spec gi 5), (Z.leb_spec 500 fi), (Z.leb_spec fi 5000);
    cbn [orb andb]; try lia;
    repeat split; intros;
    repeat match goal with H : _ /\ _ |- _ => destruct H end;
    try lia; try congruence; try discriminate.
Qed.

Lemma weak_signal_and_strength_disagree_witness :
  exists r,
    predict_job (demo_model 0.5)
      (Enrichment.raw_call None (Enrichment.bare_row Enrichment.NaN)) = Ok r
    /\ Signals.company_strength (Prediction.signals r) = "weak"
    /\ Signals.weak_company (Prediction.signals r) = false.
Proof.
  match goal with |- exists r, ?c = _ /\ _ =>
    destruct c as [r|e] eqn:E; [|vm_compute in E; discriminate] end.
  exists r. split; [reflexivity|].
  destruct (weak_signal_and_strength_disagree _ _ _ E eq_refl) as [W _].
  apply W. vm_compute in E. injection E as <-. cbn. lia.
Defined.

(** ** Letter case, whitespace and words *)

Lemma isspace_lower_char c : PyStr.isspace (PyStr.lower_char c) = PyStr.isspace c.
Proof. destruct c as [[] [] [] [] [] [] [] []]; reflexivity. Qed.

Lemma lower_char_idem c :
  PyStr.lower_char (PyStr.lower_char c) = PyStr.lower_char c.
Proof. destruct c as [[] [] [] [] [] [] [] []]; reflexivity. Qed.

Lemma lower_idem s : PyStr.lower (PyStr.lower s) = PyStr.lower s.
Proof.
  induction s as [|c r IH]; [reflexivity|].
  cbn [PyStr.lower]. rewrite lower_char_idem, IH. reflexivity.
Qed.

(** Lower-casing a text lower-cases its words. *)
Lemma split_lower s : PyStr.split (PyStr.lower s) = map PyStr.lower (PyStr.split s).
Proof.
  induction s as [|c r IH]; [reflexivity|].
  cbn [PyStr.lower PyStr.split]. rewrite isspace_lower_char.
  destruct (PyStr.isspace c); [exact IH|].
  destruct r as [|d r']; [reflexivity|].
  cbn [PyStr.lower] in *. rewrite isspace_lower_char.
  destruct (PyStr.isspace d).
  - rewrite IH. reflexivity.
  - rewrite IH. destruct (PyStr.split (String d r')); reflexivity.
Qed.

Lemma len_zero s : (PyStr.len s =? 0) = true <-> s = EmptyString.
Proof.
  unfold PyStr.len. destruct s; cbn [String.length]; split; intros H;
    try reflexivity; try discriminate; apply Z.eqb_eq in H; lia.
Qed.

(** The two emptiness tests of [_heuristic_flags] add nothing to the
    tests they are joined with. *)
Lemma missing_website_test s :
  (PyStr.len s =? 0) || negb (PyStr.contains "http" (PyStr.lower s))
  = negb (PyStr.contains "http" (PyStr.lower s)).
Proof.
  destruct (PyStr.len s =? 0) eqn:E; [|reflexivity].
  apply len_zero in E. subst s. reflexivity.
Qed.

Lemma short_profile_test s :
  (PyStr.len (PyStr.strip s) =? 0) || (Z.of_nat (List.length (PyStr.split s)) <? 30)
  = (Z.of_nat (List.length (PyStr.split s)) <? 30).
Proof.
  destruct (PyStr.len (PyStr.strip s) =? 0) eqn:E; [|reflexivity].
  apply len_zero in E. apply strip_empty_split in E. rewrite E. reflexivity.
Qed.

Lemma suspicious_contact_lower s1 s2 :
  PyStr.lower s1 = PyStr.lower s2 -> suspicious_contact s1 = suspicious_contact s2.
Proof. unfold suspicious_contact. intros ->. reflexivity. Qed.

Lemma suspicious_contact_bit s : suspicious_contact s = 0 \/ suspicious_contact s = 1.
Proof. unfold suspicious_contact. destruct (existsb _ _); auto. Qed.

(** ** [_heuristic_flags] *)

(** X9. The website flag is 0 exactly when the lower-cased profile
    contains [http], and the short-profile flag is 0 exactly when the
    profile has at least 30 words: an omitted, empty or blank profile has
    both flags set, and the emptiness tests of the code decide nothing
    else. *)
Theorem profile_flags_characterised cp d rq :
  let h := _heuristic_flags cp d rq in
  let profile := Py.str_or_empty cp in
  (Heur.missing_website_flag h = 0
   <-> PyStr.contains "http" (PyStr.lower profile) = true)
  /\ (Heur.short_profile_flag h = 0
      <-> (30 <= List.length (PyStr.split profile))%nat)
  /\ (PyStr.strip profile = EmptyString ->
      Heur.missing_website_flag h = 1 /\ Heur.short_profile_flag h = 1).
Proof.
  cbv zeta. unfold _heuristic_flags.
  cbn [Heur.missing_website_flag Heur.short_profile_flag].
  rewrite missing_website_test, short_profile_test.
  split; [|split].
  - destruct (PyStr.contains "http" (PyStr.lower (Py.str_or_empty cp)));
      cbn [negb]; split; intros H; try reflexivity; discriminate.
  - destruct (Z.ltb_spec (Z.of_nat (List.length (PyStr.split (Py.str_or_empty cp)))) 30);
      split; intros H'; try reflexivity; try discriminate; lia.
  - intros E.
    assert (S : PyStr.split (Py.str_or_empty cp) = []) by (apply strip_empty_split, E).
    rewrite S. split; [|reflexivity].
    destruct (PyStr.contains "http" (PyStr.lower (Py.str_or_empty cp))) eqn:C;
      [|reflexivity].
    exfalso. destruct (Py.str_or_empty cp) as [|c s] eqn:P; [discriminate|].
    unfold PyStr.strip in E.
    destruct (lstrip_head (String c s)) as [L | (c' & r' & L & Hc)].
    + clear E S. revert C. generalize (String c s) L. clear.
      induction s as [|c r IH]; intros L C; [discriminate|].
      cbn [PyStr.lstrip] in L. destruct (PyStr.isspace c) eqn:Sp; [|discriminate].
      cbn [PyStr.lower] in C. rewrite contains_cons in C.
      apply orb_true_iff in C as [C|C]; [|exact (IH L C)].
      cbn [prefix] in C.
      destruct (ascii_dec "h" (PyStr.lower_char c)) as [Eq|]; [|discriminate].
      rewrite <- isspace_lower_char, <- Eq in Sp. discriminate.
    + rewrite L in E. exact (rstrip_nonspace c' r' Hc E).
Qed.

(** X10. The derived flags do not see the letter case: texts that are
    equal once lower-cased give the same three flags and the same
    suspicion score. *)
Theorem heuristic_flags_ignore_case cp1 d1 rq1 cp2 d2 rq2 :
  PyStr.lower (Py.str_or_empty cp1) = PyStr.lower (Py.str_or_empty cp2) ->
  PyStr.lower (Py.str_or_empty d1) = PyStr.lower (Py.str_or_empty d2) ->
  PyStr.lower (Py.str_or_empty rq1) = PyStr.lower (Py.str_or_empty rq2) ->
  _heuristic_flags cp1 d1 rq1 = _heuristic_flags cp2 d2 rq2.
Proof.
  intros Ec Ed Er. unfold _heuristic_flags.
  rewrite !missing_website_test, !short_profile_test.
  rewrite Ec, (suspicious_contact_lower _ _ Ed), (suspicious_contact_lower _ _ Er).
  assert (L : List.length (PyStr.split (Py.str_or_empty cp1))
              = List.length (PyStr.split (Py.str_or_empty cp2))).
  { rewrite <- (length_map PyStr.lower (PyStr.split (Py.str_or_empty cp1))).
    rewrite <- (length_map PyStr.lower (PyStr.split (Py.str_or_empty cp2))).
    rewrite <- !split_lower, Ec. reflexivity. }
  rewrite L. reflexivity.
Qed.

Lemma heuristic_flags_ignore_case_witness :
  _heuristic_flags (Some "See HTTP://ACME.EXAMPLE") (Some "Write on WhatsApp") None
  = _heuristic_flags (Some "see http://acme.example") (Some "write on whatsapp") None.
Proof. apply heuristic_flags_ignore_case; reflexivity. Defined.

(** ** The enrichment script and the prediction *)

(** X11. The enrichment script and [predict_job] derive the same
    columns.  For every row of the data frame, a call of [predict_job] on
    the raw columns of the row (a missing cell as an omitted argument)
    that returns has the company strength, the three flags and the
    suspicion score that [data_enrichment] writes for the row. *)
Theorem enrichment_agrees_with_prediction model title row r :
  predict_job model (Enrichment.raw_call title row) = Ok r ->
  let s := Prediction.signals r in
  Signals.company_strength s = Enrichment.company_strength row
  /\ Signals.missing_website_flag s
     = Enrichment.missing_website_flag (Enrichment.Row.company_profile row)
  /\ Signals.suspicious_email_flag s = Enrichment.suspicious_email_flag row
  /\ Signals.short_profile_flag s
     = Enrichment.short_profile_flag (Enrichment.Row.company_profile row)
  /\ Signals.suspicion_score s = Enrichment.suspicion_score row.
Proof.
  intros H. apply predict_job_inv in H.
  destruct H as (p & fi & ei & gi & si & risk & mw & se & sp & _ & Hf & He & _ & H).
  cbv zeta in H. destruct H as (Hsi & _ & Hmw & Hse & Hsp & ->).
  cbn in Hf, He. injection Hf as <-. injection He as <-.
  cbn [Enrichment.raw_call Args.suspicion_score Args.missing_website_flag
       Args.suspicious_email_flag Args.short_profile_flag Args.company_profile
       Args.description Args.requirements] in Hsi, Hmw, Hse, Hsp.
  rewrite int_prefer_omitted in Hsi, Hmw, Hse, Hsp.
  injection Hsi as <-. injection Hmw as <-. injection Hse as <-. injection Hsp as <-.
  cbv zeta.
  cbn [Prediction.signals Signals.company_strength Signals.missing_website_flag
       Signals.suspicious_email_flag Signals.short_profile_flag Signals.suspicion_score
       Enrichment.raw_call Args.company_strength Py.falsy].
  assert (M : Heur.missing_website_flag
                (_heuristic_flags (Enrichment.optional (Enrichment.Row.company_profile row))
                   (Enrichment.optional (Enrichment.Row.description row))
                   (Enrichment.optional (Enrichment.Row.requirements row)))
              = Enrichment.missing_website_flag (Enrichment.Row.company_profile row)).
  { unfold _heuristic_flags, Enrichment.missing_website_flag.
    cbn [Heur.missing_website_flag]. rewrite missing_website_test.
    destruct (Enrichment.Row.company_profile row); reflexivity. }
  assert (S : Heur.short_profile_flag
                (_heuristic_flags (Enrichment.optional (Enrichment.Row.company_profile row))
                   (Enrichment.optional (Enrichment.Row.description row))
                   (Enrichment.optional (Enrichment.Row.requirements row)))
              = Enrichment.short_profile_flag (Enrichment.Row.company_profile row)).
  { unfold _heuristic_flags, Enrichment.short_profile_flag.
    cbn [Heur.short_profile_flag]. rewrite short_profile_test.
    destruct (Enrichment.Row.company_profile row); reflexivity. }
  assert (C : forall x,
             Enrichment.suspicious_contact (Enrichment.Text (Enrichment.str x))
             = suspicious_contact (Py.str_or_empty (Enrichment.optional x))).
  { intros [|s]; reflexivity. }
  assert (E : Heur.suspicious_email_flag
                (_heuristic_flags (Enrichment.optional (Enrichment.Row.company_profile row))
                   (Enrichment.optional (Enrichment.Row.description row))
                   (Enrichment.optional (Enrichment.Row.requirements row)))
              = Enrichment.suspicious_email_flag row).
  { unfold _heuristic_flags, Enrichment.suspicious_email_flag, Enrichment.or_int.
    cbn [Heur.suspicious_email_flag]. rewrite !C.
    destruct (suspicious_contact_bit
                (Py.str_or_empty (Enrichment.optional (Enrichment.Row.description row))))
      as [-> | ->];
      destruct (suspicious_contact_bit
                  (Py.str_or_empty (Enrichment.optional (Enrichment.Row.requirements row))))
        as [-> | ->]; reflexivity. }
  split; [reflexivity|]. split; [exact M|]. split; [exact E|]. split; [exact S|].
  unfold Enrichment.suspicion_score. rewrite <- M, <- E, <- S. reflexivity.
Qed.

Lemma enrichment_agrees_with_prediction_witness :
  exists r,
    predict_job (demo_model 0.5)
      (Enrichment.raw_call (Some "Clerk")
         (Enrichment.bare_row (Enrichment.Text "Apply via Gmail"))) = Ok r
    /\ Signals.company_strength (Prediction.signals r) = "weak"
    /\ Signals.suspicion_score (Prediction.signals r) = 3.
Proof.
  match goal with |- exists r, ?c = _ /\ _ =>
    destruct c as [r|e] eqn:E; [|vm_compute in E; discriminate] end.
  exists r. split; [reflexivity|].
  destruct (enrichment_agrees_with_prediction _ _ _ _ E) as (Hc & _ & _ & _ & Hs).
  rewrite Hc, Hs. split; reflexivity.
Defined.

(** ** Truncation of a float to a flag *)

Lemma shiftl_neg m e : e < 0 -> Z.shiftl (Zpos m) e = Zpos m / 2 ^ (- e).
Proof.
  intros H. rewrite <- Z.shiftr_opp_r. apply Z.shiftr_div_pow2. lia.
Qed.

Lemma shiftl_nonneg m e : 0 <= e -> Z.shiftl (Zpos m) e = Zpos m * 2 ^ e.
Proof. intros H. apply Z.shiftl_mul_pow2. assumption. Qed.

(** The truncation of a valid finite number [m * 2^e]: 0 below 1, 1
    from 1 up to 2 and at least 2 from 2 on. *)
Lemma shiftl_canonical m e :
  bounded prec emax m e = true ->
  (e < -52 -> Z.shiftl (Zpos m) e = 0)
  /\ (e = -52 -> Z.shiftl (Zpos m) e = 1)
  /\ (-52 < e -> 2 <= Z.shiftl (Zpos m) e).
Proof.
  intros B. apply bounded_iff in B as [C _].
  pose proof (canonical_lt m e C) as U.
  split; [|split]; intros H.
  - rewrite shiftl_neg by lia. apply Z.div_small. split; [lia|].
    assert (2 ^ 53 <= 2 ^ (- e)) by (apply Z.pow_le_mono_r; lia). lia.
  - pose proof (canonical_normal m e C ltac:(lia)) as L. subst e.
    rewrite shiftl_neg by lia. change (2 ^ (- -52)) with 4503599627370496.
    change (2 ^ 52) with 4503599627370496 in L.
    change (2 ^ 53) with 9007199254740992 in U.
    assert (1 <= Zpos m / 4503599627370496) by (apply Z.div_le_lower_bound; lia).
    assert (Zpos m / 4503599627370496 < 2) by (apply Z.div_lt_upper_bound; lia).
    lia.
  - pose proof (canonical_normal m e C ltac:(lia)) as L.
    destruct (Z_lt_le_dec e 0) as [N|N].
    + rewrite shiftl_neg by lia. apply Z.div_le_lower_bound.
      * apply Z.pow_pos_nonneg; lia.
      * assert (2 ^ (- e) <= 2 ^ 51) by (apply Z.pow_le_mono_r; lia).
        change (2 ^ 52) with (2 * 2 ^ 51) in L. lia.
    + rewrite shiftl_nonneg by lia.
      assert (1 <= 2 ^ e) by (apply (Z.pow_le_mono_r 2 0 e); lia).
      change (2 ^ 52) with 4503599627370496 in L. nia.
Qed.

Lemma sf_two : sf 2 = S754_finite false 4503599627370496 (-51).
Proof. reflexivity. Qed.

Lemma sf_minus_one : sf (-1) = S754_finite true 4503599627370496 (-52).
Proof. reflexivity. Qed.

(** [int(f)] is 0 or 1 exactly when [-1 < f < 2]. *)
Lemma trunc_flag f :
  (PyFloat.trunc f = Ok 0 \/ PyFloat.trunc f = Ok 1)
  <-> ((-1 <? f) && (f <? 2))%float = true.
Proof.
  rewrite !ltb_sf, sf_two, sf_minus_one. unfold PyFloat.trunc.
  pose proof (sf_valid f) as V. unfold sf in *.
  destruct (Prim2SF f) as [s|s| |s m e].
  - destruct s; cbn; tauto.
  - destruct s; cbn; split; intros H; try discriminate; destruct H; discriminate.
  - cbn. split; intros H; try discriminate; destruct H; discriminate.
  - cbn [valid_binary] in V.
    destruct (shiftl_canonical m e V) as (S0 & S1 & S2).
    pose proof V as B. apply bounded_iff in B as [C _].
    pose proof (canonical_lt m e C) as U.
    destruct s.
    + assert (T : SFltb (S754_finite true m e) (S754_finite false 4503599627370496 (-51))
                  = true) by reflexivity.
      rewrite T, andb_true_r.
      rewrite (SFltb_key (S754_finite true 4503599627370496 (-52))
                 (S754_finite true m e) eq_refl eq_refl). cbn [key lexlt].
      split.
      * intros H.
        assert (Z.shiftl (Zpos m) e = 0) by (destruct H as [H|H]; injection H; lia).
        destruct (Z_lt_le_dec e (-52)) as [L|L]; [lia|exfalso].
        destruct (Z.eq_dec e (-52)) as [E|N]; [specialize (S1 E)|specialize (S2 ltac:(lia))];
          lia.
      * intros H. left. rewrite S0; [reflexivity|].
        destruct (Z_lt_le_dec e (-52)) as [L|L]; [assumption|exfalso].
        pose proof (canonical_normal m e C ltac:(lia)) as N.
        change (2 ^ 52) with 4503599627370496 in N. lia.
    + assert (T : SFltb (S754_finite true 4503599627370496 (-52)) (S754_finite false m e)
                  = true) by reflexivity.
      rewrite T, andb_true_l.
      rewrite (SFltb_key (S754_finite false m e)
                 (S754_finite false 4503599627370496 (-51)) eq_refl eq_refl).
      cbn [key lexlt].
      split.
      * intros H.
        assert (Z.shiftl (Zpos m) e <= 1) by (destruct H as [H|H]; injection H; lia).
        destruct (Z_lt_le_dec (-52) e) as [L|L]; [specialize (S2 L); lia|lia].
      * intros H.
        destruct (Z_lt_le_dec e (-52)) as [L|L]; [left; rewrite S0; auto|].
        destruct (Z.eq_dec e (-52)) as [E|N]; [right; rewrite S1; auto|exfalso].
        pose proof (canonical_normal m e C ltac:(lia)) as N'.
        change (2 ^ 52) with 4503599627370496 in N'. lia.
Qed.

(** ** The request validators of [api] *)

(** X12. [validate_company_strength] accepts a string exactly when its
    lower-cased form is [weak], [medium] or [strong], and returns that
    form; it leaves [None] alone, raises [ValueError] otherwise, and
    validating its result again gives the same result. *)
Theorem company_strength_validation :
  Api.validate_company_strength None = Ok None
  /\ (forall s,
        (In (PyStr.lower s) ["weak"; "medium"; "strong"] ->
         Api.validate_company_strength (Some s) = Ok (Some (PyStr.lower s)))
        /\ (~ In (PyStr.lower s) ["weak"; "medium"; "strong"] ->
            Api.validate_company_strength (Some s) = Raise ValueError))
  /\ (forall v o,
        Api.validate_company_strength v = Ok o ->
        Api.validate_company_strength o = Ok o).
Proof.
  assert (A : forall s,
             existsb (String.eqb (PyStr.lower s)) Api.allowed = true
             <-> In (PyStr.lower s) ["weak"; "medium"; "strong"]).
  { intros s. unfold Api.allowed. rewrite existsb_exists. split.
    - intros (x & I & E). apply String.eqb_eq in E. subst x. exact I.
    - intros I. exists (PyStr.lower s). split; [exact I|apply String.eqb_refl]. }
  split; [reflexivity|]. split.
  - intros s. unfold Api.validate_company_strength. cbv zeta. split; intros H.
    + apply A in H. rewrite H. reflexivity.
    + destruct (existsb (String.eqb (PyStr.lower s)) Api.allowed) eqn:E; [|reflexivity].
      apply A in E. contradiction.
  - intros [s|] o; [|intros H; injection H as <-; reflexivity].
    unfold Api.validate_company_strength. cbv zeta.
    destruct (existsb (String.eqb (PyStr.lower s)) Api.allowed) eqn:E; [|discriminate].
    intros H. injection H as <-. rewrite lower_idem, E. reflexivity.
Qed.

Lemma company_strength_validation_witness :
  Api.validate_company_strength (Some "Strong") = Ok (Some "strong")
  /\ Api.validate_company_strength (Some "robust") = Raise ValueError.
Proof.
  destruct company_strength_validation as (_ & H & _). split.
  - apply (proj1 (H "Strong")). cbn. tauto.
  - apply (proj2 (H "robust")). cbn. intros [C|[C|[C|C]]]; try discriminate; exact C.
Defined.



(** X14. A float sent for a flag is accepted exactly when it lies
    strictly between -1 and 2, and is then truncated to 0 or 1: a
    fraction such as 0.9 or -0.5 counts as the flag 0, and 1.5 as the
    flag 1. *)
Theorem float_flag_accepted_iff_between_minus_one_and_two f :
  (returns (Api.validate_binary_flags (Py.VFloat f)) = true
   <-> ((-1 <? f) && (f <? 2))%float = true)
  /\ (forall r,
        Api.validate_binary_flags (Py.VFloat f) = Ok r ->
        PyFloat.trunc f = Ok 0 /\ r = Py.VInt 0
        \/ PyFloat.trunc f = Ok 1 /\ r = Py.VInt 1).
Proof.
  rewrite <- trunc_flag. unfold Api.validate_binary_flags.
  cbn [Py.is_none Py.int]. split.
  - destruct (PyFloat.trunc f) as [iv|e].
    + destruct (Z.eqb_spec iv 0) as [->|N0]; cbn [orb negb returns].
      * split; auto.
      * destruct (Z.eqb_spec iv 1) as [->|N1]; cbn [negb returns].
        -- split; auto.
        -- split; [discriminate|]. intros [H|H]; injection H; contradiction.
    + cbn [returns]. split; [discriminate|]. intros [H|H]; discriminate.
  - intros r. destruct (PyFloat.trunc f) as [iv|e]; [|discriminate].
    destruct (Z.eqb_spec iv 0) as [->|N0]; cbn [orb negb].
    + intros H. injection H as <-. left. split; reflexivity.
    + destruct (Z.eqb_spec iv 1) as [->|N1]; cbn [negb]; [|discriminate].
      intros H. injection H as <-. right. split; reflexivity.
Qed.

Lemma float_flag_accepted_iff_between_minus_one_and_two_witness :
  Api.validate_binary_flags (Py.VFloat 0.9) = Ok (Py.VInt 0)
  /\ Api.validate_binary_flags (Py.VFloat (-0.5)) = Ok (Py.VInt 0)
  /\ Api.validate_binary_flags (Py.VFloat 1.5) = Ok (Py.VInt 1)
  /\ returns (Api.validate_binary_flags (Py.VFloat 2)) = false.
Proof.
  split; [|split; [|split]].
  - destruct (Api.validate_binary_flags (Py.VFloat 0.9)) as [r|e] eqn:V;
      [|vm_compute in V; discriminate].
    destruct (proj2 (float_flag_accepted_iff_between_minus_one_and_two 0.9) r V)
      as [(_ & ->) | (C & _)]; [reflexivity|vm_compute in C; discriminate].
  - destruct (Api.validate_binary_flags (Py.VFloat (-0.5))) as [r|e] eqn:V;
      [|vm_compute in V; discriminate].
    destruct (proj2 (float_flag_accepted_iff_between_minus_one_and_two (-0.5)) r V)
      as [(_ & ->) | (C & _)]; [reflexivity|vm_compute in C; discriminate].
  - destruct (Api.validate_binary_flags (Py.VFloat 1.5)) as [r|e] eqn:V;
      [|vm_compute in V; discriminate].
    destruct (proj2 (float_flag_accepted_iff_between_minus_one_and_two 1.5) r V)
      as [(C & _) | (_ & ->)]; [vm_compute in C; discriminate|reflexivity].
  - destruct (returns (Api.validate_binary_flags (Py.VFloat 2))) eqn:R; [|reflexivity].
    apply (proj1 (float_flag_accepted_iff_between_minus_one_and_two 2)) in R.
    vm_compute in R. discriminate.
Defined.

(** ** The largest count that converts to a float *)

Lemma dg_le_iff m d : 0 <= d -> (dg m <= d <-> Zpos m < 2 ^ d).
Proof.
  intros Hd. pose proof (dg_bounds m) as [L U]. pose proof (dg_pos m) as Hp. split; intros H.
  - assert (2 ^ dg m <= 2 ^ d) by (apply Z.pow_le_mono_r; lia). lia.
  - destruct (Z_le_gt_dec (dg m) d) as [|G]; [assumption|exfalso].
    assert (2 ^ d <= 2 ^ (dg m - 1)) by (apply Z.pow_le_mono_r; lia). lia.
Qed.

(** The conversion of a count to a float overflows from
    [2^1024 - 2^970] on, and not below. *)
Lemma of_int_returns_iff z :
  0 <= z -> (returns (PyFloat.of_int z) = true <-> z < overflow_threshold).
Proof.
  intros Hz. unfold PyFloat.of_int, overflow_threshold.
  rewrite binary_normalize_rndZ.
  assert (P0 : 0 < 2 ^ 970) by (apply Z.pow_pos_nonneg; lia).
  assert (P1 : 2 ^ 1024 = 18014398509481984 * 2 ^ 970).
  { change 18014398509481984 with (2 ^ 54). rewrite <- Z.pow_add_r by lia. reflexivity. }
  assert (P2 : 2 ^ 1023 = 9007199254740992 * 2 ^ 970).
  { change 9007199254740992 with (2 ^ 53). rewrite <- Z.pow_add_r by lia. reflexivity. }
  assert (P3 : 2 ^ 971 = 2 * 2 ^ 970).
  { change 2 with (2 ^ 1) at 2. rewrite <- Z.pow_add_r by lia. reflexivity. }
  destruct z as [|m|m]; [|clear Hz|lia].
  - cbn [rndZ returns]. split; [intros _; lia|reflexivity].
  - cbn [rndZ]. unfold rnd.
    assert (E : cexp m 0 = dg m - 53).
    { unfold cexp. pose proof (dg_pos m). lia. }
    rewrite E.
    pose proof (rne_shift_lower m) as L.
    pose proof (rne_shift_upper m 0 (dg m - 53) ltac:(lia)) as U.
    replace (0 - (dg m - 53)) with (53 - dg m) in * by lia.
    set (n := PyFloat.rne_shift (Zpos m) (53 - dg m)) in *.
    change (2 ^ 52) with 4503599627370496 in L.
    change (2 ^ 53) with 9007199254740992 in U.
    rewrite pack_pos by lia. unfold fin_or_inf.
    change (2 ^ 53) with 9007199254740992.
    destruct (Z_le_gt_dec (dg m) 1023) as [D|D].
    { assert (Zpos m < 2 ^ 1023) by (apply dg_le_iff; lia).
      destruct (n =? 9007199254740992);
        [destruct (Z.leb_spec (dg m - 53 + 1) 971)|destruct (Z.leb_spec (dg m - 53) 971)];
        cbn [returns]; split; intros; try reflexivity; try lia. }
    destruct (Z_le_gt_dec (dg m) 1024) as [D'|D'].
    2:{ assert (~ Zpos m < 2 ^ 1024) by (rewrite <- dg_le_iff; lia).
        destruct (n =? 9007199254740992);
          [destruct (Z.leb_spec (dg m - 53 + 1) 971)|destruct (Z.leb_spec (dg m - 53) 971)];
          cbn [returns]; split; intros; try discriminate; try lia. }
    assert (Dm : dg m = 1024) by lia.
    assert (M : Zpos m < 2 ^ 1024) by (apply dg_le_iff; lia).
    subst n. rewrite Dm in *.
    change (53 - 1024) with (Z.opp 971) in *.
    rewrite (rne_shift_neg (Zpos m) 971) in * by lia.
    destruct (rne_div_spec (Zpos m) (2 ^ 971) ltac:(lia)) as ((B1 & B2) & T1 & T2).
    cbv zeta in B1, B2, T1, T2.
    set (n := rne_div (Zpos m) (2 ^ 971)) in *.
    rewrite P3 in B1, B2, T1, T2. rewrite P1. rewrite P1 in M.
    clear P1 P2 P3 D D'. remember (2 ^ 970) as P eqn:EP in *. clear EP.
    destruct (Z.eqb_spec n 9007199254740992) as [N|N].
    + change (1024 - 53 + 1 <=? 971) with false. cbn [returns].
      split; [discriminate|]. intros H. exfalso. rewrite N in B1. nia.
    + change (1024 - 53 <=? 971) with true.
      cbn [returns]. split; [intros _|reflexivity].
      destruct (Z_lt_le_dec (Zpos m) (18014398509481984 * P - P)) as [|G];
        [assumption|exfalso].
      assert (Hn : n = 9007199254740991) by nia.
      assert (Tie : 2 * Zpos m = (2 * n + 1) * (2 * P)) by nia.
      specialize (T1 Tie). rewrite Hn in T1. discriminate.
Qed.

Lemma capped_contrib_returns_iff cap w n :
  returns (capped_contrib cap w n) = true <-> n < overflow_threshold.
Proof.
  unfold capped_contrib, bind.
  assert (T : 0 < overflow_threshold).
  { unfold overflow_threshold.
    assert (2 ^ 970 < 2 ^ 1024) by (apply Z.pow_lt_mono_r; lia). lia. }
  pose proof (of_int_returns_iff (Z.max 0 n) ltac:(lia)) as R.
  destruct (PyFloat.of_int (Z.max 0 n)); cbn [returns] in *.
  - split; [intros _|reflexivity]. apply proj1 in R. specialize (R eq_refl). lia.
  - split; [discriminate|]. intros H. apply R. lia.
Qed.

Lemma composite_risk_returns_iff p w s k :
  returns (_composite_risk p w s k) = true
  <-> s < overflow_threshold /\ k < overflow_threshold.
Proof.
  rewrite <- (capped_contrib_returns_iff 0.12 0.04 s).
  rewrite <- (capped_contrib_returns_iff 0.10 0.03 k).
  unfold _composite_risk, capped_contrib, bind.
  destruct (PyFloat.of_int (Z.max 0 s)); cbn [returns].
  - destruct (PyFloat.of_int (Z.max 0 k)); cbn [returns]; intuition discriminate.
  - intuition discriminate.
Qed.

(** ** When the scoring raises *)

(** X15. [_composite_risk] returns exactly when the suspicion score and
    the number of keyword hits are both below [2^1024 - 2^970], the
    first integer that has no float; from there on the conversion of the
    count raises [OverflowError], and nothing else is ever raised.
    Negative counts are accepted. *)
Theorem composite_risk_overflow_boundary prob_scam weak_company suspicion_score keyword_hits :
  (returns (_composite_risk prob_scam weak_company suspicion_score keyword_hits) = true
   <-> suspicion_score < 2 ^ 1024 - 2 ^ 970 /\ keyword_hits < 2 ^ 1024 - 2 ^ 970)
  /\ (forall e,
        _composite_risk prob_scam weak_company suspicion_score keyword_hits = Raise e ->
        e = OverflowError).
Proof.
  split; [apply composite_risk_returns_iff|].
  intros e. unfold _composite_risk, bind, PyFloat.of_int.
  destruct (binary_normalize prec emax (Z.max 0 suspicion_score) 0 false);
    try congruence;
    destruct (binary_normalize prec emax (Z.max 0 keyword_hits) 0 false);
    congruence.
Qed.

Lemma composite_risk_overflow_boundary_witness :
  returns (_composite_risk 0.5 false (2 ^ 1024 - 2 ^ 970 - 1) (-4)) = true
  /\ _composite_risk 0.5 false 0 (2 ^ 1024 - 2 ^ 970) = Raise OverflowError.
Proof.
  split.
  - apply (proj1 (composite_risk_overflow_boundary 0.5 false (2 ^ 1024 - 2 ^ 970 - 1) (-4))).
    split; [lia|]. vm_compute. reflexivity.
  - destruct (_composite_risk 0.5 false 0 (2 ^ 1024 - 2 ^ 970)) as [r|e] eqn:E.
    + assert (R : returns (_composite_risk 0.5 false 0 (2 ^ 1024 - 2 ^ 970)) = true)
        by (rewrite E; reflexivity).
      apply (proj1 (composite_risk_overflow_boundary 0.5 false 0 (2 ^ 1024 - 2 ^ 970)))
        in R.
      destruct R as [_ R]. lia.
    + rewrite (proj2 (composite_risk_overflow_boundary 0.5 false 0 (2 ^ 1024 - 2 ^ 970))
                 e E).
      reflexivity.
Defined.

(** ** When [predict_job] returns, exactly *)

Lemma safe_int_returns_eq v d :
  returns (_safe_int v d) = negb (is_infinite_float v).
Proof.
  unfold _safe_int. destruct v as [|b|z|f|s]; cbn [Py.is_none Py.int is_infinite_float];
    try reflexivity.
  - unfold PyFloat.trunc. destruct (Prim2SF f); reflexivity.
  - destruct (Py.int_of_str s) as [z|e] eqn:E; [reflexivity|].
    apply int_of_str_raise in E as ->. reflexivity.
Qed.

Lemma int_prefer_returns_eq v h : returns (Py.int (prefer v h)) = int_accepts v.
Proof. destruct v; reflexivity. Qed.

Lemma int_below_prefer bound v h :
  h < bound ->
  int_below bound v
  = match Py.int (prefer v h) with
    | Ok z => z <? bound
    | Raise _ => false
    end.
Proof.
  intros H. destruct v; try reflexivity.
  unfold int_below, prefer. cbn [Py.is_none Py.int orb].
  symmetry. apply Z.ltb_lt. exact H.
Qed.

Lemma overflow_threshold_large : 16 < overflow_threshold.
Proof. vm_compute. reflexivity. Qed.

Lemma found_keywords_length lowered :
  (List.length (found_keywords lowered) <= 10)%nat.
Proof.
  unfold found_keywords. eapply Nat.le_trans; [apply filter_length_le|]. cbn. lia.
Qed.

Lemma heuristic_score_range cp d rq :
  0 <= Heur.suspicion_score (_heuristic_flags cp d rq) <= 3.
Proof.
  pose proof (heuristic_flags_shape cp d rq) as S. cbv zeta in S.
  destruct S as (A & B & C & D). lia.
Qed.

Lemma predict_job_returns_eq model a :
  returns (predict_job model a)
  = returns (prob_scam model (combined_text a))
    && negb (is_infinite_float (Args.followers a))
    && negb (is_infinite_float (Args.employees a))
    && negb (is_infinite_float (Args.engagement a))
    && int_below overflow_threshold (Args.suspicion_score a)
    && int_accepts (Args.missing_website_flag a)
    && int_accepts (Args.suspicious_email_flag a)
    && int_accepts (Args.short_profile_flag a).
Proof.
  unfold predict_job. cbv zeta.
  set (c := Py.is_none _ || _ || _ || _).
  rewrite !(guard_prefer c)
    by (subst c; intros ->; rewrite ?orb_true_r, ?orb_true_l; reflexivity).
  clear c.
  set (h := _heuristic_flags (Args.company_profile a) (Args.description a)
              (Args.requirements a)).
  pose proof (heuristic_score_range (Args.company_profile a) (Args.description a)
                (Args.requirements a)) as Hh. fold h in Hh.
  pose proof overflow_threshold_large as T.
  pose proof (found_keywords_length (PyStr.lower (combined_text a))) as K.
  rewrite <- (safe_int_returns_eq (Args.followers a) 0).
  rewrite <- (safe_int_returns_eq (Args.employees a) 0).
  rewrite <- (safe_int_returns_eq (Args.engagement a) 0).
  rewrite (int_below_prefer overflow_threshold (Args.suspicion_score a)
             (Heur.suspicion_score h)) by lia.
  rewrite <- (int_prefer_returns_eq (Args.missing_website_flag a)
                (Heur.missing_website_flag h)).
  rewrite <- (int_prefer_returns_eq (Args.suspicious_email_flag a)
                (Heur.suspicious_email_flag h)).
  rewrite <- (int_prefer_returns_eq (Args.short_profile_flag a)
                (Heur.short_profile_flag h)).
  unfold bind.
  destruct (prob_scam model (combined_text a)) as [p|]; [|reflexivity].
  destruct (_safe_int (Args.followers a) 0) as [fi|]; [|reflexivity].
  destruct (_safe_int (Args.employees a) 0) as [ei|]; [|reflexivity].
  destruct (_safe_int (Args.engagement a) 0) as [gi|]; [|reflexivity].
  cbn [returns andb].
  destruct (Py.int (prefer (Args.suspicion_score a) (Heur.suspicion_score h)))
    as [si|]; [|reflexivity].
  pose proof (composite_risk_returns_iff p ((fi <? 500) || (ei <? 10) || (gi <? 5)) si
                (Z.of_nat (List.length (found_keywords (PyStr.lower (combined_text a))))))
    as R.
  destruct (_composite_risk p _ si _) as [risk|]; cbn [returns] in R.
  - assert (S : (si <? overflow_threshold) = true) by (apply Z.ltb_lt, R; reflexivity).
    rewrite S. cbn [andb].
    destruct (Py.int (prefer (Args.missing_website_flag a) _)); [|reflexivity].
    destruct (Py.int (prefer (Args.suspicious_email_flag a) _)); [|reflexivity].
    destruct (Py.int (prefer (Args.short_profile_flag a) _)); reflexivity.
  - assert (S : (si <? overflow_threshold) = false).
    { apply Z.ltb_ge. destruct (Z_lt_le_dec si overflow_threshold) as [L|L]; [|assumption].
      exfalso. assert (false = true); [|discriminate]. apply R. split; lia. }
    rewrite S. reflexivity.
Qed.



(** ** The handler [analyze_job] *)

(** X17. On a validated request, [analyze_job] answers with the status
    500 exactly when the model has no probability at the extracted index
    or the suspicion score is at least [2^1024 - 2^970]; it never answers
    with another error status, and the integers sent for the three flags
    and the suspicion score come back unchanged in the response. *)
Theorem analyze_job_fails_only_on_model_or_overflow model payload :
  (forall status_code,
      Api.analyze_job model payload = Api.HTTPException status_code
      <-> status_code = 500
          /\ (returns (prob_scam model (combined_text (Api.arguments payload))) = false
              \/ exists z, Api.AnalyzeJobRequest.suspicion_score payload = Some z
                           /\ 2 ^ 1024 - 2 ^ 970 <= z))
  /\ (forall resp,
        Api.analyze_job model payload = Api.Response resp ->
        let s := Api.AnalyzeJobResponse.signals resp in
        (forall z, Api.AnalyzeJobRequest.missing_website_flag payload = Some z ->
                   Signals.missing_website_flag s = z)
        /\ (forall z, Api.AnalyzeJobRequest.suspicious_email_flag payload = Some z ->
                      Signals.suspicious_email_flag s = z)
        /\ (forall z, Api.AnalyzeJobRequest.short_profile_flag payload = Some z ->
                      Signals.short_profile_flag s = z)
        /\ (forall z, Api.AnalyzeJobRequest.suspicion_score payload = Some z ->
                      Signals.suspicion_score s = z)).
Proof.
  assert (B : returns (predict_job model (Api.arguments payload)) = true
              <-> returns (prob_scam model (combined_text (Api.arguments payload))) = true
                  /\ forall z, Api.AnalyzeJobRequest.suspicion_score payload = Some z ->
                               z < overflow_threshold).
  { rewrite predict_job_returns_eq. rewrite !andb_true_iff, !negb_true_iff.
    cbn [Api.arguments Args.followers Args.employees Args.engagement
         Args.suspicion_score Args.missing_website_flag Args.suspicious_email_flag
         Args.short_profile_flag].
    assert (I : forall o, is_infinite_float (Api.optional_int o) = false)
      by (intros [z|]; reflexivity).
    assert (A : forall o, int_accepts (Api.optional_int o) = true)
      by (intros [z|]; reflexivity).
    rewrite !I, !A.
    destruct (Api.AnalyzeJobRequest.suspicion_score payload) as [z|];
      unfold int_below; cbn [Api.optional_int Py.is_none Py.int orb].
    - rewrite Z.ltb_lt. split.
      + intros H. split; [tauto|]. intros z' E. injection E as <-. tauto.
      + intros [H1 H2]. specialize (H2 z eq_refl). tauto.
    - split; [|tauto]. intros H. split; [tauto|]. intros z' E. discriminate. }
  split.
  - intros status_code. unfold Api.analyze_job. fold overflow_threshold.
    destruct (predict_job model (Api.arguments payload)) as [r|e] eqn:E;
      cbn [returns] in B.
    + split; [discriminate|]. intros (_ & H). exfalso.
      destruct (proj1 B eq_refl) as [Hp Hs].
      destruct H as [H | (z & Ez & Hz)]; [congruence|]. specialize (Hs z Ez). lia.
    + split.
      * intros H. injection H as <-. split; [reflexivity|].
        destruct (returns (prob_scam model (combined_text (Api.arguments payload))))
          eqn:Rp; [right|left; reflexivity].
        destruct (Api.AnalyzeJobRequest.suspicion_score payload) as [z|] eqn:Ez.
        -- exists z. split; [reflexivity|].
           destruct (Z_lt_le_dec z overflow_threshold) as [L|L]; [exfalso|assumption].
           assert (false = true); [|discriminate]. apply B. split; [reflexivity|].
           intros z' Ez'. injection Ez' as <-. exact L.
        -- exfalso. assert (false = true); [|discriminate]. apply B.
           split; [reflexivity|]. intros z' Ez'. discriminate.
      * intros (-> & _). reflexivity.
  - intros resp. unfold Api.analyze_job.
    destruct (predict_job model (Api.arguments payload)) as [r|e] eqn:E; [|discriminate].
    intros H. injection H as <-. cbv zeta. cbn [Api.AnalyzeJobResponse.signals].
    apply predict_job_inv in E.
    destruct E as (p & fi & ei & gi & si & risk & mw & se & sp & _ & _ & _ & _ & E).
    cbv zeta in E. destruct E as (Hsi & _ & Hmw & Hse & Hsp & ->).
    cbn [Api.arguments Args.suspicion_score Args.missing_website_flag
         Args.suspicious_email_flag Args.short_profile_flag] in Hsi, Hmw, Hse, Hsp.
    cbn [Prediction.signals Signals.missing_website_flag Signals.suspicious_email_flag
         Signals.short_profile_flag Signals.suspicion_score].
    repeat split; intros z Ez; rewrite Ez in *;
      cbn [Api.optional_int] in *; rewrite int_prefer_supplied in *; congruence.
Qed.

Lemma analyze_job_fails_only_on_model_or_overflow_witness :
  Api.analyze_job (demo_model 0.5) (Api.clerk_request None (Some 1) (Some (2 ^ 1024)))
  = Api.HTTPException 500
  /\ exists resp,
       Api.analyze_job (demo_model 0.5) (Api.clerk_request None (Some 1) (Some 7))
       = Api.Response resp
       /\ Signals.missing_website_flag (Api.AnalyzeJobResponse.signals resp) = 1
       /\ Signals.suspicion_score (Api.AnalyzeJobResponse.signals resp) = 7.
Proof.
  split.
  - apply (proj1 (analyze_job_fails_only_on_model_or_overflow _ _)).
    split; [reflexivity|]. right. exists (2 ^ 1024). split; [reflexivity|].
    vm_compute. discriminate.
  - destruct (Api.analyze_job (demo_model 0.5) (Api.clerk_request None (Some 1) (Some 7)))
      as [resp|code] eqn:E; [|vm_compute in E; discriminate].
    exists resp. split; [reflexivity|].
    destruct (proj2 (analyze_job_fails_only_on_model_or_overflow _ _) resp E)
      as (Hm & _ & _ & Hs).
    split; [apply Hm|apply Hs]; reflexivity.
Defined.

(** ** Further facts on the order of floats *)

Lemma lexlt_irrefl k : ~ lexlt k k.
Proof. destruct k as [[a b] c]. cbn. lia. Qed.

Lemma ltb_irrefl a : (a <? a)%float = false.
Proof.
  rewrite ltb_sf. destruct (not_nan (sf a)) eqn:N.
  - destruct (SFltb (sf a) (sf a)) eqn:E; [|reflexivity].
    apply (SFltb_key _ _ N N) in E. exfalso. exact (lexlt_irrefl _ E).
  - destruct (sf a); try discriminate. reflexivity.
Qed.

Lemma leb_ltb_false a b : (a <=? b)%float = true -> (b <? a)%float = false.
Proof.
  intros H. destruct (b <? a)%float eqn:E; [|reflexivity].
  pose proof (leb_ltb_trans _ _ _ H E) as C. rewrite ltb_irrefl in C. discriminate.
Qed.

Lemma eqb_leb a b : (a =? b)%float = ((a <=? b) && (b <=? a))%float.
Proof.
  rewrite eqb_sf, !leb_sf.
  destruct (not_nan (sf a)) eqn:Na; [|destruct (sf a); try discriminate; reflexivity].
  destruct (not_nan (sf b)) eqn:Nb;
    [|destruct (sf b); try discriminate; destruct (sf a); reflexivity].
  pose proof (SFeqb_key _ _ Na Nb) as E.
  pose proof (SFleb_key _ _ Na Nb) as L1.
  pose proof (SFleb_key _ _ Nb Na) as L2.
  destruct (SFeqb (sf a) (sf b)), (SFleb (sf a) (sf b)), (SFleb (sf b) (sf a));
    try reflexivity; exfalso; intuition discriminate.
Qed.

(** [min(cap, x)] is [cap] once [x] has reached it. *)
Lemma min_saturated cap x : (cap <=? x)%float = true -> PyFloat.min cap x = cap.
Proof.
  intros H. unfold PyFloat.min. rewrite (leb_ltb_false _ _ H). reflexivity.
Qed.

(** Adding zero, or a number that is not negative, does not lower a sum. *)
Lemma add_zero_ge x : not_nan (sf x) = true -> (x <=? x + 0)%float = true.
Proof.
  intros N. rewrite leb_sf, add_sf, sf_zero.
  pose proof (leb_refl x N) as R. rewrite leb_sf in R.
  destruct (sf x) as [[]|[]| |s m e]; try discriminate; try reflexivity; exact R.
Qed.

Lemma add_nonneg_ge x c :
  not_nan (sf x) = true -> fin (sf c) = true -> (0 <=? c)%float = true ->
  (x <=? x + c)%float = true.
Proof.
  intros N F H.
  apply (leb_trans _ (x + 0)%float); [apply add_zero_ge; assumption|].
  apply add_mono_r; try assumption. reflexivity.
Qed.

Lemma leb_zero_weak w : (0 <=? weak_company_contrib w)%float = true.
Proof. destruct w; reflexivity. Qed.

Lemma clamp_ge_unit p : PyFloat.in_unit p = true -> (p <=? clamp p)%float = true.
Proof.
  intros H. unfold PyFloat.in_unit in H. apply andb_true_iff in H as [H0 H1].
  destruct (leb_not_nan _ _ H0) as [_ N].
  destruct (clamp_cases p) as [(-> & _) | [(-> & A0 & _) | (-> & _)]].
  - apply leb_refl; assumption.
  - apply ltb_false_leb; [reflexivity|assumption|assumption].
  - assumption.
Qed.

(** ** The contributions saturate *)

Lemma capped_contrib_nonneg cap w mw ew n c :
  sf w = S754_finite false mw ew -> fin (sf cap) = true ->
  capped_contrib cap w 0 = Ok 0%float ->
  capped_contrib cap w n = Ok c -> (0 <=? c)%float = true.
Proof.
  intros Hw Hcap H0 Hc.
  exact (proj1 (capped_contrib_props cap w mw ew (Z.min 0 n) n 0%float c Hw Hcap
                  ltac:(lia)
                  ltac:(unfold capped_contrib in *;
                        replace (Z.max 0 (Z.min 0 n)) with (Z.max 0 0) by lia; exact H0)
                  Hc)).
Qed.

Lemma capped_contrib_saturated cap w mw ew N n c :
  sf w = S754_finite false mw ew -> fin (sf cap) = true ->
  capped_contrib cap w N = Ok cap -> 
  (exists f, PyFloat.of_int (Z.max 0 N) = Ok f /\ (cap <=? w * f)%float = true) ->
  N <= n -> capped_contrib cap w n = Ok c -> c = cap.
Proof.
  intros Hw Hcap HN (fN & FN & Hsat) Hn Hc.
  apply capped_contrib_inv in Hc as (f & F & ->).
  apply min_saturated. apply (leb_trans _ _ _ Hsat).
  apply (weighted_mono w mw ew Hw (Z.max 0 N) (Z.max 0 n) fN f); [lia|assumption..].
Qed.

Lemma capped_contrib_max cap w n : capped_contrib cap w (Z.max 0 n) = capped_contrib cap w n.
Proof.
  unfold capped_contrib. replace (Z.max 0 (Z.max 0 n)) with (Z.max 0 n) by lia.
  reflexivity.
Qed.

Lemma suspicion_contrib_clipped s c :
  capped_contrib 0.12 0.04 s = Ok c ->
  capped_contrib 0.12 0.04 (Z.min 3 (Z.max 0 s)) = Ok c
  /\ In c [0; 0.04; 0.08; 0.12]%float.
Proof.
  intros H. destruct (Z_lt_le_dec s 3) as [L|G].
  - replace (Z.min 3 (Z.max 0 s)) with (Z.max 0 s) by lia.
    rewrite capped_contrib_max. split; [assumption|].
    rewrite <- capped_contrib_max in H.
    assert (C : Z.max 0 s = 0 \/ Z.max 0 s = 1 \/ Z.max 0 s = 2) by lia.
    destruct C as [C|[C|C]]; rewrite C in H; vm_compute in H; injection H as <-;
      cbn; tauto.
  - replace (Z.min 3 (Z.max 0 s)) with 3 by lia.
    assert (c = 0.12%float) as ->.
    { apply (capped_contrib_saturated 0.12 0.04 _ _ 3 s c sf_weight_suspicion eq_refl);
        [reflexivity| |assumption|assumption].
      exists 3%float. split; reflexivity. }
    split; [reflexivity|cbn; tauto].
Qed.

Lemma keyword_contrib_clipped k c :
  capped_contrib 0.10 0.03 k = Ok c ->
  capped_contrib 0.10 0.03 (Z.min 4 (Z.max 0 k)) = Ok c
  /\ In c [0; 0.03; 0.06; 0.09; 0.10]%float.
Proof.
  intros H. destruct (Z_lt_le_dec k 4) as [L|G].
  - replace (Z.min 4 (Z.max 0 k)) with (Z.max 0 k) by lia.
    rewrite capped_contrib_max. split; [assumption|].
    rewrite <- capped_contrib_max in H.
    assert (C : Z.max 0 k = 0 \/ Z.max 0 k = 1 \/ Z.max 0 k = 2 \/ Z.max 0 k = 3) by lia.
    destruct C as [C|[C|[C|C]]]; rewrite C in H; vm_compute in H; injection H as <-;
      cbn; tauto.
  - replace (Z.min 4 (Z.max 0 k)) with 4 by lia.
    assert (c = 0.10%float) as ->.
    { apply (capped_contrib_saturated 0.10 0.03 _ _ 4 k c sf_weight_keywords eq_refl);
        [reflexivity| |assumption|assumption].
      exists 4%float. split; reflexivity. }
    split; [reflexivity|cbn; tauto].
Qed.

Lemma composite_risk_intro p w s k sc kc :
  capped_contrib 0.12 0.04 s = Ok sc -> capped_contrib 0.10 0.03 k = Ok kc ->
  _composite_risk p w s k
  = Ok {| Risk.score := clamp (p + weak_company_contrib w + sc + kc);
          Risk.breakdown :=
            {| Breakdown.model_probability := p;
               Breakdown.weak_company := weak_company_contrib w;
               Breakdown.suspicion_score := sc;
               Breakdown.keyword_hits := kc;
               Breakdown.clamped :=
                 PyFloat.ne (clamp (p + weak_company_contrib w + sc + kc))
                   (p + weak_company_contrib w + sc + kc) |} |}.
Proof.
  unfold _composite_risk, capped_contrib, bind.
  destruct (PyFloat.of_int (Z.max 0 s)) as [fs|]; [|discriminate].
  destruct (PyFloat.of_int (Z.max 0 k)) as [fk|]; [|discriminate].
  intros H1 H2. injection H1 as <-. injection H2 as <-. reflexivity.
Qed.

Lemma contrib_facts s k sc kc :
  capped_contrib 0.12 0.04 s = Ok sc -> capped_contrib 0.10 0.03 k = Ok kc ->
  fin (sf sc) = true /\ fin (sf kc) = true
  /\ (0 <=? sc)%float = true /\ (0 <=? kc)%float = true.
Proof.
  intros Hs Hk.
  destruct (capped_contrib_props 0.12 0.04 _ _ s s sc sc sf_weight_suspicion eq_refl
              (Z.le_refl s) Hs Hs) as (_ & _ & Fs & _).
  destruct (capped_contrib_props 0.10 0.03 _ _ k k kc kc sf_weight_keywords eq_refl
              (Z.le_refl k) Hk Hk) as (_ & _ & Fk & _).
  repeat split; try assumption.
  - exact (capped_contrib_nonneg 0.12 0.04 _ _ s sc sf_weight_suspicion eq_refl eq_refl Hs).
  - exact (capped_contrib_nonneg 0.10 0.03 _ _ k kc sf_weight_keywords eq_refl eq_refl Hk).
Qed.

(** The raw sum is not below the model probability. *)
Lemma raw_ge_probability p w sc kc :
  not_nan (sf p) = true ->
  fin (sf sc) = true -> fin (sf kc) = true ->
  (0 <=? sc)%float = true -> (0 <=? kc)%float = true ->
  (p <=? p + weak_company_contrib w + sc + kc)%float = true.
Proof.
  intros N Fs Fk Hs Hk.
  pose proof (weak_company_contrib_fin w) as Fw.
  pose proof (add_not_nan p _ Fw N) as N1.
  pose proof (add_not_nan _ _ Fs N1) as N2.
  apply (leb_trans _ (p + weak_company_contrib w)%float);
    [apply add_nonneg_ge; auto using leb_zero_weak|].
  apply (leb_trans _ (p + weak_company_contrib w + sc)%float);
    apply add_nonneg_ge; assumption.
Qed.

(** For a model probability in [0, 1], the score and the raw sum are not
    below it. *)
Lemma composite_risk_lower_bound p w s k r :
  PyFloat.in_unit p = true ->
  _composite_risk p w s k = Ok r ->
  (p <=? Risk.score r)%float = true
  /\ (p <=? raw_sum (Risk.breakdown r))%float = true.
Proof.
  intros U H. apply composite_risk_inv in H as (sc & kc & Hs & Hk & ->).
  destruct (contrib_facts _ _ _ _ Hs Hk) as (Fs & Fk & Ps & Pk).
  assert (N : not_nan (sf p) = true).
  { unfold PyFloat.in_unit in U. apply andb_true_iff in U as [U _].
    apply (leb_not_nan _ _ U). }
  pose proof (raw_ge_probability p w sc kc N Fs Fk Ps Pk) as R.
  unfold raw_sum.
  cbn [Risk.score Risk.breakdown Breakdown.model_probability Breakdown.weak_company
       Breakdown.suspicion_score Breakdown.keyword_hits].
  split; [|exact R].
  apply (leb_trans _ (clamp p)); [apply clamp_ge_unit; assumption|].
  apply clamp_mono. exact R.
Qed.

(** ** Further properties of [_composite_risk] *)

(** X18. The contributions saturate.  A call of [_composite_risk] that
    returns gives the result of the call with the suspicion score
    clipped to 0..3 and the keyword hits clipped to 0..4: a negative
    count is 0, a suspicion score above 3 counts as 3 and more than 4
    keyword hits count as 4.  The suspicion contribution is one of 0,
    0.04, 0.08 and 0.12, the keyword contribution one of 0, 0.03, 0.06,
    0.09 and 0.10. *)
Theorem composite_risk_counts_saturate prob_scam weak_company suspicion_score keyword_hits r :
  _composite_risk prob_scam weak_company suspicion_score keyword_hits = Ok r ->
  _composite_risk prob_scam weak_company
    (Z.min 3 (Z.max 0 suspicion_score)) (Z.min 4 (Z.max 0 keyword_hits)) = Ok r
  /\ In (Breakdown.suspicion_score (Risk.breakdown r)) [0; 0.04; 0.08; 0.12]%float
  /\ In (Breakdown.keyword_hits (Risk.breakdown r)) [0; 0.03; 0.06; 0.09; 0.10]%float.
Proof.
  intros H. apply composite_risk_inv in H as (sc & kc & Hs & Hk & ->).
  apply suspicion_contrib_clipped in Hs as [Hs Is].
  apply keyword_contrib_clipped in Hk as [Hk Ik].
  split; [apply composite_risk_intro; assumption|].
  cbn [Risk.breakdown Breakdown.suspicion_score Breakdown.keyword_hits].
  split; assumption.
Qed.

Lemma composite_risk_counts_saturate_witness :
  exists r,
    _composite_risk 0.45 true 250 (-7) = Ok r
    /\ _composite_risk 0.45 true 3 0 = Ok r
    /\ Breakdown.suspicion_score (Risk.breakdown r) = 0.12%float
    /\ Breakdown.keyword_hits (Risk.breakdown r) = 0%float.
Proof.
  destruct (_composite_risk 0.45 true 250 (-7)) as [r|e] eqn:E;
    [|vm_compute in E; discriminate].
  exists r. split; [reflexivity|].
  split; [exact (proj1 (composite_risk_counts_saturate 0.45 true 250 (-7) r E))|].
  vm_compute in E. injection E as <-. split; reflexivity.
Defined.

(** X19. The heuristics never lower the risk: for a model probability
    in [0, 1], the composite score of a call that returns is at least
    the model probability, and the raw sum is too. *)
Theorem composite_score_at_least_probability prob_scam weak_company suspicion_score
    keyword_hits r :
  PyFloat.in_unit prob_scam = true ->
  _composite_risk prob_scam weak_company suspicion_score keyword_hits = Ok r ->
  (prob_scam <=? Risk.score r)%float = true
  /\ (prob_scam <=? raw_sum (Risk.breakdown r))%float = true.
Proof. apply composite_risk_lower_bound. Qed.

Lemma composite_score_at_least_probability_witness :
  exists r,
    _composite_risk 0.45 true 2 1 = Ok r
    /\ (0.45 <=? Risk.score r)%float = true.
Proof.
  destruct (_composite_risk 0.45 true 2 1) as [r|e] eqn:E;
    [|vm_compute in E; discriminate].
  exists r. split; [reflexivity|].
  exact (proj1 (composite_score_at_least_probability 0.45 true 2 1 r eq_refl E)).
Defined.

(** X20. The composite score is monotone in the model probability and
    in the weak-company signal: with the same counts, a larger model
    probability does not give a smaller score, and a weak company does
    not give a smaller score than a company that is not weak. *)
Theorem composite_risk_monotone_in_probability_and_weakness suspicion_score keyword_hits :
  (forall p1 p2 weak_company r1 r2,
      (p1 <=? p2)%float = true ->
      _composite_risk p1 weak_company suspicion_score keyword_hits = Ok r1 ->
      _composite_risk p2 weak_company suspicion_score keyword_hits = Ok r2 ->
      (Risk.score r1 <=? Risk.score r2)%float = true)
  /\ (forall prob_scam r1 r2,
        _composite_risk prob_scam false suspicion_score keyword_hits = Ok r1 ->
        _composite_risk prob_scam true suspicion_score keyword_hits = Ok r2 ->
        (Risk.score r1 <=? Risk.score r2)%float = true).
Proof.
  split.
  - intros p1 p2 w r1 r2 Hp H1 H2.
    apply composite_risk_inv in H1 as (sc & kc & Hs & Hk & ->).
    apply composite_risk_inv in H2 as (sc' & kc' & Hs' & Hk' & ->).
    assert (sc' = sc) as -> by congruence. assert (kc' = kc) as -> by congruence.
    destruct (contrib_facts _ _ _ _ Hs Hk) as (Fs & Fk & _).
    cbn [Risk.score]. apply clamp_mono.
    apply add_mono_l; [assumption|]. apply add_mono_l; [assumption|].
    apply add_mono_l; [apply weak_company_contrib_fin|assumption].
  - intros p r1 r2 H1 H2.
    apply composite_risk_inv in H1 as (sc & kc & Hs & Hk & ->).
    apply composite_risk_inv in H2 as (sc' & kc' & Hs' & Hk' & ->).
    assert (sc' = sc) as -> by congruence. assert (kc' = kc) as -> by congruence.
    destruct (contrib_facts _ _ _ _ Hs Hk) as (Fs & Fk & _).
    cbn [Risk.score]. destruct (not_nan (sf p)) eqn:N.
    + apply clamp_mono.
      apply add_mono_l; [assumption|]. apply add_mono_l; [assumption|].
      apply add_mono_r; try assumption; reflexivity.
    + rewrite !clamp_nan by (apply add_nan, add_nan, add_nan; assumption). reflexivity.
Qed.

Lemma composite_risk_monotone_in_probability_and_weakness_witness :
  exists r1 r2 r3,
    _composite_risk 0.30 false 1 2 = Ok r1
    /\ _composite_risk 0.45 false 1 2 = Ok r2
    /\ _composite_risk 0.45 true 1 2 = Ok r3
    /\ (Risk.score r1 <=? Risk.score r2)%float = true
    /\ (Risk.score r2 <=? Risk.score r3)%float = true.
Proof.
  destruct (_composite_risk 0.30 false 1 2) as [r1|e] eqn:E1;
    [|vm_compute in E1; discriminate].
  destruct (_composite_risk 0.45 false 1 2) as [r2|e] eqn:E2;
    [|vm_compute in E2; discriminate].
  destruct (_composite_risk 0.45 true 1 2) as [r3|e] eqn:E3;
    [|vm_compute in E3; discriminate].
  exists r1, r2, r3. repeat split.
  - apply (proj1 (composite_risk_monotone_in_probability_and_weakness 1 2)
             0.30%float 0.45%float false r1 r2); [reflexivity|assumption..].
  - apply (proj2 (composite_risk_monotone_in_probability_and_weakness 1 2)
             0.45%float r2 r3); assumption.
Defined.

(** X21. The breakdown's [clamped] is set exactly when the raw sum is
    outside [0, 1] or not a number; when it is not set, the score equals
    the raw sum.  For a model probability in [0, 1] it is set exactly
    when the raw sum exceeds 1. *)
Theorem clamped_iff_raw_outside_unit prob_scam weak_company suspicion_score keyword_hits r :
  _composite_risk prob_scam weak_company suspicion_score keyword_hits = Ok r ->
  let raw := raw_sum (Risk.breakdown r) in
  Breakdown.clamped (Risk.breakdown r) = negb (PyFloat.in_unit raw)
  /\ (Breakdown.clamped (Risk.breakdown r) = false ->
      (Risk.score r =? raw)%float = true)
  /\ (PyFloat.in_unit prob_scam = true ->
      Breakdown.clamped (Risk.breakdown r) = (1 <? raw)%float).
Proof.
  intros H. pose proof H as H'.
  apply composite_risk_inv in H as (sc & kc & Hs & Hk & ->).
  cbv zeta. unfold raw_sum.
  cbn [Risk.score Risk.breakdown Breakdown.model_probability Breakdown.weak_company
       Breakdown.suspicion_score Breakdown.keyword_hits Breakdown.clamped].
  set (raw := (prob_scam + weak_company_contrib weak_company + sc + kc)%float).
  assert (C : PyFloat.ne (clamp raw) raw = negb (PyFloat.in_unit raw)).
  { unfold PyFloat.ne, PyFloat.in_unit. f_equal. rewrite eqb_leb.
    destruct (clamp_cases raw) as [(-> & A0 & A1) | [(-> & A0 & A1) | (-> & A1)]].
    - destruct (leb_not_nan _ _ (ltb_leb _ _ A0)) as [_ N].
      rewrite (leb_refl raw N), (ltb_leb _ _ A0), (ltb_leb _ _ A1). reflexivity.
    - destruct (leb_not_nan _ _ (ltb_leb _ _ A1)) as [N _].
      rewrite (ltb_false_leb 0 raw eq_refl N A0), (ltb_leb _ _ A1).
      rewrite !andb_true_r. reflexivity.
    - destruct (not_nan (sf raw)) eqn:N.
      + pose proof (ltb_false_leb raw 1 N eq_refl A1) as L.
        rewrite L, andb_true_l.
        assert (Z0 : (0 <=? raw)%float = true)
          by (apply (leb_trans _ 1%float); [reflexivity|assumption]).
        rewrite Z0. reflexivity.
      + assert (L : (raw <=? 1)%float = false).
        { destruct (raw <=? 1)%float eqn:E; [|reflexivity].
          apply leb_not_nan in E as [E _]. congruence. }
        rewrite L, !andb_false_r. reflexivity. }
  split; [exact C|]. split.
  - unfold PyFloat.ne. intros E. apply negb_false_iff in E. exact E.
  - intros U. rewrite C.
    destruct (composite_risk_lower_bound _ _ _ _ _ U H') as [_ R].
    unfold raw_sum in R.
    cbn [Risk.breakdown Breakdown.model_probability Breakdown.weak_company
         Breakdown.suspicion_score Breakdown.keyword_hits] in R. fold raw in R.
    unfold PyFloat.in_unit in *. apply andb_true_iff in U as [U0 _].
    rewrite (leb_trans _ _ _ U0 R), andb_true_l.
    destruct (leb_not_nan _ _ R) as [_ N].
    destruct (raw <=? 1)%float eqn:L; cbn [negb].
    + symmetry. apply leb_ltb_false. assumption.
    + destruct (1 <? raw)%float eqn:G; [reflexivity|].
      apply ltb_false_leb in G; [congruence|reflexivity|assumption].
Qed.

Lemma clamped_iff_raw_outside_unit_witness :
  exists r1 r2,
    _composite_risk 0.7 true 3 4 = Ok r1
    /\ _composite_risk 0.71 true 3 4 = Ok r2
    /\ Breakdown.clamped (Risk.breakdown r1) = false
    /\ Breakdown.clamped (Risk.breakdown r2) = true.
Proof.
  destruct (_composite_risk 0.7 true 3 4) as [r1|e] eqn:E1;
    [|vm_compute in E1; discriminate].
  destruct (_composite_risk 0.71 true 3 4) as [r2|e] eqn:E2;
    [|vm_compute in E2; discriminate].
  exists r1, r2. split; [reflexivity|]. split; [reflexivity|].
  rewrite (proj1 (clamped_iff_raw_outside_unit _ _ _ _ _ E1)).
  rewrite (proj1 (clamped_iff_raw_outside_unit _ _ _ _ _ E2)).
  vm_compute in E1, E2. injection E1 as <-. injection E2 as <-.
  split; vm_compute; reflexivity.
Defined.

(** ** Rounding to four decimals is monotone on the unit interval *)

Lemma quotient4_steps :
  forallb quotient4_step_ok (map Pos.of_nat (seq 1 (Z.to_nat 9999))) = true.
Proof. vm_compute. reflexivity. Qed.

Lemma quotient4_step n :
  Zpos n < 10000 -> (quotient4_float n <=? quotient4_float (Pos.succ n))%float = true.
Proof.
  intros H. pose proof quotient4_steps as T. rewrite forallb_forall in T.
  apply (T n). rewrite <- (Pos2Nat.id n) at 1. apply in_map. apply in_seq. lia.
Qed.

Lemma quotient4_float_mono a b :
  Zpos a <= Zpos b <= 10000 ->
  (quotient4_float a <=? quotient4_float b)%float = true.
Proof.
  intros [Hab Hb].
  assert (G : forall d a, Zpos a + Z.of_nat d <= 10000 ->
                (quotient4_float a
                 <=? quotient4_float (Z.to_pos (Zpos a + Z.of_nat d)))%float = true).
  { induction d as [|d IH]; intros a' H.
    - rewrite Z.add_0_r. cbn [Z.to_pos].
      apply leb_refl. unfold quotient4_float, sf.
      pose proof (quotient4_in_unit a' ltac:(lia)) as Q. unfold quotient4_ok in Q.
      apply andb_true_iff in Q as [Q _]. apply andb_true_iff in Q as [Qv Q0].
      rewrite Prim2SF_SF2Prim by assumption.
      apply (SFleb_not_nan _ _ Q0).
    - apply (leb_trans _ (quotient4_float (Z.to_pos (Zpos a' + Z.of_nat d)))).
      + apply IH. lia.
      + replace (Z.to_pos (Zpos a' + Z.of_nat (S d)))
          with (Pos.succ (Z.to_pos (Zpos a' + Z.of_nat d))) by lia.
        apply quotient4_step. lia. }
  specialize (G (Z.to_nat (Zpos b - Zpos a)) a).
  replace (Zpos a + Z.of_nat (Z.to_nat (Zpos b - Zpos a))) with (Zpos b) in G by lia.
  cbn [Z.to_pos] in G. apply G. lia.
Qed.

(** The number of ten-thousandths that [round4] takes for a positive
    number that is at most 1. *)
Lemma round4_count_mono m1 e1 m2 e2 :
  valid_binary (S754_finite false m1 e1) = true ->
  valid_binary (S754_finite false m2 e2) = true ->
  SFleb (S754_finite false m1 e1) (S754_finite false m2 e2) = true ->
  PyFloat.rne_shift (Zpos m1 * 10000) e1 <= PyFloat.rne_shift (Zpos m2 * 10000) e2.
Proof.
  intros V1 V2 H.
  pose proof (SFleb_dle (S754_finite false m1 e1) (S754_finite false m2 e2) 0 0
                eq_refl eq_refl V1 V2 H) as D.
  cbn [sval sexp] in D.
  pose proof (dle_mul 10000 _ _ _ _ 0 ltac:(lia) D) as D'.
  cbn [Z.add] in D'.
  rewrite (Z.mul_comm 10000 (Zpos m1)), (Z.mul_comm 10000 (Zpos m2)) in D'.
  apply rne_shift_mono; [lia|lia|exact D'].
Qed.

Lemma round4_mono_unit x y :
  PyFloat.in_unit x = true -> PyFloat.in_unit y = true ->
  (x <=? y)%float = true ->
  (PyFloat.round4 x <=? PyFloat.round4 y)%float = true.
Proof.
  intros Ux Uy H.
  pose proof (round4_in_unit y Uy) as Ry. unfold PyFloat.in_unit in Ry.
  apply andb_true_iff in Ry as [Ry0 _].
  pose proof Ux as Ux'. pose proof Uy as Uy'. unfold PyFloat.in_unit in Ux', Uy'.
  apply andb_true_iff in Ux' as [X0 X1]. apply andb_true_iff in Uy' as [Y0 Y1].
  rewrite leb_sf in X0, X1, Y0, Y1, H. rewrite sf_zero in X0, Y0. rewrite sf_one in X1, Y1.
  pose proof (sf_valid x) as Vx. pose proof (sf_valid y) as Vy.
  unfold PyFloat.round4 at 1. unfold sf in *.
  destruct (Prim2SF x) as [sx|[]| |[] mx ex] eqn:Ex; try discriminate.
  - (* x is a zero *)
    apply (leb_trans _ 0%float); [|exact Ry0].
    rewrite leb_sf. unfold sf. rewrite Ex. destruct sx; reflexivity.
  - (* x is positive *)
    unfold PyFloat.round4.
    destruct (Prim2SF y) as [sy|[]| |[] my ey] eqn:Ey; try discriminate.
    pose proof (round4_count_mono mx ex my ey Vx Vy H) as C.
    pose proof (round4_count_mono my ey 4503599627370496 (-52) Vy eq_refl Y1) as C1.
    change (PyFloat.rne_shift (4503599627370496 * 10000) (-52)) with 10000 in C1.
    pose proof (rne_shift_nonneg (Zpos mx * 10000) ex ltac:(lia)) as Nx.
    destruct (PyFloat.rne_shift (Zpos mx * 10000) ex) as [|a|a]; [|clear Nx|lia].
    + (* the count of x is 0 *)
      destruct (PyFloat.rne_shift (Zpos my * 10000) ey) as [|b|b]; [reflexivity| |lia].
      pose proof (quotient4_in_unit b C1) as Q. unfold quotient4_ok in Q.
      apply andb_true_iff in Q as [Q _]. apply andb_true_iff in Q as [Qv Q0].
      rewrite leb_sf. unfold sf. fold (quotient4 b).
      rewrite Prim2SF_SF2Prim by assumption. exact Q0.
    + destruct (PyFloat.rne_shift (Zpos my * 10000) ey) as [|b|b]; [lia| |lia].
      apply (quotient4_float_mono a b). lia.
Qed.

Lemma round4_half : PyFloat.round4 0.5 = 0.5%float.
Proof. vm_compute. reflexivity. Qed.

(** ** The complement [1 - p] of a probability *)

Lemma sub_sf a b : sf (a - b) = SFsub prec emax (sf a) (sf b).
Proof. apply sub_spec. Qed.

Lemma one_minus_unit p :
  PyFloat.in_unit p = true -> PyFloat.in_unit (1 - p) = true.
Proof.
  intros U. unfold PyFloat.in_unit in *. apply andb_true_iff in U as [U0 U1].
  rewrite !leb_sf in *. rewrite sub_sf. rewrite sf_zero in *. rewrite sf_one in *.
  pose proof (sf_valid p) as V. unfold sf in *.
  destruct (Prim2SF p) as [s|[]| |[] m e]; try discriminate.
  - destruct s; reflexivity.
  - cbn [SFsub cond_Zopp].
    rewrite binary_normalize_rndZ.
    pose proof (SFleb_dle (S754_finite false m e)
                  (S754_finite false 4503599627370496 (-52)) 0 0
                  eq_refl eq_refl V eq_refl U1) as D.
    cbn [sval sexp] in D. unfold dle in D.
    rewrite !shl_align_val by lia.
    rewrite (Z.min_comm (-52) e).
    set (M := 4503599627370496 * 2 ^ (-52 - Z.min e (-52))
              - Zpos m * 2 ^ (e - Z.min e (-52))) in *.
    assert (M0 : 0 <= M) by (subst M; lia).
    assert (P : 0 < 2 ^ (e - Z.min e (-52))) by (apply Z.pow_pos_nonneg; lia).
    apply andb_true_iff. split.
    + change (S754_zero false) with (rndZ 0 0). apply rndZ_mono.
      apply dle_zero_l. assumption.
    + rewrite <- (rnd_canonical false 4503599627370496 (-52) eq_refl).
      change (rnd false 4503599627370496 (-52)) with (rndZ 4503599627370496 (-52)).
      apply rndZ_mono. unfold dle.
      replace (Z.min (Z.min e (-52)) (-52)) with (Z.min e (-52)) by lia.
      replace (Z.min e (-52) - Z.min e (-52)) with 0 by lia.
      rewrite Z.mul_1_r. subst M. nia.
Qed.

(** ** The returned probabilities and the returned risk score *)

(** X22. The label agrees with the returned, rounded scam probability:
    for a model probability in [0, 1], the label ["scam"] comes with a
    returned scam probability of at least 0.5 and the label ["legit"]
    with one of at most 0.5, which it can reach: 0.49996 is returned as
    0.5 with the label ["legit"]. *)
Theorem label_agrees_with_returned_probability model a r :
  predict_job model a = Ok r ->
  PyFloat.in_unit (Breakdown.model_probability (Prediction.risk_breakdown r)) = true ->
  (Prediction.prediction r = "scam" ->
   (0.5 <=? Probabilities.scam (Prediction.probabilities r))%float = true)
  /\ (Prediction.prediction r = "legit" ->
      (Probabilities.scam (Prediction.probabilities r) <=? 0.5)%float = true).
Proof.
  intros H. apply predict_job_inv in H.
  destruct H as (p & fi & ei & gi & si & risk & mw & se & sp & _ & _ & _ & _ & H).
  cbv zeta in H. destruct H as (_ & Hrisk & _ & _ & _ & ->).
  apply composite_risk_inv in Hrisk as (sc & kc & _ & _ & ->).
  cbn [Prediction.risk_breakdown Risk.breakdown Breakdown.model_probability
       Prediction.prediction Prediction.probabilities Probabilities.scam].
  intros U.
  assert (N : not_nan (sf p) = true).
  { unfold PyFloat.in_unit in U. apply andb_true_iff in U as [U _].
    apply (leb_not_nan _ _ U). }
  unfold PyFloat.ge.
  destruct (0.5 <=? p)%float eqn:E; split; intros L; try discriminate.
  - pose proof (round4_mono_unit 0.5 p eq_refl U E) as M.
    rewrite round4_half in M. exact M.
  - assert (G : (p <=? 0.5)%float = true).
    { destruct (p <? 0.5)%float eqn:G; [apply ltb_leb; assumption|].
      apply ltb_false_leb in G; [congruence|assumption|reflexivity]. }
    pose proof (round4_mono_unit p 0.5 U eq_refl G) as M.
    rewrite round4_half in M. exact M.
Qed.

Lemma label_agrees_with_returned_probability_witness :
  exists r,
    predict_job (demo_model 0.49996) no_args = Ok r
    /\ Prediction.prediction r = "legit"
    /\ Probabilities.scam (Prediction.probabilities r) = 0.5%float
    /\ (Probabilities.scam (Prediction.probabilities r) <=? 0.5)%float = true.
Proof.
  destruct (predict_job (demo_model 0.49996) no_args) as [r|e] eqn:E;
    [|vm_compute in E; discriminate].
  exists r. split; [reflexivity|].
  assert (L : Prediction.prediction r = "legit")
    by (vm_compute in E; injection E as <-; reflexivity).
  split; [exact L|]. split.
  - vm_compute in E. injection E as <-. reflexivity.
  - apply (proj2 (label_agrees_with_returned_probability (demo_model 0.49996) no_args r E
                    ltac:(vm_compute in E; injection E as <-; reflexivity)) L).
Defined.

(** X23. For a model probability in [0, 1], the returned risk score is
    not below the returned scam probability. *)
Theorem risk_score_at_least_scam_probability model a r :
  predict_job model a = Ok r ->
  PyFloat.in_unit (Breakdown.model_probability (Prediction.risk_breakdown r)) = true ->
  (Probabilities.scam (Prediction.probabilities r) <=? Prediction.risk_score r)%float
  = true.
Proof.
  intros H. apply predict_job_inv in H.
  destruct H as (p & fi & ei & gi & si & risk & mw & se & sp & _ & _ & _ & _ & H).
  cbv zeta in H. destruct H as (_ & Hrisk & _ & _ & _ & ->).
  cbn [Prediction.risk_breakdown Prediction.probabilities Prediction.risk_score
       Probabilities.scam].
  pose proof Hrisk as Hr.
  apply composite_risk_inv in Hrisk as (sc & kc & _ & _ & E).
  rewrite E at 1. cbn [Risk.breakdown Breakdown.model_probability]. intros U.
  destruct (composite_risk_lower_bound _ _ _ _ _ U Hr) as [S _].
  apply round4_mono_unit; [assumption| |assumption].
  rewrite E. cbn [Risk.score]. apply clamp_in_unit.
Qed.

Lemma risk_score_at_least_scam_probability_witness :
  exists r,
    predict_job (demo_model 0.45) scam_test = Ok r
    /\ (Probabilities.scam (Prediction.probabilities r) <=? Prediction.risk_score r)%float
       = true.
Proof.
  destruct (predict_job (demo_model 0.45) scam_test) as [r|e] eqn:E;
    [|vm_compute in E; discriminate].
  exists r. split; [reflexivity|].
  apply (risk_score_at_least_scam_probability (demo_model 0.45) scam_test r E).
  vm_compute in E. injection E as <-. reflexivity.
Defined.

(** X24. For a model probability [p] in [0, 1], the two returned
    probabilities, [round(p, 4)] and [round(1.0 - p, 4)], lie in
    [0, 1]. *)
Theorem returned_probabilities_in_unit model a r :
  predict_job model a = Ok r ->
  let p := Breakdown.model_probability (Prediction.risk_breakdown r) in
  PyFloat.in_unit p = true ->
  Probabilities.scam (Prediction.probabilities r) = PyFloat.round4 p
  /\ Probabilities.legit (Prediction.probabilities r) = PyFloat.round4 (1 - p)
  /\ PyFloat.in_unit (Probabilities.scam (Prediction.probabilities r)) = true
  /\ PyFloat.in_unit (Probabilities.legit (Prediction.probabilities r)) = true.
Proof.
  intros H. apply predict_job_inv in H.
  destruct H as (p & fi & ei & gi & si & risk & mw & se & sp & _ & _ & _ & _ & H).
  cbv zeta in H. destruct H as (_ & Hrisk & _ & _ & _ & ->).
  apply composite_risk_inv in Hrisk as (sc & kc & _ & _ & ->).
  cbv zeta.
  cbn [Prediction.risk_breakdown Risk.breakdown Breakdown.model_probability
       Prediction.probabilities Probabilities.scam Probabilities.legit].
  intros U. split; [reflexivity|]. split; [reflexivity|]. split.
  - apply round4_in_unit. assumption.
  - apply round4_in_unit, one_minus_unit. assumption.
Qed.

Lemma returned_probabilities_in_unit_witness :
  exists r,
    predict_job (demo_model 0.12345) no_args = Ok r
    /\ Probabilities.scam (Prediction.probabilities r) = 0.1235%float
    /\ Probabilities.legit (Prediction.probabilities r) = 0.8765%float
    /\ PyFloat.in_unit (Probabilities.legit (Prediction.probabilities r)) = true.
Proof.
  destruct (predict_job (demo_model 0.12345) no_args) as [r|e] eqn:E;
    [|vm_compute in E; discriminate].
  exists r. split; [reflexivity|].
  pose proof (returned_probabilities_in_unit (demo_model 0.12345) no_args r E) as H.
  cbv zeta in H.
  assert (U : PyFloat.in_unit (Breakdown.model_probability (Prediction.risk_breakdown r))
              = true)
    by (vm_compute in E; injection E as <-; reflexivity).
  destruct (H U) as (_ & _ & _ & L).
  vm_compute in E. injection E as <-.
  split; [reflexivity|]. split; [reflexivity|]. exact L.
Defined.

(** ** Substrings of a concatenation *)

Lemma prefix_app needle s b :
  prefix needle s = true -> prefix needle (s ++ b) = true.
Proof.
  revert s. induction needle as [|c n IH]; intros s H; [destruct (s ++ b); reflexivity|].
  destruct s as [|d s']; [discriminate|].
  cbn [append]. rewrite prefix_cons in *.
  apply andb_true_iff in H as [E P]. rewrite E, (IH _ P). reflexivity.
Qed.

Lemma contains_app_l needle s b :
  PyStr.contains needle s = true -> PyStr.contains needle (s ++ b) = true.
Proof.
  induction s as [|c s' IH]; intros H.
  - cbn [PyStr.contains] in H. rewrite orb_false_r in H.
    destruct needle; [|discriminate]. destruct b; reflexivity.
  - cbn [append]. rewrite contains_cons in *.
    apply orb_true_iff in H as [H|H].
    + change (String c (s' ++ b)) with (String c s' ++ b).
      rewrite (prefix_app _ _ b H). reflexivity.
    + rewrite (IH H). apply orb_true_r.
Qed.

Lemma contains_app_r needle a s :
  PyStr.contains needle s = true -> PyStr.contains needle (a ++ s) = true.
Proof.
  intros H. induction a as [|c a' IH]; [exact H|].
  cbn [append]. rewrite contains_cons, IH. apply orb_true_r.
Qed.

Lemma lower_app a b : PyStr.lower (a ++ b) = PyStr.lower a ++ PyStr.lower b.
Proof.
  induction a as [|c a' IH]; [reflexivity|].
  cbn [append PyStr.lower]. rewrite IH. reflexivity.
Qed.

(** What occurs in a lower-cased field occurs in the lower-cased text. *)
Lemma contains_field needle a field :
  In field [ Args.title a; Args.description a; Args.requirements a;
             Args.company_profile a ] ->
  PyStr.contains needle (PyStr.lower (Py.str_or_empty field)) = true ->
  PyStr.contains needle (PyStr.lower (combined_text a)) = true.
Proof.
  intros I H. unfold combined_text. cbn [PyStr.join]. rewrite !lower_app.
  cbn [In] in I. destruct I as [<-|[<-|[<-|[<-|[]]]]].
  - apply contains_app_l. exact H.
  - apply contains_app_r, contains_app_r, contains_app_l. exact H.
  - do 4 apply contains_app_r. apply contains_app_l. exact H.
  - do 6 apply contains_app_r. exact H.
Qed.

(** ** Keywords in a field *)

(** X25. Nine of the ten keywords are never missed: when one of them
    (any keyword but [earn $]) occurs in the lower-cased title,
    description, requirements or company profile, it is reported. *)
Theorem keyword_in_a_field_is_reported model a r kw field :
  predict_job model a = Ok r ->
  In kw [ "work from home"; "no experience"; "quick money"; "gmail.com"; "telegram";
          "whatsapp"; "fast cash"; "limited slots"; "easy income" ] ->
  In field [ Args.title a; Args.description a; Args.requirements a;
             Args.company_profile a ] ->
  PyStr.contains kw (PyStr.lower (Py.str_or_empty field)) = true ->
  In kw (Signals.keywords_triggered (Prediction.signals r)).
Proof.
  intros H K F C. rewrite (keywords_triggered_eq _ _ _ H), found_keywords_In.
  pose proof (contains_field kw a field F C) as T.
  cbn [In] in K.
  destruct K as [<-|[<-|[<-|[<-|K]]]];
    [split; [cbn; tauto|rewrite search_literal by reflexivity; exact T]..| |].
  - split; [cbn; tauto|]. unfold Re.search.
    change (Re.compile "gmail.com")
      with (Re.compile "gmail" ++ Re.AnyChar :: Re.compile "com")%list.
    apply search_wildcard; [reflexivity..|].
    exists "."%char. split; [reflexivity|exact T].
  - repeat (destruct K as [<-|K];
            [split; [cbn; tauto|rewrite search_literal by reflexivity; exact T]|]).
    contradiction.
Qed.

Lemma keyword_in_a_field_is_reported_witness :
  exists r,
    predict_job (demo_model 0.9) scam_test = Ok r
    /\ In "no experience" (Signals.keywords_triggered (Prediction.signals r)).
Proof.
  destruct (predict_job (demo_model 0.9) scam_test) as [r|e] eqn:E;
    [|vm_compute in E; discriminate].
  exists r. split; [reflexivity|].
  apply (keyword_in_a_field_is_reported (demo_model 0.9) scam_test r "no experience"
           (Args.description scam_test) E); [cbn; tauto|cbn; tauto|].
  vm_compute. reflexivity.
Defined.

(** ** The company strength of a response *)

(** X26. A response of [analyze_job] to a request whose company strength
    passed [validate_company_strength] has one of the company strengths
    [weak], [medium] and [strong]: the validated one when one was sent,
    whatever the counts are, and the derived one otherwise. *)
Theorem response_company_strength_is_allowed model payload raw resp :
  Api.validate_company_strength raw = Ok (Api.AnalyzeJobRequest.company_strength payload) ->
  Api.analyze_job model payload = Api.Response resp ->
  In (Signals.company_strength (Api.AnalyzeJobResponse.signals resp))
     ["weak"; "medium"; "strong"]
  /\ (forall s, raw = Some s ->
        Signals.company_strength (Api.AnalyzeJobResponse.signals resp) = PyStr.lower s).
Proof.
  intros V H. unfold Api.analyze_job in H.
  destruct (predict_job model (Api.arguments payload)) as [r|e] eqn:E; [|discriminate].
  injection H as <-. cbn [Api.AnalyzeJobResponse.signals].
  apply predict_job_inv in E.
  destruct E as (p & fi & ei & gi & si & risk & mw & se & sp & _ & _ & _ & _ & E).
  cbv zeta in E. destruct E as (_ & _ & _ & _ & _ & ->).
  cbn [Prediction.signals Signals.company_strength Api.arguments Args.company_strength].
  unfold Api.validate_company_strength in V. cbv zeta in V.
  destruct raw as [s|].
  - destruct (existsb (String.eqb (PyStr.lower s)) Api.allowed) eqn:A; [|discriminate].
    cbn [negb] in V. injection V as <-.
    apply existsb_exists in A as (x & I & Ex). apply String.eqb_eq in Ex. subst x.
    assert (F : Py.falsy (Some (PyStr.lower s)) = false).
    { unfold Api.allowed in I. cbn [In] in I.
      destruct I as [<-|[<-|[<-|[]]]]; reflexivity. }
    rewrite F. cbn [Py.str_or_empty]. split; [exact I|].
    intros s' Es. injection Es as <-. reflexivity.
  - injection V as <-. cbn [Py.falsy]. split; [|discriminate].
    unfold _compute_company_strength.
    destruct ((fi <? 500) || (ei <? 20)); [cbn; tauto|].
    destruct ((500 <=? fi) && (fi <=? 5000)); cbn; tauto.
Qed.

Lemma response_company_strength_is_allowed_witness :
  exists resp,
    Api.analyze_job (demo_model 0.5) (Api.clerk_request (Some "strong") None None)
    = Api.Response resp
    /\ Signals.company_strength (Api.AnalyzeJobResponse.signals resp) = "strong"
    /\ Signals.followers (Api.AnalyzeJobResponse.signals resp) = 120.
Proof.
  destruct (Api.analyze_job (demo_model 0.5) (Api.clerk_request (Some "strong") None None))
    as [resp|code] eqn:E; [|vm_compute in E; discriminate].
  exists resp. split; [reflexivity|]. split.
  - exact (proj2 (response_company_strength_is_allowed (demo_model 0.5)
                    (Api.clerk_request (Some "strong") None None)
                    (Some "STRONG") resp eq_refl E)
             "STRONG" eq_refl).
  - vm_compute in E. injection E as <-. reflexivity.
Defined.

(** ** The columns of the enrichment script *)

(** X27. In [data_enrichment] every derived flag is 0 or 1 and the
    suspicion score is their sum, between 0 and 3, also on missing
    cells: a missing description or requirements cell, read as the text
    [nan], raises no flag, and a missing company profile sets both the
    website flag and the short-profile flag. *)
Theorem enrichment_columns_on_missing_cells row :
  let m := Enrichment.missing_website_flag (Enrichment.Row.company_profile row) in
  let e := Enrichment.suspicious_email_flag row in
  let s := Enrichment.short_profile_flag (Enrichment.Row.company_profile row) in
  (m = 0 \/ m = 1) /\ (e = 0 \/ e = 1) /\ (s = 0 \/ s = 1)
  /\ 0 <= Enrichment.suspicion_score row <= 3
  /\ (Enrichment.Row.company_profile row = Enrichment.NaN -> m = 1 /\ s = 1)
  /\ (Enrichment.Row.description row = Enrichment.NaN ->
      Enrichment.Row.requirements row = Enrichment.NaN -> e = 0)
  /\ (Enrichment.Row.description row = Enrichment.NaN ->
      e = Enrichment.suspicious_contact (Enrichment.Row.requirements row)).
Proof.
  cbv zeta.
  assert (B : forall x, Enrichment.suspicious_contact x = 0
                        \/ Enrichment.suspicious_contact x = 1).
  { intros [|t]; cbn [Enrichment.suspicious_contact]; [auto|].
    destruct (existsb _ _); auto. }
  assert (M : Enrichment.missing_website_flag (Enrichment.Row.company_profile row) = 0
              \/ Enrichment.missing_website_flag (Enrichment.Row.company_profile row) = 1).
  { unfold Enrichment.missing_website_flag. destruct (_ || _); auto. }
  assert (S : Enrichment.short_profile_flag (Enrichment.Row.company_profile row) = 0
              \/ Enrichment.short_profile_flag (Enrichment.Row.company_profile row) = 1).
  { unfold Enrichment.short_profile_flag. destruct (_ || _); auto. }
  assert (E : Enrichment.suspicious_email_flag row = 0
              \/ Enrichment.suspicious_email_flag row = 1).
  { unfold Enrichment.suspicious_email_flag, Enrichment.or_int.
    destruct (B (Enrichment.Text (Enrichment.str (Enrichment.Row.description row))))
      as [-> | ->]; [apply B|auto]. }
  split; [exact M|]. split; [exact E|]. split; [exact S|]. split.
  { unfold Enrichment.suspicion_score. lia. }
  split; [|split].
  - intros ->. split; reflexivity.
  - intros Hd Hr. unfold Enrichment.suspicious_email_flag. rewrite Hd, Hr. reflexivity.
  - intros Hd. unfold Enrichment.suspicious_email_flag. rewrite Hd.
    destruct (Enrichment.Row.requirements row); reflexivity.
Qed.
